(** * Cannect customer-intelligence pipeline: sync, classify, aggregate

    A shallow embedding of the three pipeline scripts

      - [scripts/cannect-intel-v2/classifier/sync.py]
      - [scripts/cannect-intel-v2/classifier/classifier_parallel.py]
      - [scripts/cannect-intel-v2/classifier/build_profiles.py]

    and of the JSON recovery of [scripts/cannect-intel/extractor.py],
    together with the properties of the specification that concern them.

    Conventions.
    - Python [int] is [Z]; a nullable value is an [option].
    - Python [float] results of [/] are modelled by exact rationals ([Q]).
      The only floats of the pipeline are quotients of integers compared
      with a handful of constants, truncated by [int()] or rounded.
    - Timestamps are microseconds since the epoch ([Z]).
    - A string is the sequence of its bytes.
    - A table is the list of its rows; SQL [NOW()] is an explicit argument.
    - Python exceptions are values of [exn] carried by [result].
    - What lies outside the scripts is a parameter: [json.loads], the
      classifier behind the HTTP client, the parsers of [datetime], the
      iteration order of a [set]. The outcome of a call to the classifier
      is a function of its prompt, so the interleaving of the concurrent
      calls of a batch is not part of the model. *)

From Stdlib Require Import ZArith QArith Qround Lia Ascii.
From stdpp Require Import gmap strings list sorting pretty.

Open Scope Z_scope.

(** ** Exceptions *)

Inductive exn : Type :=
| IndexError
| TypeError
| JSONDecodeError
| ApiFailure (msg : string).

Inductive result (A : Type) : Type :=
| Ok (a : A)
| Raise (e : exn).
Arguments Ok {A} a.
Arguments Raise {A} e.

#[global] Instance result_ret : MRet result := fun _ a => Ok a.

#[global] Instance result_bind : MBind result := fun _ _ k r =>
  match r with
  | Ok a => k a
  | Raise e => Raise e
  end.

#[global] Instance Qle_dec (x y : Q) : Decision (x <= y)%Q.
Proof.
  destruct (Qlt_le_dec y x) as [Hlt | Hle].
  - right. now apply Qlt_not_le.
  - now left.
Defined.

Definition is_ok {A : Type} (r : result A) : bool :=
  match r with
  | Ok _ => true
  | Raise _ => false
  end.

(** [l[i]] on a Python list: [IndexError] out of range. *)
Definition py_index {A : Type} (l : list A) (i : nat) : result A :=
  match l !! i with
  | Some a => Ok a
  | None => Raise IndexError
  end.

(** ** Numbers *)

(** [int(x)] on a float: truncation toward zero. *)
Definition py_int (x : Q) : Z := Z.quot (Qnum x) (Z.pos (Qden x)).

(** [round(x, ndigits)]: nearest multiple of [10^-ndigits], ties to even. *)
Definition round_half_even (x : Q) : Z :=
  let fl := Qfloor x in
  match (x - inject_Z fl ?= 1 # 2)%Q with
  | Lt => fl
  | Gt => fl + 1
  | Eq => if Z.even fl then fl else fl + 1
  end.

Definition py_round (x : Q) (ndigits : nat) : Q :=
  let scale := inject_Z (10 ^ Z.of_nat ndigits) in
  Qred (inject_Z (round_half_even (x * scale)) / scale).

Definition sum (l : list Z) : Z := foldr Z.add 0 l.

(** [sum(l) / len(l) if l else 0] *)
Definition average (l : list Z) : Q :=
  match l with
  | [] => 0%Q
  | _ => (inject_Z (sum l) / inject_Z (Z.of_nat (length l)))%Q
  end.

(** ** [collections.Counter] *)

Section counter.
Context {A : Type} `{EqDecision A}.

(** A Counter is a dict: keys in order of first insertion. *)
Fixpoint counter_add (x : A) (c : list (A * nat)) : list (A * nat) :=
  match c with
  | [] => [(x, 1%nat)]
  | (y, n) :: c' =>
      if decide (x = y) then (y, S n) :: c' else (y, n) :: counter_add x c'
  end.

Definition Counter (l : list A) : list (A * nat) :=
  foldl (fun c x => counter_add x c) [] l.

(** [sorted(items, key=itemgetter(1), reverse=True)]: descending counts,
    equal counts in their original order. *)
Fixpoint insert_by_count (e : A * nat) (s : list (A * nat)) : list (A * nat) :=
  match s with
  | [] => [e]
  | h :: t =>
      if (e.2 <? h.2)%nat then h :: insert_by_count e t else e :: h :: t
  end.

Definition sorted_by_count (c : list (A * nat)) : list (A * nat) :=
  foldr insert_by_count [] c.

(** [Counter.most_common(n)] is [heapq.nlargest(n, items, key=count)],
    which agrees with [sorted(..., reverse=True)[:n]]. *)
Definition most_common_n (n : nat) (c : list (A * nat)) : list (A * nat) :=
  take n (sorted_by_count c).

(** [c[k]]: the count of a key, 0 for a key that is absent. *)
Fixpoint count_in (c : list (A * nat)) (k : A) : nat :=
  match c with
  | [] => 0%nat
  | (y, n) :: c' => if decide (k = y) then n else count_in c' k
  end.

(** The order of a ranking: counts do not increase. *)
Definition count_ge (a b : A * nat) : Prop := (b.2 <= a.2)%nat.

(** The number of times a value occurs in a list. *)
Definition occurrences (x : A) (l : list A) : nat :=
  length (filter (fun y => y = x) l).
End counter.

(** ** JSON values, as [json.loads] returns them *)

Module Json.
#[warnings="-register-all"]
Inductive t : Type :=
| Null
| Bool (b : bool)
| Int (z : Z)
| Str (s : string)
| Arr (items : list t)
| Obj (members : list (string * t)).

Definition eq_dec : forall a b : t, {a = b} + {a <> b}.
Proof.
  fix IH 1.
  intros a b; destruct a as [| x | x | x | xs | xs], b as [| y | y | y | ys | ys];
    try (right; discriminate).
  - now left.
  - destruct (Bool.bool_dec x y); [left; now subst | right; congruence].
  - destruct (Z.eq_dec x y); [left; now subst | right; congruence].
  - destruct (String.string_dec x y); [left; now subst | right; congruence].
  - destruct (Stdlib.Lists.List.list_eq_dec IH xs ys);
      [left; now subst | right; congruence].
  - assert (Hp : forall m n : string * t, {m = n} + {m <> n}).
    { intros [k1 v1] [k2 v2].
      destruct (String.string_dec k1 k2); [| right; congruence].
      destruct (IH v1 v2); [left; now subst | right; congruence]. }
    destruct (Stdlib.Lists.List.list_eq_dec Hp xs ys);
      [left; now subst | right; congruence].
Defined.

#[global] Instance t_eq_dec : EqDecision t := eq_dec.

(** Python truthiness of a decoded value. *)
Definition truthy (j : t) : bool :=
  match j with
  | Null => false
  | Bool b => b
  | Int z => negb (z =? 0)
  | Str s => negb (String.eqb s "")
  | Arr items => negb (Nat.eqb (length items) 0)
  | Obj members => negb (Nat.eqb (length members) 0)
  end.

(** A decoded object is a [dict]: of two members with one name the
    later one stays. Anything else is not a [dict]. *)
Definition as_dict (j : t) : option (gmap string t) :=
  match j with
  | Obj members => Some (list_to_map (reverse members))
  | _ => None
  end.
End Json.

(** ** A decoder for a fragment of JSON

    [json.loads] is a parameter of the pipeline's functions below. For
    closed examples this decoder stands in for it. It covers objects,
    arrays, strings without escapes, integers, [true], [false] and
    [null]; on such a text it returns what [json.loads] returns, and it
    rejects what [json.loads] rejects. Escapes and floats are outside the
    fragment and are rejected too. *)

Module JsonText.

Definition dquote : ascii := "034"%char.
Definition backslash : ascii := "092"%char.

Definition is_ws (c : ascii) : bool :=
  (c =? " ")%char || (c =? "009")%char || (c =? "010")%char || (c =? "013")%char.

Definition is_digit (c : ascii) : bool :=
  let n := nat_of_ascii c in (48 <=? n)%nat && (n <=? 57)%nat.

Definition digit_value (c : ascii) : Z := Z.of_nat (nat_of_ascii c) - 48.

Fixpoint skip_ws (s : string) : string :=
  match s with
  | String c rest => if is_ws c then skip_ws rest else s
  | EmptyString => s
  end.

(** The characters up to the closing quote. *)
Fixpoint scan_string (s : string) : option (string * string) :=
  match s with
  | EmptyString => None
  | String c rest =>
      if (c =? dquote)%char then Some (EmptyString, rest)
      else if (c =? backslash)%char || (nat_of_ascii c <? 32)%nat then None
      else '(body, rest') ← scan_string rest; Some (String c body, rest')
  end.

Fixpoint scan_digits (acc : Z) (s : string) : Z * string :=
  match s with
  | String c rest =>
      if is_digit c then scan_digits (acc * 10 + digit_value c) rest else (acc, s)
  | EmptyString => (acc, s)
  end.

(** [0] or a digit [1-9] followed by digits; a fraction or an exponent
    would make the number a float. *)
Definition scan_int (s : string) : option (Z * string) :=
  match s with
  | String c rest =>
      if negb (is_digit c) then None
      else
        let '(n, rest') :=
          if (c =? "0")%char then (0, rest) else scan_digits (digit_value c) rest in
        match rest' with
        | String d _ =>
            if is_digit d || (d =? ".")%char || (d =? "e")%char || (d =? "E")%char
            then None else Some (n, rest')
        | EmptyString => Some (n, rest')
        end
  | EmptyString => None
  end.

Fixpoint strip_prefix (p s : string) : option string :=
  match p, s with
  | EmptyString, _ => Some s
  | String a p', String b s' => if (a =? b)%char then strip_prefix p' s' else None
  | _, EmptyString => None
  end.

Fixpoint value (fuel : nat) (s : string) : option (Json.t * string) :=
  match fuel with
  | O => None
  | S fuel =>
      match skip_ws s with
      | EmptyString => None
      | String c rest =>
          if (c =? "{")%char then
            match skip_ws rest with
            | String "}" rest' => Some (Json.Obj [], rest')
            | _ => '(ms, rest') ← members fuel rest; Some (Json.Obj ms, rest')
            end
          else if (c =? "[")%char then
            match skip_ws rest with
            | String "]" rest' => Some (Json.Arr [], rest')
            | _ => '(xs, rest') ← elements fuel rest; Some (Json.Arr xs, rest')
            end
          else if (c =? dquote)%char then
            '(str, rest') ← scan_string rest; Some (Json.Str str, rest')
          else if (c =? "-")%char then
            '(n, rest') ← scan_int rest; Some (Json.Int (- n), rest')
          else if is_digit c then
            '(n, rest') ← scan_int (String c rest); Some (Json.Int n, rest')
          else
            match strip_prefix "true" (String c rest),
                  strip_prefix "false" (String c rest),
                  strip_prefix "null" (String c rest) with
            | Some rest', _, _ => Some (Json.Bool true, rest')
            | _, Some rest', _ => Some (Json.Bool false, rest')
            | _, _, Some rest' => Some (Json.Null, rest')
            | _, _, _ => None
            end
      end
  end
with elements (fuel : nat) (s : string) : option (list Json.t * string) :=
  match fuel with
  | O => None
  | S fuel =>
      '(x, rest) ← value fuel s;
      match skip_ws rest with
      | String "," rest' => '(xs, rest'') ← elements fuel rest'; Some (x :: xs, rest'')
      | String "]" rest' => Some ([x], rest')
      | _ => None
      end
  end
with members (fuel : nat) (s : string) : option (list (string * Json.t) * string) :=
  match fuel with
  | O => None
  | S fuel =>
      match skip_ws s with
      | String c rest =>
          if (c =? dquote)%char then
            '(name, rest1) ← scan_string rest;
            match skip_ws rest1 with
            | String ":" rest2 =>
                '(x, rest3) ← value fuel rest2;
                match skip_ws rest3 with
                | String "," rest4 =>
                    '(ms, rest5) ← members fuel rest4; Some ((name, x) :: ms, rest5)
                | String "}" rest4 => Some ([(name, x)], rest4)
                | _ => None
                end
            | _ => None
            end
          else None
      | EmptyString => None
      end
  end.

Definition loads (s : string) : option Json.t :=
  '(j, rest) ← value (2 * String.length s + 2) s;
  match skip_ws rest with
  | EmptyString => Some j
  | _ => None
  end.

End JsonText.

(** ** The [posts] table of the primary store *)

Module Post.
Record t : Type := {
  id : Z;
  uri : string;
  cid : option string;
  author_did : string;
  author_handle : option string;
  post_created_at : option Z;
  indexed_at : option Z;
  text_content : option string;
  facets : option Json.t;
  langs : option Json.t;
  has_media : option bool;
  media_count : option Z;
  embed_type : option string;
  embed_data : option string;
  processed_at : option Z;
  classification_version : option Z
}.
End Post.

(** SQL [MIN] and [MAX] skip nulls and are null over no value. *)
Definition sql_min (l : list Z) : option Z :=
  match l with
  | [] => None
  | x :: l' => Some (foldr Z.min x l')
  end.

Definition sql_max (l : list Z) : option Z :=
  match l with
  | [] => None
  | x :: l' => Some (foldr Z.max x l')
  end.

Definition sql_max_text (l : list string) : option string :=
  match l with
  | [] => None
  | x :: l' => Some (foldr (fun a b => if String.leb a b then b else a) x l')
  end.

(** PostgreSQL's [ORDER BY ... DESC]: nulls come first. The order among
    equal keys is the store's choice; the queries below take the one of
    a merge sort. *)
Definition desc_nulls_first (a b : option Z) : Prop :=
  match a, b with
  | None, _ => True
  | Some _, None => False
  | Some x, Some y => y <= x
  end.

#[global] Instance desc_nulls_first_dec a b : Decision (desc_nulls_first a b).
Proof. destruct a, b; simpl; apply _. Defined.

Module BuildProfiles.

(** ** Rows read and written by the aggregator

    Of a [posts] row the aggregator reads [id], [author_did],
    [author_handle] and [post_created_at]. *)

(** A row of [post_classifications], restricted to the columns the
    aggregator reads ([get_user_classifications] adds the post's
    [post_created_at] to each row; [build_user_profile] never reads it). *)
Module Classification.
Record t : Type := {
  post_id : Z;
  model_version : string;
  consumer_type : option string;
  experience_level : option string;
  product_category : option string;
  sentiment : option string;
  sentiment_score : option Z;
  purchase_intent : option Z;
  effects_mentioned : option (list (option string));
  effects_desired : option (list (option string));
  lifestyle_tags : option (list (option string));
  frustrations : option (list (option string));
  emotions : option (list (option string));
  occasion : option string
}.
End Classification.

(** A row of the grouped query of [get_users_with_posts]. *)
Module User.
Record t : Type := {
  author_did : string;
  author_handle : option string;
  post_count : Z;
  first_post : option Z;
  last_post : option Z
}.
End User.

Module Stats.
Record t : Type := {
  sentiment_distribution : list (option string * nat);
  consumer_type_distribution : list (option string * nat);
  all_effects : list (string * nat);
  all_emotions : list (string * nat);
  avg_purchase_intent : Q;
  high_intent_posts : nat
}.
End Stats.

(** The dict returned by [build_user_profile]. *)
Module Profile.
Record t : Type := {
  author_did : string;
  author_handle : option string;
  first_seen_at : option Z;
  last_seen_at : option Z;
  posts_analyzed : Z;
  primary_consumer_type : string;
  secondary_consumer_type : option string;
  experience_level : string;
  preferred_products : list string;
  preferred_effects : list string;
  typical_occasions : list string;
  lifestyle_tags : list string;
  avg_sentiment : Q;
  posting_frequency : string;
  frustrations : list string;
  dispensary_target_score : Z;
  wellness_brand_target_score : Z;
  premium_product_target_score : Z;
  accessory_target_score : Z;
  stats_json : Stats.t
}.
End Profile.

(** ** [calculate_posting_frequency] *)

Definition usec_per_day : Z := 86400000000.

(** [(last_post - first_post).days]: a timedelta is normalised so that
    its [days] is the floor of the difference. *)
Definition timedelta_days (last_post first_post : Z) : Z :=
  (last_post - first_post) `div` usec_per_day.

Definition calculate_posting_frequency
    (first_post last_post : option Z) (post_count : Z) : string :=
  match first_post, last_post with
  | Some f, Some l =>
      let days := timedelta_days l f in
      if decide (days = 0) then "burst"
      else
        let posts_per_week := ((inject_Z post_count / inject_Z days) * 7)%Q in
        if Qle_bool 7 posts_per_week then "daily"
        else if Qle_bool 3 posts_per_week then "several_weekly"
        else if Qle_bool 1 posts_per_week then "weekly"
        else if Qle_bool (1 # 4) posts_per_week then "monthly"
        else "occasional"
  | _, _ => "unknown"
  end.

(** The bucketing as the specification words it:
    posts-per-week = posts × 7 / span_days. *)
Definition posting_frequency_spec
    (first_post last_post : option Z) (post_count : Z) : string :=
  match first_post, last_post with
  | None, _ | _, None => "unknown"
  | Some f, Some l =>
      let span_days := timedelta_days l f in
      if decide (span_days = 0) then "burst"
      else
        let posts_per_week := (inject_Z (post_count * 7) / inject_Z span_days)%Q in
        if decide (7 <= posts_per_week)%Q then "daily"
        else if decide (3 <= posts_per_week)%Q then "several_weekly"
        else if decide (1 <= posts_per_week)%Q then "weekly"
        else if decide ((1 # 4) <= posts_per_week)%Q then "monthly"
        else "occasional"
  end.

(** ** [most_common] and [flatten_arrays] *)

(** [i and i != 'unknown']: neither [None], nor empty, nor ['unknown']. *)
Definition known (i : option string) : option string :=
  match i with
  | Some s => if decide (s = "" ∨ s = "unknown") then None else Some s
  | None => None
  end.

(** [[i for i in items if i and i != 'unknown']] *)
Definition filter_known (items : list (option string)) : list string :=
  omap known items.

Definition most_common (items : list (option string)) : result string :=
  let filtered := filter_known items in
  if decide (filtered = []) then Ok "unknown"
  else
    let counter := Counter filtered in
    e ← py_index (most_common_n 1 counter) 0;
    Ok e.1.

(** [x] is truthy: a non-empty string. *)
Definition nonempty (x : option string) : option string :=
  match x with
  | Some s => if decide (s = "") then None else Some s
  | None => None
  end.

Definition flatten_arrays (classifications : list Classification.t)
    (field : Classification.t -> option (list (option string))) : list string :=
  let result := flat_map (fun c => default [] (field c)) classifications in
  omap nonempty result.

(** ** [build_user_profile] *)

Section build_user_profile.

(** [list(set(l))]: the order in which a Python set of strings is
    iterated depends on the hashes of its elements. *)
Variable set_order : list string -> list string.

Definition secondary_consumer_type
    (consumer_types : list (option string)) : result (option string) :=
  if decide (1 < length (remove_dups consumer_types))%nat
  then e ← py_index (most_common_n 2 (Counter (filter_known consumer_types))) 1;
       Ok (Some e.1)
  else Ok None.

Definition dispensary_score
    (avg_purchase_intent : Q) (high_intent_count : nat) (post_count : Z) : Z :=
  Z.min 100 (py_int (avg_purchase_intent * (1 # 2)
                     + inject_Z (Z.of_nat high_intent_count * 10)
                     + inject_Z (post_count * 2))%Q).

Definition wellness_score
    (primary : string) (effects : list string) : Z :=
  Z.min 100
    ((if decide (primary ∈ ["wellness"; "medical"]) then 50 else 0)
     + Z.of_nat (length (filter (fun e => e ∈ ["relaxed"; "calm"; "sleep"; "pain_relief"])
                                effects)) * 10).

Definition premium_score
    (primary experience : string) (post_count : Z) : Z :=
  Z.min 100
    ((if decide (primary = "connoisseur") then 50 else 0)
     + (if decide (experience ∈ ["expert"; "daily"]) then 30 else 0)
     + post_count * 1).

Definition build_user_profile
    (user : User.t) (classifications : list Classification.t) : result Profile.t :=
  let consumer_types := Classification.consumer_type <$> classifications in
  let experience_levels := Classification.experience_level <$> classifications in
  let product_categories := Classification.product_category <$> classifications in
  let sentiments := Classification.sentiment <$> classifications in
  let sentiment_scores := omap Classification.sentiment_score classifications in
  let purchase_intents := omap Classification.purchase_intent classifications in
  let effects := flatten_arrays classifications Classification.effects_mentioned in
  let effects_desired := flatten_arrays classifications Classification.effects_desired in
  let lifestyle_tags := flatten_arrays classifications Classification.lifestyle_tags in
  let frustrations := flatten_arrays classifications Classification.frustrations in
  let emotions := flatten_arrays classifications Classification.emotions in
  let occasions := omap (fun c => nonempty (Classification.occasion c)) classifications in
  let avg_sentiment := average sentiment_scores in
  let avg_purchase_intent := average purchase_intents in
  let high_intent_count := length (filter (fun p => 50 <= p) purchase_intents) in
  let top_effects := (most_common_n 5 (Counter effects)).*1 in
  let top_frustrations := (most_common_n 3 (Counter frustrations)).*1 in
  let top_lifestyle := (most_common_n 5 (Counter lifestyle_tags)).*1 in
  let top_occasions := (most_common_n 3 (Counter occasions)).*1 in
  let dispensary :=
    dispensary_score avg_purchase_intent high_intent_count (User.post_count user) in
  wellness ← (ct ← most_common consumer_types; Ok (wellness_score ct effects));
  premium ← (ct ← most_common consumer_types;
             el ← most_common experience_levels;
             Ok (premium_score ct el (User.post_count user)));
  primary ← most_common consumer_types;
  secondary ← secondary_consumer_type consumer_types;
  experience ← most_common experience_levels;
  Ok {| Profile.author_did := User.author_did user;
        Profile.author_handle := User.author_handle user;
        Profile.first_seen_at := User.first_post user;
        Profile.last_seen_at := User.last_post user;
        Profile.posts_analyzed := User.post_count user;
        Profile.primary_consumer_type := primary;
        Profile.secondary_consumer_type := secondary;
        Profile.experience_level := experience;
        Profile.preferred_products := take 3 (set_order (filter_known product_categories));
        Profile.preferred_effects := top_effects;
        Profile.typical_occasions := top_occasions;
        Profile.lifestyle_tags := top_lifestyle;
        Profile.avg_sentiment := py_round avg_sentiment 2;
        Profile.posting_frequency :=
          calculate_posting_frequency
            (User.first_post user) (User.last_post user) (User.post_count user);
        Profile.frustrations := top_frustrations;
        Profile.dispensary_target_score := dispensary;
        Profile.wellness_brand_target_score := wellness;
        Profile.premium_product_target_score := premium;
        Profile.accessory_target_score := Z.min 100 (User.post_count user * 3);
        Profile.stats_json :=
          {| Stats.sentiment_distribution := Counter sentiments;
             Stats.consumer_type_distribution := Counter consumer_types;
             Stats.all_effects := Counter effects;
             Stats.all_emotions := Counter emotions;
             Stats.avg_purchase_intent := py_round avg_purchase_intent 1;
             Stats.high_intent_posts := high_intent_count |} |}.

End build_user_profile.


(** ** The queries over the primary store *)

(** [posts p JOIN post_classifications pc ON p.id = pc.post_id] *)
Definition joined (posts : list Post.t) (pcs : list Classification.t)
    : list (Post.t * Classification.t) :=
  p ← posts;
  pc ← filter (fun pc => Classification.post_id pc = Post.id p) pcs;
  [(p, pc)].

(** The rows of one [GROUP BY p.author_did] group. *)
Definition group_of (did : string) (rows : list (Post.t * Classification.t))
    : list (Post.t * Classification.t) :=
  filter (fun r => Post.author_did r.1 = did) rows.

Definition user_of_group (did : string) (group : list (Post.t * Classification.t))
    : User.t :=
  {| User.author_did := did;
     User.author_handle := sql_max_text (omap (fun r => Post.author_handle r.1) group);
     User.post_count := Z.of_nat (length group);
     User.first_post := sql_min (omap (fun r => Post.post_created_at r.1) group);
     User.last_post := sql_max (omap (fun r => Post.post_created_at r.1) group) |}.

(** [ORDER BY COUNT(1) DESC] *)
Definition by_count_desc (u v : User.t) : Prop :=
  User.post_count v <= User.post_count u.

#[global] Instance by_count_desc_dec u v : Decision (by_count_desc u v).
Proof. unfold by_count_desc. apply _. Defined.

Definition get_users_with_posts
    (posts : list Post.t) (pcs : list Classification.t) (min_posts : Z)
    : list User.t :=
  let rows := joined posts pcs in
  let dids := remove_dups ((fun r => Post.author_did r.1) <$> rows) in
  let groups := (fun did => user_of_group did (group_of did rows)) <$> dids in
  merge_sort by_count_desc
    (filter (fun u => min_posts <= User.post_count u) groups).

(** [ORDER BY p.post_created_at DESC] *)
Definition by_created_desc (r s : Post.t * Classification.t) : Prop :=
  desc_nulls_first (Post.post_created_at r.1) (Post.post_created_at s.1).

#[global] Instance by_created_desc_dec r s : Decision (by_created_desc r s).
Proof. unfold by_created_desc. apply _. Defined.

Definition get_user_classifications
    (posts : list Post.t) (pcs : list Classification.t) (author_did : string)
    : list Classification.t :=
  (merge_sort by_created_desc (group_of author_did (joined posts pcs))).*2.

(** The classification rows joined to one post. *)
Definition rows_of_post (pcs : list Classification.t) (p : Post.t)
    : list Classification.t :=
  filter (fun pc => Classification.post_id pc = Post.id p) pcs.

(** The posts of an author that have a classification: each post once,
    whatever the number of its classification rows. *)
Definition classified_posts
    (posts : list Post.t) (pcs : list Classification.t) (author_did : string)
    : list Post.t :=
  filter (fun p => Post.author_did p = author_did
                   /\ Exists (fun pc => Classification.post_id pc = Post.id p) pcs)
         posts.

(** ** [save_user_profile] and [build_all_profiles] *)

(** A row of [user_profiles]: the profile and [profile_updated_at]. *)
Definition ProfileRow : Type := Profile.t * Z.

(** The key of [user_profiles]. *)
Definition profile_key (row : ProfileRow) : string := Profile.author_did row.1.

(** [ON CONFLICT (author_did) DO UPDATE SET ...]: every column of the
    incoming row but [first_seen_at]. *)
Definition on_conflict_update (now : Z) (excluded : Profile.t) (row : ProfileRow)
    : ProfileRow :=
  ({| Profile.author_did := Profile.author_did row.1;
      Profile.author_handle := Profile.author_handle excluded;
      Profile.first_seen_at := Profile.first_seen_at row.1;
      Profile.last_seen_at := Profile.last_seen_at excluded;
      Profile.posts_analyzed := Profile.posts_analyzed excluded;
      Profile.primary_consumer_type := Profile.primary_consumer_type excluded;
      Profile.secondary_consumer_type := Profile.secondary_consumer_type excluded;
      Profile.experience_level := Profile.experience_level excluded;
      Profile.preferred_products := Profile.preferred_products excluded;
      Profile.preferred_effects := Profile.preferred_effects excluded;
      Profile.typical_occasions := Profile.typical_occasions excluded;
      Profile.lifestyle_tags := Profile.lifestyle_tags excluded;
      Profile.avg_sentiment := Profile.avg_sentiment excluded;
      Profile.posting_frequency := Profile.posting_frequency excluded;
      Profile.frustrations := Profile.frustrations excluded;
      Profile.dispensary_target_score := Profile.dispensary_target_score excluded;
      Profile.wellness_brand_target_score := Profile.wellness_brand_target_score excluded;
      Profile.premium_product_target_score := Profile.premium_product_target_score excluded;
      Profile.accessory_target_score := Profile.accessory_target_score excluded;
      Profile.stats_json := Profile.stats_json excluded |}, now).

Definition save_user_profile (now : Z) (profile : Profile.t)
    (user_profiles : list ProfileRow) : list ProfileRow :=
  if decide (Exists (fun row => Profile.author_did row.1 = Profile.author_did profile)
                    user_profiles)
  then (fun row =>
          if decide (Profile.author_did row.1 = Profile.author_did profile)
          then on_conflict_update now profile row else row) <$> user_profiles
  else user_profiles ++ [(profile, now)].

Section build_all_profiles.

Variable set_order : list string -> list string.

(** One turn of the loop of [build_all_profiles]: an exception is logged
    and the table is left as it was. *)
Definition build_one (now : Z) (posts : list Post.t) (pcs : list Classification.t)
    (user_profiles : list ProfileRow) (user : User.t) : list ProfileRow :=
  let classifications := get_user_classifications posts pcs (User.author_did user) in
  match build_user_profile set_order user classifications with
  | Ok profile => save_user_profile now profile user_profiles
  | Raise _ => user_profiles
  end.

Definition build_all_profiles (now : Z) (posts : list Post.t)
    (pcs : list Classification.t) (min_posts : Z)
    (user_profiles : list ProfileRow) : list ProfileRow :=
  let users := get_users_with_posts posts pcs min_posts in
  foldl (build_one now posts pcs) user_profiles users.

End build_all_profiles.

End BuildProfiles.

Module Classifier.

Definition MODEL_VERSION : string := "deepseek-chat-20260131".

(** ** The primary store as the classifier sees it *)

(** A row of [post_classifications]: column name to value. A column
    the [INSERT] of [save_classification] does not list takes the
    schema's default and is left out of the row. *)
Abbreviation Row := (gmap string Json.t).

Record DB : Type := {
  posts : list Post.t;
  post_classifications : list Row
}.

(** ** [get_unprocessed_posts] *)

Definition unprocessed (p : Post.t) : Prop :=
  Post.processed_at p = None
  /\ Post.text_content p <> None
  /\ Post.text_content p <> Some "".

#[global] Instance unprocessed_dec p : Decision (unprocessed p).
Proof. unfold unprocessed. apply _. Defined.

(** A pending post that the query never selects: its text is null or
    empty. *)
Definition stuck (p : Post.t) : Prop :=
  Post.processed_at p = None
  /\ (Post.text_content p = None \/ Post.text_content p = Some "").

#[global] Instance stuck_dec p : Decision (stuck p).
Proof. unfold stuck. apply _. Defined.

Definition newest_first (p q : Post.t) : Prop :=
  desc_nulls_first (Post.post_created_at p) (Post.post_created_at q).

#[global] Instance newest_first_dec p q : Decision (newest_first p q).
Proof. unfold newest_first. apply _. Defined.

Definition get_unprocessed_posts (posts : list Post.t) (limit : nat) : list Post.t :=
  take limit (merge_sort newest_first (filter unprocessed posts)).

(** ** [get_stats] *)

Module Stats.
Record t : Type := {
  total_posts : Z;
  processed : Z;
  pending : Z;
  with_text : Z
}.
End Stats.

(** [COUNT(column)] counts the rows where the column is not null. *)
Definition get_stats (posts : list Post.t) : Stats.t :=
  let total := Z.of_nat (length posts) in
  let processed :=
    Z.of_nat (length (filter (fun p => Post.processed_at p <> None) posts)) in
  {| Stats.total_posts := total;
     Stats.processed := processed;
     Stats.pending := total - processed;
     Stats.with_text :=
       Z.of_nat (length (filter (fun p => Post.text_content p <> None) posts)) |}.

(** ** [classify_post_async] *)

(** What [CLASSIFICATION_PROMPT.format] is given. *)
Module Prompt.
Record t : Type := {
  text : string;
  has_media : option bool;
  embed_type : option string;
  langs : option Json.t;
  created_at : option Z
}.
End Prompt.

(** What awaiting [client.chat.completions.create] comes to: the content
    of the first choice with the milliseconds elapsed since the start of
    the attempt, or an exception (network error, timeout, bad status). *)
Inductive Reply : Type :=
| Completion (content : string) (processing_ms : Z)
| Failed (e : exn).

Section classifier.

Variable json_loads : string -> option Json.t.
Variable client : Prompt.t -> Reply.

(** The arguments of [CLASSIFICATION_PROMPT.format]: the text is cut to
    2000 characters. *)
Definition prompt_of (post : Post.t) (text : string) : Prompt.t :=
  {| Prompt.text := String.substring 0 2000 text;
     Prompt.has_media := Post.has_media post;
     Prompt.embed_type := Post.embed_type post;
     Prompt.langs := Post.langs post;
     Prompt.created_at := Post.post_created_at post |}.

(** The body of the [try]. *)
Definition classify (post : Post.t) : result (gmap string Json.t) :=
  text ← match Post.text_content post with
         | Some text => Ok text
         | None => Raise TypeError
         end;
  let prompt := prompt_of post text in
  match client prompt with
  | Failed e => Raise e
  | Completion content processing_ms =>
      match json_loads content with
      | None => Raise JSONDecodeError
      | Some decoded =>
          match Json.as_dict decoded with
          | None => Raise TypeError
          | Some result =>
              Ok (<["model_version" := Json.Str MODEL_VERSION]>
                    (<["processing_ms" := Json.Int processing_ms]> result))
          end
      end
  end.

(** The semaphore bounds how many calls are in flight; what a call
    returns does not depend on it. *)
Definition classify_post_async (post : Post.t)
    : Z * option (gmap string Json.t) * option exn :=
  match classify post with
  | Ok result => (Post.id post, Some result, None)
  | Raise e => (Post.id post, None, Some e)
  end.

(** ** [save_classification] *)

(** [classification.get(key)] and [classification.get(key, fallback)] *)
Definition get (classification : gmap string Json.t) (key : string) : Json.t :=
  default Json.Null (classification !! key).

Definition get_or (classification : gmap string Json.t) (key : string)
    (fallback : Json.t) : Json.t :=
  default fallback (classification !! key).

(** [json.dumps(classification)]: the document of the dict. *)
Definition raw_response (classification : gmap string Json.t) : Json.t :=
  Json.Obj (map_to_list classification).

(** The column list of the [INSERT] with the tuple of its values. *)
Definition inserted_columns (post_id : Z) (classification : gmap string Json.t)
    : list (string * Json.t) :=
  [ ("post_id", Json.Int post_id);
    ("model_version", get_or classification "model_version" (Json.Str MODEL_VERSION));
    ("confidence", get_or classification "confidence" (Json.Int 80));
    ("processing_ms", get classification "processing_ms");
    ("experience_level", get classification "experience_level");
    ("consumer_type", get classification "consumer_type");
    ("lifestyle_tags", get classification "lifestyle_tags");
    ("occasion", get classification "occasion");
    ("setting", get classification "setting");
    ("mood_before", get classification "mood_before");
    ("mood_after", get classification "mood_after");
    ("time_of_day", get classification "time_of_day");
    ("is_ritual", get_or classification "is_ritual" (Json.Bool false));
    ("intent_type", get classification "intent_type");
    ("purchase_intent", get classification "purchase_intent");
    ("purchase_stage", get classification "purchase_stage");
    ("product_category", get classification "product_category");
    ("effects_mentioned", get classification "effects_mentioned");
    ("effects_desired", get classification "effects_desired");
    ("quality_perception", get classification "quality_perception");
    ("dosage_pattern", get classification "dosage_pattern");
    ("post_type", get classification "post_type");
    ("media_type", get classification "media_type");
    ("sentiment", get classification "sentiment");
    ("sentiment_score", get classification "sentiment_score");
    ("emotions", get classification "emotions");
    ("brand_mentioned", get classification "brand_mentioned");
    ("strain_mentioned", get classification "strain_mentioned");
    ("dispensary_mentioned", get classification "dispensary_mentioned");
    ("price_mentioned", get_or classification "price_mentioned" (Json.Bool false));
    ("price_sentiment", get classification "price_sentiment");
    ("frustrations", get classification "frustrations");
    ("region_hint", get classification "region_hint");
    ("legal_context", get classification "legal_context");
    ("data_richness", get classification "data_richness");
    ("business_value", get classification "business_value");
    ("audience_segments", get classification "audience_segments");
    ("raw_response", raw_response classification) ].

Definition excluded_row (post_id : Z) (classification : gmap string Json.t) : Row :=
  list_to_map (inserted_columns post_id classification).

(** [ON CONFLICT (post_id, model_version)]: a stored row with the same
    two values; a null is equal to nothing. *)
Definition conflicts (excluded row : Row) : Prop :=
  row !! "post_id" = excluded !! "post_id"
  /\ row !! "model_version" = excluded !! "model_version"
  /\ excluded !! "model_version" <> Some Json.Null.

#[global] Instance conflicts_dec excluded row : Decision (conflicts excluded row).
Proof. unfold conflicts. apply _. Defined.

(** The key of [post_classifications]. *)
Definition key_of (row : Row) : option Json.t * option Json.t :=
  (row !! "post_id", row !! "model_version").

(** [DO UPDATE SET confidence = EXCLUDED.confidence,
    processing_ms = EXCLUDED.processing_ms, classified_at = NOW()] *)
Definition do_update_row (now : Z) (excluded row : Row) : Row :=
  <["classified_at" := Json.Int now]>
    (<["processing_ms" := default Json.Null (excluded !! "processing_ms")]>
       (<["confidence" := default Json.Null (excluded !! "confidence")]> row)).

Definition upsert_classification (now : Z) (excluded : Row) (table : list Row)
    : list Row :=
  if decide (Exists (conflicts excluded) table)
  then (fun row => if decide (conflicts excluded row)
                   then do_update_row now excluded row else row) <$> table
  else table ++ [excluded].

(** [UPDATE posts SET processed_at = NOW(), classification_version = 1] *)
Definition mark_processed (now : Z) (p : Post.t) : Post.t :=
  {| Post.id := Post.id p;
     Post.uri := Post.uri p;
     Post.cid := Post.cid p;
     Post.author_did := Post.author_did p;
     Post.author_handle := Post.author_handle p;
     Post.post_created_at := Post.post_created_at p;
     Post.indexed_at := Post.indexed_at p;
     Post.text_content := Post.text_content p;
     Post.facets := Post.facets p;
     Post.langs := Post.langs p;
     Post.has_media := Post.has_media p;
     Post.media_count := Post.media_count p;
     Post.embed_type := Post.embed_type p;
     Post.embed_data := Post.embed_data p;
     Post.processed_at := Some now;
     Post.classification_version := Some 1 |}.

Definition save_classification (now : Z) (post_id : Z)
    (classification : gmap string Json.t) (db : DB) : DB :=
  {| post_classifications :=
       upsert_classification now (excluded_row post_id classification)
         (post_classifications db);
     posts :=
       (fun p => if decide (Post.id p = post_id) then mark_processed now p else p)
         <$> posts db |}.

(** ** [process_batch_async] *)

(** The table holds a classification row of the post. *)
Definition has_row (table : list Row) (post_id : Z) : Prop :=
  Exists (fun row : Row => row !! "post_id" = Some (Json.Int post_id)) table.

(** One of the posts of [batch] with this [id] is classified. *)
Definition saved_in (batch : list Post.t) (post_id : Z) : Prop :=
  Exists (fun q => is_ok (classify q) /\ Post.id q = post_id) batch.

#[global] Instance saved_in_dec batch post_id : Decision (saved_in batch post_id).
Proof. unfold saved_in. apply _. Defined.

(** The loop over the gathered results. [clock] is the time of the
    transaction that saves the classification of a post. *)
Definition save_result (clock : Z -> Z) (acc : nat * nat * DB)
    (r : Z * option (gmap string Json.t) * option exn) : nat * nat * DB :=
  let '(processed, errors, db) := acc in
  let '(post_id, classification, error) := r in
  match classification with
  | Some c =>
      if decide (c = ∅) then (processed, S errors, db)
      else (S processed, errors, save_classification (clock post_id) post_id c db)
  | None => (processed, S errors, db)
  end.

(** [asyncio.gather] returns the results in the order of the tasks. *)
Definition process_batch_async (clock : Z -> Z) (batch_size : nat) (db : DB)
    : nat * DB :=
  let batch := get_unprocessed_posts (posts db) batch_size in
  if decide (batch = []) then (0%nat, db)
  else
    let results := classify_post_async <$> batch in
    let '(processed, errors, db') := foldl (save_result clock) (0%nat, 0%nat, db) results in
    (processed, db').

End classifier.

End Classifier.

Module Sync.

(** ** The source store and the destination tables *)

(** A row of the SQLite [posts] table of the legacy host. *)
Module SrcRow.
Record t : Type := {
  uri : string;
  cid : option string;
  author_did : string;
  author_handle : option string;
  indexed_at : option string;
  created_at : option string;
  text : option string;
  facets : option string;
  has_media : option Z;
  embed_type : option string;
  langs : option string
}.
End SrcRow.

(** A tuple of [posts_data]: the row proposed for insertion. *)
Module Incoming.
Record t : Type := {
  uri : string;
  cid : option string;
  author_did : string;
  author_handle : option string;
  post_created_at : Z;
  indexed_at : Z;
  text_content : option string;
  facets : option Json.t;
  langs : option Json.t;
  has_media : bool;
  media_count : Z;
  embed_type : option string;
  embed_data : option string
}.
End Incoming.

Module SyncLog.
Record t : Type := {
  completed_at : Z;
  posts_synced : Z;
  last_indexed_at : option Z;
  status : string
}.
End SyncLog.

Record Store : Type := {
  posts : list Post.t;
  posts_id_seq : Z;
  sync_log : list SyncLog.t
}.

Section sync.

Variable json_loads : string -> option Json.t.

(** [datetime.fromisoformat], [datetime.strptime(_, '%Y-%m-%d %H:%M:%S')]
    and [datetime.isoformat]; [None] is a [ValueError]. *)
Variable fromisoformat : string -> option Z.
Variable strptime : string -> option Z.
Variable isoformat : Z -> string.

(** The default of the column [classification_version] (the schema is
    not part of the scripts). [processed_at] is null until a post is
    classified. *)
Variable default_classification_version : option Z.

(** ** [parse_timestamp] *)

(** [ts_str.replace('Z', '+00:00')] *)
Fixpoint replace_Z (s : string) : string :=
  match s with
  | EmptyString => EmptyString
  | String c rest =>
      if (c =? "Z")%char then "+00:00" +:+ replace_Z rest
      else String c (replace_Z rest)
  end.

Definition parse_timestamp (now : Z) (ts_str : option string) : Z :=
  match ts_str with
  | None => now
  | Some ts =>
      if decide (ts = "") then now
      else match fromisoformat (replace_Z ts) with
           | Some t => t
           | None => match strptime ts with
                     | Some t => t
                     | None => now
                     end
           end
  end.

(** ** Preparing a row *)

(** A decoded [null] is Python's [None]. *)
Definition py_value (j : Json.t) : option Json.t :=
  match j with
  | Json.Null => None
  | _ => Some j
  end.

Definition prepare_facets (column : option string) : option Json.t :=
  let facets :=
    match column with
    | Some text => if decide (text = "") then None else json_loads text ≫= py_value
    | None => None
    end in
  match facets with
  | Some j => if Json.truthy j then Some j else None
  | None => None
  end.

Definition prepare_langs (column : option string) : option Json.t :=
  match column with
  | Some text =>
      if decide (text = "") then None
      else match json_loads text with
           | Some j => py_value j
           | None => Some (Json.Arr [Json.Str text])
           end
  | None => None
  end.

Definition prepare (now : Z) (row : SrcRow.t) : Incoming.t :=
  {| Incoming.uri := SrcRow.uri row;
     Incoming.cid := SrcRow.cid row;
     Incoming.author_did := SrcRow.author_did row;
     Incoming.author_handle := SrcRow.author_handle row;
     Incoming.post_created_at := parse_timestamp now (SrcRow.created_at row);
     Incoming.indexed_at := parse_timestamp now (SrcRow.indexed_at row);
     Incoming.text_content := SrcRow.text row;
     Incoming.facets := prepare_facets (SrcRow.facets row);
     Incoming.langs := prepare_langs (SrcRow.langs row);
     Incoming.has_media :=
       match SrcRow.has_media row with
       | Some flag => negb (flag =? 0)
       | None => false
       end;
     Incoming.media_count := 0;
     Incoming.embed_type := SrcRow.embed_type row;
     Incoming.embed_data := None |}.

(** ** The upsert *)

Definition COALESCE {A : Type} (a b : option A) : option A :=
  match a with
  | Some _ => a
  | None => b
  end.

(** [ON CONFLICT (uri) DO UPDATE SET ...] *)
Definition do_update_post (excluded : Incoming.t) (p : Post.t) : Post.t :=
  {| Post.id := Post.id p;
     Post.uri := Post.uri p;
     Post.cid := Post.cid p;
     Post.author_did := Post.author_did p;
     Post.author_handle := Post.author_handle p;
     Post.post_created_at := Post.post_created_at p;
     Post.indexed_at := Post.indexed_at p;
     Post.text_content := COALESCE (Incoming.text_content excluded) (Post.text_content p);
     Post.facets := COALESCE (Incoming.facets excluded) (Post.facets p);
     Post.langs := COALESCE (Incoming.langs excluded) (Post.langs p);
     Post.has_media := Some (Incoming.has_media excluded);
     Post.media_count := Post.media_count p;
     Post.embed_type := Incoming.embed_type excluded;
     Post.embed_data := Post.embed_data p;
     Post.processed_at := Post.processed_at p;
     Post.classification_version := Post.classification_version p |}.

Definition inserted (id : Z) (e : Incoming.t) : Post.t :=
  {| Post.id := id;
     Post.uri := Incoming.uri e;
     Post.cid := Incoming.cid e;
     Post.author_did := Incoming.author_did e;
     Post.author_handle := Incoming.author_handle e;
     Post.post_created_at := Some (Incoming.post_created_at e);
     Post.indexed_at := Some (Incoming.indexed_at e);
     Post.text_content := Incoming.text_content e;
     Post.facets := Incoming.facets e;
     Post.langs := Incoming.langs e;
     Post.has_media := Some (Incoming.has_media e);
     Post.media_count := Some (Incoming.media_count e);
     Post.embed_type := Incoming.embed_type e;
     Post.embed_data := Incoming.embed_data e;
     Post.processed_at := None;
     Post.classification_version := default_classification_version |}.

(** One row of the [INSERT ... ON CONFLICT]. The sequence of [id] moves
    on whether or not the row is inserted. The rows of one statement
    have distinct [uri]s, [uri] being the key of the source table. *)
Definition upsert_post (st : list Post.t * Z) (e : Incoming.t) : list Post.t * Z :=
  let '(posts, seq) := st in
  if decide (Exists (fun p => Post.uri p = Incoming.uri e) posts)
  then ((fun p => if decide (Post.uri p = Incoming.uri e) then do_update_post e p else p)
          <$> posts, seq + 1)
  else (posts ++ [inserted seq e], seq + 1).

(** The keys of [posts]: [uri] and [id] are unique, and the sequence is
    ahead of every [id]. *)
Definition keys_unique (table : list Post.t) (seq : Z) : Prop :=
  NoDup (Post.uri <$> table)
  /\ NoDup (Post.id <$> table)
  /\ Forall (fun p => Post.id p < seq) table.

(** ** [sync_posts] *)

Definition get_last_sync_timestamp (posts : list Post.t) : option Z :=
  sql_max (omap Post.indexed_at posts).

(** SQLite's [ORDER BY indexed_at ASC] on text: nulls come first. *)
Definition by_indexed_asc (r s : SrcRow.t) : Prop :=
  match SrcRow.indexed_at r, SrcRow.indexed_at s with
  | None, _ => True
  | Some _, None => False
  | Some x, Some y => String.leb x y = true
  end.

#[global] Instance by_indexed_asc_dec r s : Decision (by_indexed_asc r s).
Proof.
  unfold by_indexed_asc.
  destruct (SrcRow.indexed_at r), (SrcRow.indexed_at s); apply _.
Defined.

(** [WHERE indexed_at > ?]: a comparison of text; null is not greater. *)
Definition newer_than (watermark : string) (r : SrcRow.t) : Prop :=
  match SrcRow.indexed_at r with
  | Some x => String.ltb watermark x = true
  | None => False
  end.

#[global] Instance newer_than_dec w r : Decision (newer_than w r).
Proof. unfold newer_than. destruct (SrcRow.indexed_at r); apply _. Defined.

Definition rows_to_sync (last_sync : option Z) (source : list SrcRow.t)
    : list SrcRow.t :=
  match last_sync with
  | Some t => merge_sort by_indexed_asc (filter (newer_than (isoformat t)) source)
  | None => merge_sort by_indexed_asc source
  end.

(** [download] is the outcome of [download_sqlite_db]: the rows of the
    copied source table, or the exception. *)
Definition sync_posts (now : Z) (download : result (list SrcRow.t)) (db : Store)
    : result (Z * Store) :=
  source ← download;
  let last_sync := get_last_sync_timestamp (posts db) in
  let rows := rows_to_sync last_sync source in
  if decide (rows = []) then
    Ok (0, {| posts := posts db;
              posts_id_seq := posts_id_seq db;
              sync_log := sync_log db ++
                [ {| SyncLog.completed_at := now; SyncLog.posts_synced := 0;
                     SyncLog.last_indexed_at := last_sync;
                     SyncLog.status := "success" |} ] |})
  else
    let posts_data := prepare now <$> rows in
    let '(posts', seq') := foldl upsert_post (posts db, posts_id_seq db) posts_data in
    let max_indexed :=
      sql_max ((fun row => parse_timestamp now (SrcRow.indexed_at row)) <$> rows) in
    Ok (Z.of_nat (length rows),
        {| posts := posts';
           posts_id_seq := seq';
           sync_log := sync_log db ++
             [ {| SyncLog.completed_at := now;
                  SyncLog.posts_synced := Z.of_nat (length rows);
                  SyncLog.last_indexed_at := max_indexed;
                  SyncLog.status := "success" |} ] |}).

End sync.

End Sync.

Module Extractor.

(** [str.find] and [str.rfind] of one character: [-1] when absent. *)
Fixpoint find (c : ascii) (s : string) : Z :=
  match s with
  | EmptyString => -1
  | String d rest =>
      if (c =? d)%char then 0
      else let i := find c rest in if i <? 0 then -1 else i + 1
  end.

Fixpoint rfind (c : ascii) (s : string) : Z :=
  match s with
  | EmptyString => -1
  | String d rest =>
      let i := rfind c rest in
      if 0 <=? i then i + 1 else if (c =? d)%char then 0 else -1
  end.

(** [s[start:stop]] for [0 <= start <= stop <= len(s)] *)
Definition slice (s : string) (start stop : Z) : string :=
  String.substring (Z.to_nat start) (Z.to_nat (stop - start)) s.

(** What [requests.post] comes to: an exception, or a status code with
    the [response] member of the body ([''] when the body has none). *)
Inductive HttpReply : Type :=
| HttpRaised
| HttpResponse (status_code : Z) (response : string).

Section extractor.

Variable json_loads : string -> option Json.t.

(** The request is determined by the text of the post. *)
Variable ollama : string -> HttpReply.

(** The [try] around [json.loads]: the text from the first ["{"] to the
    last ["}"]. *)
Definition find_json (result : string) : option Json.t :=
  let start := find "{" result in
  let stop := rfind "}" result + 1 in
  if decide (0 <= start /\ start < stop)
  then json_loads (slice result start stop)
  else None.

Definition extract_insights (text : string) : option Json.t :=
  match ollama text with
  | HttpRaised => None
  | HttpResponse status_code result =>
      if decide (status_code = 200) then find_json result else None
  end.

End extractor.

(** ** [save_insight] *)

Definition MODEL : string := "qwen2.5:7b".

(** A row of the [insights] table. *)
Module Insight.
Record t : Type := {
  uri : string;
  post_text : string;
  product : Json.t;
  location : Json.t;
  mood : Json.t;
  post_type : Json.t;
  keywords : option Json.t;
  extracted_at : Z;
  model_version : string
}.
End Insight.

(** What stops a run: [.get] on a value that is not a dict, and a list
    or a dict bound to a parameter of the statement. *)
Inductive crash : Type :=
| AttributeError
| InterfaceError.

Definition bindable (j : Json.t) : bool :=
  match j with
  | Json.Arr _ | Json.Obj _ => false
  | _ => true
  end.

(** [INSERT OR REPLACE]: [uri] is the primary key, so a row with the
    same [uri] is deleted before the new row is inserted. *)
Definition save_insight (now : Z) (uri text : string) (insights : Json.t)
    (table : list Insight.t) : crash + list Insight.t :=
  match Json.as_dict insights with
  | None => inl AttributeError
  | Some d =>
      let get key := default Json.Null (d !! key) in
      let keywords :=
        if Json.truthy (get "keywords") then Some (get "keywords") else None in
      if bindable (get "product") && bindable (get "location")
         && bindable (get "mood") && bindable (get "type")
      then inr (filter (fun row => Insight.uri row <> uri) table
                ++ [ {| Insight.uri := uri;
                        Insight.post_text := text;
                        Insight.product := get "product";
                        Insight.location := get "location";
                        Insight.mood := get "mood";
                        Insight.post_type := get "type";
                        Insight.keywords := keywords;
                        Insight.extracted_at := now;
                        Insight.model_version := MODEL |} ])
      else inl InterfaceError
  end.

Definition get_processed_uris (table : list Insight.t) : list string :=
  Insight.uri <$> table.

Definition get_processed_count (table : list Insight.t) : Z :=
  Z.of_nat (length table).

(** ** [process_batch] *)

Section process_batch.

Variable json_loads : string -> option Json.t.
Variable ollama : string -> HttpReply.

(** [fetch_post_text]: the text of the post, [''] for a record without
    text, or [None] (bad status, exception). *)
Variable fetch_post_text : string -> option string.

(** [clock i] is [datetime.now()] in turn [i] of the loop. *)
Variable clock : nat -> Z.

(** One turn of the loop: [success], [errors] and the [insights] table
    after it. *)
Definition process_uri (now : Z) (processed_set : list string)
    (acc : nat * nat * list Insight.t) (uri : string)
    : crash + nat * nat * list Insight.t :=
  let '(success, errors, table) := acc in
  if decide (uri ∈ processed_set) then inr acc
  else
    match fetch_post_text uri with
    | None => inr (success, S errors, table)
    | Some text =>
        if decide (text = "") then inr (success, S errors, table)
        else
          match extract_insights json_loads ollama text with
          | Some insights =>
              if Json.truthy insights then
                match save_insight now uri text insights table with
                | inr table' => inr (S success, errors, table')
                | inl c => inl c
                end
              else inr (success, S errors, table)
          | None => inr (success, S errors, table)
          end
    end.

(** The loop from turn [i] on; an exception ends it. *)
Fixpoint process_batch_from (i : nat) (processed_set : list string)
    (acc : nat * nat * list Insight.t) (uris : list string)
    : crash + nat * nat * list Insight.t :=
  match uris with
  | [] => inr acc
  | uri :: rest =>
      match process_uri (clock i) processed_set acc uri with
      | inr acc' => process_batch_from (S i) processed_set acc' rest
      | inl c => inl c
      end
  end.

Definition process_batch (uris processed_set : list string)
    (table : list Insight.t) : crash + nat * nat * list Insight.t :=
  process_batch_from 0 processed_set (0%nat, 0%nat, table) uris.

End process_batch.

End Extractor.

(** [scripts/cannect-intel/batch.py] *)
Module Batch.

(** The counters of [process_posts] with the [insights] table. *)
Module Tally.
Record t : Type := {
  success : nat;
  errors : nat;
  skipped : nat;
  insights : list Extractor.Insight.t
}.
End Tally.

Section batch.

Variable json_loads : string -> option Json.t.
Variable ollama : string -> Extractor.HttpReply.

(** [fetch_post_text]: the text of the post, [''] for a record without
    text, or [None] (bad status, exception). *)
Variable fetch_post_text : string -> option string.

(** [clock i] is [datetime.now()] in turn [i] of the loop. *)
Variable clock : nat -> Z.

(** [uris] is the outcome of the query over the local copy of the
    posts, newest first; an exception gives no URI. *)
Definition fetch_posts_from_db (table : list Extractor.Insight.t)
    (uris : result (list string)) : list string :=
  let processed := Extractor.get_processed_uris table in
  match uris with
  | Ok uris => filter (fun uri => uri ∉ processed) uris
  | Raise _ => []
  end.

(** One turn of the loop of [process_posts]. *)
Definition process_post (now : Z) (tally : Tally.t) (uri : string)
    : Extractor.crash + Tally.t :=
  let skip :=
    {| Tally.success := Tally.success tally;
       Tally.errors := Tally.errors tally;
       Tally.skipped := S (Tally.skipped tally);
       Tally.insights := Tally.insights tally |} in
  let error :=
    {| Tally.success := Tally.success tally;
       Tally.errors := S (Tally.errors tally);
       Tally.skipped := Tally.skipped tally;
       Tally.insights := Tally.insights tally |} in
  match fetch_post_text uri with
  | None => inr skip
  | Some text =>
      if decide (text = "") then inr skip
      else if (String.length text <? 10)%nat then inr skip
      else
        match Extractor.extract_insights json_loads ollama text with
        | Some insights =>
            if Json.truthy insights then
              match Extractor.save_insight now uri text insights
                      (Tally.insights tally) with
              | inr table =>
                  inr {| Tally.success := S (Tally.success tally);
                         Tally.errors := Tally.errors tally;
                         Tally.skipped := Tally.skipped tally;
                         Tally.insights := table |}
              | inl c => inl c
              end
            else inr error
        | None => inr error
        end
  end.

(** The loop from turn [i] on; an exception ends it. *)
Fixpoint process_posts_from (i : nat) (tally : Tally.t) (uris : list string)
    : Extractor.crash + Tally.t :=
  match uris with
  | [] => inr tally
  | uri :: rest =>
      match process_post (clock i) tally uri with
      | inr tally' => process_posts_from (S i) tally' rest
      | inl c => inl c
      end
  end.

(** [uris[:max_posts]] for a [max_posts] that is not negative. *)
Definition process_posts (uris : list string) (max_posts : nat)
    (table : list Extractor.Insight.t) : Extractor.crash + Tally.t :=
  process_posts_from 0
    {| Tally.success := 0; Tally.errors := 0; Tally.skipped := 0;
       Tally.insights := table |}
    (take max_posts uris).

End batch.

End Batch.

(** * Sample rows *)

Module Examples.

Definition classification (post_id : Z) (consumer_type : option string)
    (purchase_intent sentiment_score : option Z) : BuildProfiles.Classification.t :=
  {| BuildProfiles.Classification.post_id := post_id;
     BuildProfiles.Classification.model_version := Classifier.MODEL_VERSION;
     BuildProfiles.Classification.consumer_type := consumer_type;
     BuildProfiles.Classification.experience_level := Some "casual";
     BuildProfiles.Classification.product_category := Some "flower";
     BuildProfiles.Classification.sentiment := Some "positive";
     BuildProfiles.Classification.sentiment_score := sentiment_score;
     BuildProfiles.Classification.purchase_intent := purchase_intent;
     BuildProfiles.Classification.effects_mentioned := Some [Some "relaxed"];
     BuildProfiles.Classification.effects_desired := Some [];
     BuildProfiles.Classification.lifestyle_tags := None;
     BuildProfiles.Classification.frustrations := Some [];
     BuildProfiles.Classification.emotions := Some [Some "happy"];
     BuildProfiles.Classification.occasion := Some "evening" |}.

Definition user (post_count : Z) : BuildProfiles.User.t :=
  {| BuildProfiles.User.author_did := "did:plc:alice";
     BuildProfiles.User.author_handle := Some "alice.cannect.space";
     BuildProfiles.User.post_count := post_count;
     BuildProfiles.User.first_post := Some 1767225600000000;
     BuildProfiles.User.last_post := Some 1769904000000000 |}.

Definition post (id : Z) (author_did rkey : string) (created processed : option Z)
    : Post.t :=
  {| Post.id := id;
     Post.uri := "at://" +:+ author_did +:+ "/app.bsky.feed.post/" +:+ rkey;
     Post.cid := Some "bafyreib2";
     Post.author_did := author_did;
     Post.author_handle := Some "alice.cannect.space";
     Post.post_created_at := created;
     Post.indexed_at := created;
     Post.text_content := Some "Blue Dream after work, finally relaxed";
     Post.facets := None;
     Post.langs := Some (Json.Arr [Json.Str "en"]);
     Post.has_media := Some false;
     Post.media_count := Some 0;
     Post.embed_type := Some "images";
     Post.embed_data := None;
     Post.processed_at := processed;
     Post.classification_version := None |}.

(** Two posts of one author, each classified once. *)
Definition two_posts : list Post.t :=
  [ post 1 "did:plc:alice" "3kabc" (Some 1767225600000000) (Some 1767229200000000);
    post 2 "did:plc:alice" "3kabd" (Some 1767830400000000) (Some 1767834000000000) ].

Definition two_rows : list BuildProfiles.Classification.t :=
  [ classification 1 (Some "wellness") (Some 40) (Some 10);
    classification 2 (Some "medical") (Some 60) (Some 30) ].

(** One post of one author, classified under two model versions. *)
Definition reclassified_posts : list Post.t :=
  [post 1 "did:plc:alice" "3kabc" (Some 1767225600000000) (Some 1767229200000000)].

Definition reclassified_rows : list BuildProfiles.Classification.t :=
  [ classification 1 (Some "wellness") (Some 40) (Some 10);
    {| BuildProfiles.Classification.post_id := 1;
       BuildProfiles.Classification.model_version := "deepseek-chat-20260301";
       BuildProfiles.Classification.consumer_type := Some "wellness";
       BuildProfiles.Classification.experience_level := Some "casual";
       BuildProfiles.Classification.product_category := Some "flower";
       BuildProfiles.Classification.sentiment := Some "positive";
       BuildProfiles.Classification.sentiment_score := Some 20;
       BuildProfiles.Classification.purchase_intent := Some 30;
       BuildProfiles.Classification.effects_mentioned := Some [Some "relaxed"];
       BuildProfiles.Classification.effects_desired := Some [];
       BuildProfiles.Classification.lifestyle_tags := None;
       BuildProfiles.Classification.frustrations := Some [];
       BuildProfiles.Classification.emotions := Some [Some "happy"];
       BuildProfiles.Classification.occasion := Some "evening" |} ].

(** Two answers of the classifier for one post. *)
Definition first_answer : gmap string Json.t :=
  <["sentiment" := Json.Str "positive"]>
    (<["purchase_intent" := Json.Int 40]>
       (<["confidence" := Json.Int 90]>
          (<["processing_ms" := Json.Int 812]>
             (<["model_version" := Json.Str Classifier.MODEL_VERSION]> ∅)))).

Definition second_answer : gmap string Json.t :=
  <["sentiment" := Json.Str "negative"]>
    (<["purchase_intent" := Json.Int 85]>
       (<["confidence" := Json.Int 55]>
          (<["processing_ms" := Json.Int 1430]>
             (<["model_version" := Json.Str Classifier.MODEL_VERSION]> ∅)))).

(** A store with one post that has not been classified. *)
Definition fresh_store : Classifier.DB :=
  {| Classifier.posts := [post 7 "did:plc:alice" "3kabc" (Some 1767225600000000) None];
     Classifier.post_classifications := [] |}.

(** A store of ten unclassified posts, and a classifier that times out
    on the fourth and answers the others with an object. *)
Definition unclassified (id : Z) : Post.t :=
  post id "did:plc:alice" ("3kab" +:+ pretty id)
    (Some (1767225600000000 + id * 3600000000)) None.


(** A pending post without text between two posts with text. *)
Definition textless : Post.t :=
  {| Post.id := 11;
     Post.uri := "at://did:plc:alice/app.bsky.feed.post/3kimg";
     Post.cid := Some "bafyreib2";
     Post.author_did := "did:plc:alice";
     Post.author_handle := Some "alice.cannect.space";
     Post.post_created_at := Some 1767225600000000;
     Post.indexed_at := Some 1767225600000000;
     Post.text_content := None;
     Post.facets := None;
     Post.langs := None;
     Post.has_media := Some true;
     Post.media_count := Some 0;
     Post.embed_type := Some "images";
     Post.embed_data := None;
     Post.processed_at := None;
     Post.classification_version := None |}.

Definition mixed_store : Classifier.DB :=
  {| Classifier.posts := [unclassified 1; textless; unclassified 2];
     Classifier.post_classifications := [] |}.

Definition quoted (s : string) : string :=
  String JsonText.dquote s +:+ String JsonText.dquote EmptyString.

Definition answer_text : string :=
  "{" +:+ quoted "sentiment" +:+ ": " +:+ quoted "positive" +:+ ", "
      +:+ quoted "purchase_intent" +:+ ": 40}".

Definition flaky_client (prompt : Classifier.Prompt.t) : Classifier.Reply :=
  if decide (Classifier.Prompt.created_at prompt
             = Post.post_created_at (unclassified 4))
  then Classifier.Failed (ApiFailure "Request timed out.")
  else Classifier.Completion answer_text 950.

Definition clock (post_id : Z) : Z := 1767300000000000 + post_id.

(** The answer of [flaky_client] as it is saved. *)
Definition stamped_answer : gmap string Json.t :=
  <["model_version" := Json.Str Classifier.MODEL_VERSION]>
    (<["processing_ms" := Json.Int 950]>
       (<["purchase_intent" := Json.Int 40]>
          (<["sentiment" := Json.Str "positive"]> ∅))).

(** A stored post with media, and the same post synced again from a
    source row without text, facets, languages, media flag or embed type. *)
Definition stored_post : Post.t :=
  {| Post.id := 7;
     Post.uri := "at://did:plc:alice/app.bsky.feed.post/3kabc";
     Post.cid := Some "bafyreib2";
     Post.author_did := "did:plc:alice";
     Post.author_handle := Some "alice.cannect.space";
     Post.post_created_at := Some 1767225600000000;
     Post.indexed_at := Some 1767225660000000;
     Post.text_content := Some "Blue Dream after work, finally relaxed";
     Post.facets := Some (Json.Arr [Json.Obj [("index", Json.Int 0)]]);
     Post.langs := Some (Json.Arr [Json.Str "en"]);
     Post.has_media := Some true;
     Post.media_count := Some 0;
     Post.embed_type := Some "images";
     Post.embed_data := None;
     Post.processed_at := Some 1767229200000000;
     Post.classification_version := Some 1 |}.

Definition resynced : Sync.Incoming.t :=
  {| Sync.Incoming.uri := "at://did:plc:alice/app.bsky.feed.post/3kabc";
     Sync.Incoming.cid := Some "bafyreib2";
     Sync.Incoming.author_did := "did:plc:alice";
     Sync.Incoming.author_handle := Some "alice.cannect.space";
     Sync.Incoming.post_created_at := 1767225600000000;
     Sync.Incoming.indexed_at := 1767312000000000;
     Sync.Incoming.text_content := None;
     Sync.Incoming.facets := None;
     Sync.Incoming.langs := None;
     Sync.Incoming.has_media := false;
     Sync.Incoming.media_count := 0;
     Sync.Incoming.embed_type := None;
     Sync.Incoming.embed_data := None |}.

(** A store holding [stored_post], and two rows of the source: the
    stored post again, and a new one. *)
Definition synced_store : Sync.Store :=
  {| Sync.posts := [stored_post];
     Sync.posts_id_seq := 8;
     Sync.sync_log := [] |}.

Definition resynced_row : Sync.SrcRow.t :=
  {| Sync.SrcRow.uri := "at://did:plc:alice/app.bsky.feed.post/3kabc";
     Sync.SrcRow.cid := Some "bafyreib2";
     Sync.SrcRow.author_did := "did:plc:alice";
     Sync.SrcRow.author_handle := Some "alice.cannect.space";
     Sync.SrcRow.indexed_at := Some "2026-01-02T00:00:00Z";
     Sync.SrcRow.created_at := Some "2026-01-01T00:00:00Z";
     Sync.SrcRow.text := None;
     Sync.SrcRow.facets := None;
     Sync.SrcRow.has_media := None;
     Sync.SrcRow.embed_type := None;
     Sync.SrcRow.langs := Some "en" |}.

Definition new_row : Sync.SrcRow.t :=
  {| Sync.SrcRow.uri := "at://did:plc:bob/app.bsky.feed.post/3kxyz";
     Sync.SrcRow.cid := Some "bafyreic7";
     Sync.SrcRow.author_did := "did:plc:bob";
     Sync.SrcRow.author_handle := Some "bob.cannect.space";
     Sync.SrcRow.indexed_at := Some "2026-01-03T00:00:00Z";
     Sync.SrcRow.created_at := Some "2026-01-03T00:00:00Z";
     Sync.SrcRow.text := Some "First time trying a tincture";
     Sync.SrcRow.facets := Some "[]";
     Sync.SrcRow.has_media := Some 1;
     Sync.SrcRow.embed_type := Some "images";
     Sync.SrcRow.langs := Some "[1]" |}.

Definition source_rows : list Sync.SrcRow.t := [resynced_row; new_row].

(** A runtime whose date parsers accept no text (every timestamp falls
    back to the time of the run) and whose [isoformat] is constant. *)
Definition no_date (text : string) : option Z := None.
Definition flat_isoformat (t : Z) : string := "2026-01-01T00:00:00".

Definition sync_example (download : result (list Sync.SrcRow.t)) (db : Sync.Store)
    : result (Z * Sync.Store) :=
  Sync.sync_posts JsonText.loads no_date no_date flat_isoformat None
    1767400000000000 download db.

(** A classifier that wraps its object in prose. *)
Definition fenced_text : string :=
  "Here is the analysis: " +:+ answer_text +:+ " Hope this helps.".

Definition chatty_client (prompt : Classifier.Prompt.t) : Classifier.Reply :=
  Classifier.Completion fenced_text 950.

Definition chatty_ollama (text : string) : Extractor.HttpReply :=
  Extractor.HttpResponse 200 fenced_text.

(** An extraction model that answers a post about Blue Dream with an
    object in prose and fails on every other text; three posts, of which
    one is too short and one cannot be fetched. *)
Definition insight_text : string :=
  "Sure! {" +:+ quoted "product" +:+ ": " +:+ quoted "Blue Dream" +:+ ", "
            +:+ quoted "mood" +:+ ": " +:+ quoted "relaxed" +:+ ", "
            +:+ quoted "keywords" +:+ ": [" +:+ quoted "denver" +:+ "]} Done.".

Definition insight_ollama (text : string) : Extractor.HttpReply :=
  if String.prefix "Blue Dream" text
  then Extractor.HttpResponse 200 insight_text
  else Extractor.HttpResponse 500 "".

Definition three_uris : list string :=
  [ "at://did:plc:alice/app.bsky.feed.post/3kabc";
    "at://did:plc:alice/app.bsky.feed.post/3kshort";
    "at://did:plc:bob/app.bsky.feed.post/3kgone" ].

Definition post_texts (uri : string) : option string :=
  if String.eqb uri "at://did:plc:alice/app.bsky.feed.post/3kabc"
  then Some "Blue Dream after work, finally relaxed"
  else if String.eqb uri "at://did:plc:alice/app.bsky.feed.post/3kshort"
  then Some "nice"
  else None.

Definition turn_clock (i : nat) : Z := 1767400000000000 + Z.of_nat i.

(** The row saved for the first of the three posts. *)
Definition blue_dream_insight (extracted_at : Z) : Extractor.Insight.t :=
  {| Extractor.Insight.uri := "at://did:plc:alice/app.bsky.feed.post/3kabc";
     Extractor.Insight.post_text := "Blue Dream after work, finally relaxed";
     Extractor.Insight.product := Json.Str "Blue Dream";
     Extractor.Insight.location := Json.Null;
     Extractor.Insight.mood := Json.Str "relaxed";
     Extractor.Insight.post_type := Json.Null;
     Extractor.Insight.keywords := Some (Json.Arr [Json.Str "denver"]);
     Extractor.Insight.extracted_at := extracted_at;
     Extractor.Insight.model_version := Extractor.MODEL |}.

End Examples.

(** * Properties *)

(** ** Counters *)

Section counter_facts.
Context {A : Type} `{EqDecision A}.
Implicit Types (c : list (A * nat)) (l : list A).

Lemma counter_add_keys x c :
  (counter_add x c).*1 = if decide (x ∈ c.*1) then c.*1 else c.*1 ++ [x].
Proof.
  induction c as [| [y n] c IH]; cbn [counter_add].
  - rewrite decide_False; [reflexivity | apply not_elem_of_nil].
  - destruct (decide (x = y)) as [-> | Hne]; rewrite !fmap_cons; cbn [fst].
    + rewrite decide_True; [reflexivity | left].
    + rewrite IH.
      destruct (decide (x ∈ c.*1)) as [Hin | Hnin].
      * rewrite decide_True; [reflexivity | now right].
      * rewrite decide_False; [reflexivity |].
        intros [? | ?]%elem_of_cons; contradiction.
Qed.

Lemma counter_add_elem x c k :
  k ∈ (counter_add x c).*1 <-> k ∈ c.*1 \/ k = x.
Proof.
  rewrite counter_add_keys.
  destruct (decide (x ∈ c.*1)) as [Hin | Hnin].
  - split; [now left | intros [? | ->]; assumption].
  - rewrite elem_of_app, list_elem_of_singleton. reflexivity.
Qed.

Lemma counter_add_NoDup x c : NoDup c.*1 -> NoDup (counter_add x c).*1.
Proof.
  intros Hnd. rewrite counter_add_keys.
  destruct (decide (x ∈ c.*1)) as [Hin | Hnin]; [assumption |].
  apply NoDup_app. split; [assumption |]. split.
  - intros k Hk Hx. apply list_elem_of_singleton in Hx. now subst.
  - apply NoDup_singleton.
Qed.

Lemma counter_fold_elem l c k :
  k ∈ (foldl (fun c x => counter_add x c) c l).*1 <-> k ∈ c.*1 \/ k ∈ l.
Proof.
  revert c. induction l as [| x l IH]; intros c; simpl.
  - split; [now left | intros [? | Hin]; [assumption | inversion Hin]].
  - rewrite IH, counter_add_elem, elem_of_cons. tauto.
Qed.

Lemma counter_fold_NoDup l c :
  NoDup c.*1 -> NoDup (foldl (fun c x => counter_add x c) c l).*1.
Proof.
  revert c. induction l as [| x l IH]; intros c Hnd; simpl; [assumption |].
  apply IH. now apply counter_add_NoDup.
Qed.

(** The keys of a Counter are the distinct values counted. *)
Lemma Counter_elem l k : k ∈ (Counter l).*1 <-> k ∈ l.
Proof.
  unfold Counter. rewrite counter_fold_elem. simpl.
  split; [intros [Hin | ?]; [inversion Hin | assumption] | now right].
Qed.

Lemma Counter_NoDup l : NoDup (Counter l).*1.
Proof. apply counter_fold_NoDup. constructor. Qed.

Lemma Counter_keys_Permutation l : (Counter l).*1 ≡ₚ remove_dups l.
Proof.
  apply NoDup_Permutation.
  - apply Counter_NoDup.
  - apply NoDup_remove_dups.
  - intros k. now rewrite Counter_elem, elem_of_remove_dups.
Qed.

Lemma Counter_length l : length (Counter l) = length (remove_dups l).
Proof.
  rewrite <- (length_fmap fst (Counter l)).
  now rewrite Counter_keys_Permutation.
Qed.

(** The ranking is a rearrangement of the items, by descending count. *)
Lemma insert_by_count_Permutation e c : insert_by_count e c ≡ₚ e :: c.
Proof.
  induction c as [| h t IH]; simpl; [reflexivity |].
  destruct (e.2 <? h.2)%nat; [| reflexivity].
  rewrite IH. apply Permutation_swap.
Qed.

Lemma sorted_by_count_Permutation c : sorted_by_count c ≡ₚ c.
Proof.
  induction c as [| e c IH]; simpl; [reflexivity |].
  rewrite insert_by_count_Permutation. now rewrite IH.
Qed.

Lemma sorted_by_count_length c : length (sorted_by_count c) = length c.
Proof. now rewrite sorted_by_count_Permutation. Qed.

Lemma insert_by_count_Sorted e c :
  Sorted count_ge c -> Sorted count_ge (insert_by_count e c).
Proof.
  induction c as [| h t IH]; intros Hs; simpl.
  - repeat constructor.
  - destruct (e.2 <? h.2)%nat eqn:E.
    + apply Nat.ltb_lt in E.
      inversion Hs as [| ? ? Hs' Hhd]; subst.
      constructor; [now apply IH |].
      destruct t as [| h' t']; simpl.
      * constructor. unfold count_ge. lia.
      * destruct (e.2 <? h'.2)%nat; constructor.
        -- now inversion Hhd.
        -- unfold count_ge. lia.
    + apply Nat.ltb_ge in E.
      constructor; [assumption |]. constructor. exact E.
Qed.

Lemma sorted_by_count_Sorted c : Sorted count_ge (sorted_by_count c).
Proof.
  induction c as [| e c IH]; simpl; [constructor |].
  now apply insert_by_count_Sorted.
Qed.

(** The count of a key is the number of its occurrences. *)
Lemma counter_add_count x c k :
  count_in (counter_add x c) k
  = if decide (k = x) then S (count_in c k) else count_in c k.
Proof.
  induction c as [| [y n] c IH]; cbn [counter_add count_in].
  - reflexivity.
  - destruct (decide (x = y)) as [-> | Hxy]; cbn [count_in].
    + destruct (decide (k = y)); reflexivity.
    + rewrite IH. destruct (decide (k = y)) as [-> | Hky]; [| reflexivity].
      rewrite decide_False by congruence. reflexivity.
Qed.

Lemma counter_fold_count l c k :
  count_in (foldl (fun c x => counter_add x c) c l) k
  = (count_in c k + length (filter (fun y => y = k) l))%nat.
Proof.
  revert c. induction l as [| x l IH]; intros c; cbn [foldl].
  - cbn. lia.
  - rewrite IH, counter_add_count, filter_cons.
    destruct (decide (k = x)) as [-> | Hne].
    + rewrite decide_True by reflexivity. cbn. lia.
    + rewrite decide_False by congruence. reflexivity.
Qed.

Lemma count_in_elem c k n : NoDup c.*1 -> (k, n) ∈ c -> count_in c k = n.
Proof.
  induction c as [| [y m] c IH]; intros Hnd Hin; [inversion Hin |].
  rewrite fmap_cons in Hnd. apply NoDup_cons in Hnd as [Hy Hnd].
  cbn [count_in]. apply elem_of_cons in Hin as [[= -> ->] | Hin].
  - now rewrite decide_True.
  - destruct (decide (k = y)) as [-> | _]; [| now apply IH].
    exfalso. apply Hy. apply list_elem_of_fmap. now exists (y, n).
Qed.

Lemma Counter_counts l k n :
  (k, n) ∈ Counter l -> n = length (filter (fun y => y = k) l).
Proof.
  intros Hin. apply count_in_elem in Hin; [| apply Counter_NoDup].
  unfold Counter in Hin. rewrite counter_fold_count in Hin. cbn in Hin. lia.
Qed.
End counter_facts.

Module BuildProfilesFacts.
Import BuildProfiles.

(** ** Posting frequency *)

Lemma posts_per_week_Qeq (post_count days : Z) :
  ((inject_Z post_count / inject_Z days) * 7
   == inject_Z (post_count * 7) / inject_Z days)%Q.
Proof. rewrite inject_Z_mult. unfold Qdiv. ring. Qed.

Lemma Qle_bool_true_iff (c x y : Q) :
  (x == y)%Q -> Qle_bool c x = true <-> (c <= y)%Q.
Proof. intros H. rewrite Qle_bool_iff. now rewrite H. Qed.

Lemma timedelta_days_whole (first_post n : Z) :
  timedelta_days (first_post + n * usec_per_day) first_post = n.
Proof.
  unfold timedelta_days.
  replace (first_post + n * usec_per_day - first_post) with (n * usec_per_day) by lia.
  apply Z.div_mul. discriminate.
Qed.

Lemma calculate_posting_frequency_refines
    (first_post last_post : option Z) (post_count : Z) :
  calculate_posting_frequency first_post last_post post_count
  = posting_frequency_spec first_post last_post post_count.
Proof.
  destruct first_post as [f |], last_post as [l |]; try reflexivity.
  unfold calculate_posting_frequency, posting_frequency_spec.
  destruct (decide (timedelta_days l f = 0)) as [| Hdays]; [reflexivity |].
  cbv zeta.
  pose proof (posts_per_week_Qeq post_count (timedelta_days l f)) as Heq.
  repeat match goal with
  | |- context [Qle_bool ?c ?x] =>
      let E := fresh "E" in
      destruct (Qle_bool c x) eqn:E;
      [ apply (Qle_bool_true_iff c _ _ Heq) in E
      | assert (~ (c <= inject_Z (post_count * 7) / inject_Z (timedelta_days l f))%Q)
          by (rewrite <- (Qle_bool_true_iff c _ _ Heq); congruence); clear E ]
  end;
  repeat match goal with
  | |- context [decide ?P] => destruct (decide P); try contradiction
  end;
  reflexivity.
Qed.

Lemma Qle_div_pos (n : Z) (m : positive) (a d : Z) :
  0 < d -> (n # m <= inject_Z a / inject_Z d)%Q <-> n * d <= a * Z.pos m.
Proof.
  intros Hd. destruct d as [| d | d]; try lia.
  unfold Qle, Qdiv, Qmult, Qinv, inject_Z. simpl.
  rewrite Z.mul_1_r. reflexivity.
Qed.

(** X4. With a positive span in days the bucket is decided by
    comparisons of integers: 'daily' from one post per day on,
    'several_weekly' from 3 posts per 7 days, 'weekly' from 1 post per 7
    days, 'monthly' from 1 post per 28 days, 'occasional' below. *)
Lemma posting_frequency_positive_span (first_post last_post post_count : Z) :
  let days := timedelta_days last_post first_post in
  0 < days ->
  calculate_posting_frequency (Some first_post) (Some last_post) post_count
  = if decide (days <= post_count) then "daily"
    else if decide (3 * days <= 7 * post_count) then "several_weekly"
    else if decide (days <= 7 * post_count) then "weekly"
    else if decide (days <= 28 * post_count) then "monthly"
    else "occasional".
Proof.
  intros days Hpos.
  rewrite calculate_posting_frequency_refines.
  unfold posting_frequency_spec. fold days.
  destruct (decide (days = 0)) as [| _]; [lia |].
  cbv zeta.
  repeat match goal with
  | |- context [@decide (?c <= ?x)%Q ?i] =>
      let H := fresh "H" in
      destruct (@decide (c <= x)%Q i) as [H | H];
      rewrite (Qle_div_pos _ _ _ _ Hpos) in H
  end;
  repeat match goal with
  | |- context [decide ?P] => destruct (decide P); try lia
  end;
  reflexivity.
Qed.

Lemma posting_frequency_positive_span_witness :
  calculate_posting_frequency
    (Some 1767225600000000) (Some (1767225600000000 + 28 * usec_per_day)) 1
  = "monthly"
  /\ calculate_posting_frequency
       (Some 1767225600000000) (Some (1767225600000000 + 29 * usec_per_day)) 1
     = "occasional".
Proof.
  split.
  - rewrite posting_frequency_positive_span by (rewrite timedelta_days_whole; lia).
    rewrite timedelta_days_whole. reflexivity.
  - rewrite posting_frequency_positive_span by (rewrite timedelta_days_whole; lia).
    rewrite timedelta_days_whole. reflexivity.
Defined.

(** ** [most_common] never raises *)

Lemma Counter_nonempty {A : Type} `{EqDecision A} (l : list A) :
  l <> [] -> Counter l <> [].
Proof.
  intros Hl Hc. destruct l as [| x l]; [congruence |].
  assert (Hin : x ∈ (Counter (x :: l)).*1) by (apply Counter_elem; left).
  rewrite Hc in Hin. inversion Hin.
Qed.

Lemma most_common_total (items : list (option string)) :
  exists s, most_common items = Ok s.
Proof.
  unfold most_common.
  destruct (decide (filter_known items = [])) as [| Hne]; [eauto |].
  unfold most_common_n, py_index.
  destruct (take 1 (sorted_by_count (Counter (filter_known items))) !! 0%nat)
    as [e |] eqn:E; [simpl; eauto |].
  apply lookup_ge_None in E.
  rewrite length_take, sorted_by_count_length in E.
  apply Counter_nonempty in Hne.
  destruct (Counter (filter_known items)); [congruence | simpl in E; lia].
Qed.

(** ** What a returned profile holds *)

Section profile_fields.

Variable set_order : list string -> list string.

Lemma build_user_profile_fields user cs profile :
  build_user_profile set_order user cs = Ok profile ->
  let consumer_types := Classification.consumer_type <$> cs in
  let purchase_intents := omap Classification.purchase_intent cs in
  let effects := flatten_arrays cs Classification.effects_mentioned in
  Profile.posts_analyzed profile = User.post_count user
  /\ most_common consumer_types = Ok (Profile.primary_consumer_type profile)
  /\ secondary_consumer_type consumer_types
     = Ok (Profile.secondary_consumer_type profile)
  /\ most_common (Classification.experience_level <$> cs)
     = Ok (Profile.experience_level profile)
  /\ Profile.avg_sentiment profile
     = py_round (average (omap Classification.sentiment_score cs)) 2
  /\ Profile.dispensary_target_score profile
     = dispensary_score (average purchase_intents)
         (length (filter (fun p => 50 <= p) purchase_intents))
         (User.post_count user)
  /\ Profile.wellness_brand_target_score profile
     = wellness_score (Profile.primary_consumer_type profile) effects
  /\ Profile.premium_product_target_score profile
     = premium_score (Profile.primary_consumer_type profile)
         (Profile.experience_level profile) (User.post_count user)
  /\ Profile.accessory_target_score profile = Z.min 100 (User.post_count user * 3)
  /\ Stats.avg_purchase_intent (Profile.stats_json profile)
     = py_round (average purchase_intents) 1
  /\ Stats.high_intent_posts (Profile.stats_json profile)
     = length (filter (fun p => 50 <= p) purchase_intents).
Proof.
  unfold build_user_profile.
  destruct (most_common (Classification.consumer_type <$> cs)) as [ct | e] eqn:Hct;
    [| discriminate].
  destruct (most_common (Classification.experience_level <$> cs)) as [el | e] eqn:Hel;
    [| discriminate].
  destruct (secondary_consumer_type (Classification.consumer_type <$> cs))
    as [sec | e] eqn:Hsec; [| discriminate].
  cbn. intros [= <-]. cbn. repeat split; reflexivity.
Qed.

(** A profile is returned exactly when the secondary label is. *)
Lemma build_user_profile_returns user cs :
  (exists profile, build_user_profile set_order user cs = Ok profile)
  <-> exists sec,
      secondary_consumer_type (Classification.consumer_type <$> cs) = Ok sec.
Proof.
  split.
  - intros [profile H]. apply build_user_profile_fields in H. cbv zeta in H.
    exists (Profile.secondary_consumer_type profile). tauto.
  - intros [sec Hsec]. unfold build_user_profile.
    destruct (most_common_total (Classification.consumer_type <$> cs)) as [ct ->].
    destruct (most_common_total (Classification.experience_level <$> cs)) as [el ->].
    rewrite Hsec. cbn. eauto.
Qed.

Lemma build_user_profile_fields_posts_analyzed user cs profile :
  build_user_profile set_order user cs = Ok profile ->
  Profile.posts_analyzed profile = User.post_count user.
Proof. intros H. now apply build_user_profile_fields in H. Qed.

End profile_fields.

(** ** Null scores and intents *)

Lemma omap_all_None {A B : Type} (f : A -> option B) (l : list A) :
  Forall (fun a => f a = None) l -> omap f l = [].
Proof.
  induction 1 as [| a l Ha _ IH]; [reflexivity |].
  cbn. now rewrite Ha, IH.
Qed.

Lemma dispensary_score_no_intent (post_count : Z) :
  dispensary_score 0 0 post_count = Z.min 100 (2 * post_count).
Proof.
  unfold dispensary_score, py_int. f_equal.
  cbn.
  change (Z.pos (1 * 2 * 1 * 1)) with 2.
  change (Z.pos (1 * 2 * 1)) with 2.
  change (Z.pos (1 * 2)) with 2.
  replace ((0 * 1 * 1 + Z.of_nat 0 * 10 * 2) * 1 + post_count * 2 * 2)
    with (2 * post_count * 2) by (simpl; lia).
  apply Z.quot_mul. discriminate.
Qed.

(** C10. When every classification of an author has a null
    sentiment_score the profile's avg_sentiment is 0; when every
    purchase_intent is null the average intent is 0, the count of
    high-intent posts is 0 and the dispensary score is
    min(100, 2 × post_count). *)
Theorem null_scores_aggregate_to_zero
    (set_order : list string -> list string)
    (user : User.t) (cs : list Classification.t) (profile : Profile.t) :
  build_user_profile set_order user cs = Ok profile ->
  (Forall (fun c => Classification.sentiment_score c = None) cs ->
   Profile.avg_sentiment profile = 0%Q)
  /\ (Forall (fun c => Classification.purchase_intent c = None) cs ->
      Stats.avg_purchase_intent (Profile.stats_json profile) = 0%Q
      /\ Stats.high_intent_posts (Profile.stats_json profile) = 0%nat
      /\ Profile.dispensary_target_score profile
         = Z.min 100 (2 * User.post_count user)).
Proof.
  intros H. apply build_user_profile_fields in H. cbv zeta in H.
  destruct H as (_ & _ & _ & _ & Hsent & Hdisp & _ & _ & _ & Havg & Hhigh).
  split.
  - intros Hnull. rewrite Hsent, (omap_all_None _ _ Hnull). reflexivity.
  - intros Hnull. rewrite Havg, Hhigh, Hdisp, (omap_all_None _ _ Hnull).
    repeat split; try reflexivity.
    apply dispensary_score_no_intent.
Qed.

Lemma null_scores_aggregate_to_zero_witness :
  let cs := [Examples.classification 1 (Some "wellness") None None;
             Examples.classification 2 (Some "medical") None None] in
  exists profile,
    build_user_profile remove_dups (Examples.user 2) cs = Ok profile
    /\ Profile.avg_sentiment profile = 0%Q
    /\ Stats.avg_purchase_intent (Profile.stats_json profile) = 0%Q
    /\ Stats.high_intent_posts (Profile.stats_json profile) = 0%nat
    /\ Profile.dispensary_target_score profile = 4.
Proof.
  intros cs.
  destruct (build_user_profile remove_dups (Examples.user 2) cs) as [profile | e] eqn:E;
    [| vm_compute in E; discriminate].
  exists profile. split; [reflexivity |].
  destruct (null_scores_aggregate_to_zero remove_dups (Examples.user 2) cs profile E)
    as [Hs Hp].
  split; [apply Hs; repeat constructor |].
  apply Hp. repeat constructor.
Defined.

(** ** The range of the targeting scores *)

Lemma py_int_nonneg (x : Q) : (0 <= x)%Q -> 0 <= py_int x.
Proof.
  intros Hx. unfold py_int. apply Z.quot_pos; [| lia].
  unfold Qle in Hx. simpl in Hx. lia.
Qed.

Lemma sum_nonneg (l : list Z) : Forall (fun p => 0 <= p) l -> 0 <= sum l.
Proof. induction 1; simpl; lia. Qed.

Lemma average_nonneg (l : list Z) :
  Forall (fun p => 0 <= p) l -> (0 <= average l)%Q.
Proof.
  intros Hl. unfold average. destruct l as [| p l]; [apply Qle_refl |].
  apply Qle_shift_div_l.
  - rewrite <- (Zlt_Qlt 0). simpl length. lia.
  - rewrite Qmult_0_l, <- (Zle_Qle 0). now apply sum_nonneg.
Qed.

Lemma Qplus_le_0_compat (a b : Q) : (0 <= a -> 0 <= b -> 0 <= a + b)%Q.
Proof. intros Ha Hb. exact (Qplus_le_compat 0 a 0 b Ha Hb). Qed.

Lemma dispensary_score_le avg high post_count :
  dispensary_score avg high post_count <= 100.
Proof. unfold dispensary_score. lia. Qed.

Lemma dispensary_score_nonneg avg high post_count :
  (0 <= avg)%Q -> 0 <= post_count -> 0 <= dispensary_score avg high post_count.
Proof.
  intros Havg Hpc. unfold dispensary_score.
  apply Z.min_glb; [lia |]. apply py_int_nonneg.
  repeat apply Qplus_le_0_compat.
  - apply Qmult_le_0_compat; [assumption | discriminate].
  - rewrite <- (Zle_Qle 0). lia.
  - rewrite <- (Zle_Qle 0). lia.
Qed.

Lemma wellness_score_range primary effects :
  0 <= wellness_score primary effects <= 100.
Proof. unfold wellness_score. case_decide; lia. Qed.

Lemma premium_score_range primary experience post_count :
  0 <= post_count -> 0 <= premium_score primary experience post_count <= 100.
Proof. intros. unfold premium_score. repeat case_decide; lia. Qed.

(** X3. For a returned profile with [post_count >= 1] no targeting
    score exceeds 100, the wellness, premium and accessory scores are in
    [0,100], and the dispensary score is not negative as long as no
    stored purchase intent is. *)
Lemma targeting_scores_range
    (set_order : list string -> list string)
    (user : User.t) (cs : list Classification.t) (profile : Profile.t) :
  build_user_profile set_order user cs = Ok profile ->
  1 <= User.post_count user ->
  Profile.dispensary_target_score profile <= 100
  /\ 0 <= Profile.wellness_brand_target_score profile <= 100
  /\ 0 <= Profile.premium_product_target_score profile <= 100
  /\ 0 <= Profile.accessory_target_score profile <= 100
  /\ (Forall (fun p => 0 <= p) (omap Classification.purchase_intent cs) ->
      0 <= Profile.dispensary_target_score profile).
Proof.
  intros H Hpc. apply build_user_profile_fields in H. cbv zeta in H.
  destruct H as (_ & _ & _ & _ & _ & Hdisp & Hwell & Hprem & Hacc & _).
  rewrite Hdisp, Hwell, Hprem, Hacc.
  split; [apply dispensary_score_le |].
  split; [apply wellness_score_range |].
  split; [apply premium_score_range; lia |].
  split; [lia |].
  intros Hpos. apply dispensary_score_nonneg; [now apply average_nonneg | lia].
Qed.

Lemma targeting_scores_range_witness :
  let cs := [Examples.classification 1 (Some "wellness") (Some 80) (Some 10);
             Examples.classification 2 (Some "wellness") (Some 60) None;
             Examples.classification 3 (Some "medical") (Some 0) (Some (-20))] in
  exists profile,
    build_user_profile remove_dups (Examples.user 3) cs = Ok profile
    /\ 0 <= Profile.dispensary_target_score profile <= 100
    /\ 0 <= Profile.wellness_brand_target_score profile <= 100
    /\ 0 <= Profile.premium_product_target_score profile <= 100
    /\ 0 <= Profile.accessory_target_score profile <= 100
    /\ Profile.dispensary_target_score profile = 49.
Proof.
  intros cs.
  destruct (build_user_profile remove_dups (Examples.user 3) cs) as [profile | e] eqn:E;
    [| vm_compute in E; discriminate].
  exists profile. split; [reflexivity |].
  destruct (targeting_scores_range remove_dups (Examples.user 3) cs profile E)
    as (Hd & Hw & Hp & Ha & Hd0); [vm_compute; discriminate |].
  split; [split; [apply Hd0; repeat constructor; lia | exact Hd] |].
  split; [exact Hw |]. split; [exact Hp |]. split; [exact Ha |].
  vm_compute in E. injection E as <-. reflexivity.
Defined.

(** C1. The dispensary score is not clamped from below: for one post
    whose stored purchase_intent is -1000 the profile is built and its
    dispensary_target_score is int(-500 + 0 + 2) = -498, outside [0,100]. *)
Theorem dispensary_score_below_zero (set_order : list string -> list string) :
  exists profile,
    build_user_profile set_order (Examples.user 1)
      [Examples.classification 1 (Some "recreational") (Some (-1000)) (Some 10)]
    = Ok profile
    /\ Profile.dispensary_target_score profile = -498
    /\ ~ (0 <= Profile.dispensary_target_score profile <= 100).
Proof.
  eexists. split; [reflexivity |].
  split; [reflexivity |].
  vm_compute. intros [Hle _]. now apply Hle.
Qed.

(** ** The secondary consumer type *)

Lemma omap_length_le {A B : Type} (f : A -> option B) (l : list A) :
  (length (omap f l) <= length l)%nat.
Proof.
  induction l as [| a l IH]; [reflexivity |].
  cbn. destruct (f a); simpl; lia.
Qed.

Lemma distinct_omap_le {A B : Type} `{EqDecision A} `{EqDecision B}
    (f : A -> option B) (l : list A) :
  (length (remove_dups (omap f l)) <= length (remove_dups l))%nat.
Proof.
  transitivity (length (omap f (remove_dups l))).
  - apply submseteq_length, NoDup_submseteq; [apply NoDup_remove_dups |].
    intros b Hb. apply elem_of_remove_dups, list_elem_of_omap in Hb as (a & Ha & Hf).
    apply list_elem_of_omap. exists a. split; [| assumption].
    now apply elem_of_remove_dups.
  - apply omap_length_le.
Qed.

(** With two distinct known values the label is the second entry of the
    ranking by descending count. *)
Lemma secondary_of_two_known (consumer_types : list (option string)) :
  (2 <= length (remove_dups (filter_known consumer_types)))%nat ->
  exists e,
    sorted_by_count (Counter (filter_known consumer_types)) !! 1%nat = Some e
    /\ secondary_consumer_type consumer_types = Ok (Some e.1).
Proof.
  intros Hknown.
  assert (Hlen : (2 <= length (sorted_by_count (Counter (filter_known consumer_types))))%nat)
    by now rewrite sorted_by_count_length, Counter_length.
  destruct (sorted_by_count (Counter (filter_known consumer_types)) !! 1%nat)
    as [e |] eqn:E; [| apply lookup_ge_None in E; lia].
  exists e. split; [reflexivity |].
  unfold secondary_consumer_type.
  pose proof (distinct_omap_le known consumer_types) as Hraw.
  fold (filter_known consumer_types) in Hraw.
  rewrite decide_True by lia.
  unfold most_common_n, py_index.
  rewrite lookup_take_lt by lia. rewrite E. reflexivity.
Qed.

(** With at most one distinct value of any kind the label is null. *)
Lemma secondary_of_one_value (consumer_types : list (option string)) :
  (length (remove_dups consumer_types) <= 1)%nat ->
  secondary_consumer_type consumer_types = Ok None.
Proof.
  intros Hraw. unfold secondary_consumer_type.
  now rewrite decide_False by lia.
Qed.

(** It raises exactly when the values are of two kinds or more and fewer
    than two of them are known. *)
Lemma secondary_raises_iff (consumer_types : list (option string)) (e : exn) :
  secondary_consumer_type consumer_types = Raise e
  <-> e = IndexError
      /\ (1 < length (remove_dups consumer_types))%nat
      /\ (length (remove_dups (filter_known consumer_types)) < 2)%nat.
Proof.
  split.
  - intros H.
    destruct (decide (2 <= length (remove_dups (filter_known consumer_types)))%nat)
      as [Hk | Hk].
    { apply secondary_of_two_known in Hk as (? & _ & Hk). congruence. }
    destruct (decide (length (remove_dups consumer_types) <= 1)%nat) as [Hr | Hr].
    { apply secondary_of_one_value in Hr. congruence. }
    split; [| lia].
    unfold secondary_consumer_type, py_index in H.
    rewrite decide_True in H by lia.
    destruct (most_common_n 2 (Counter (filter_known consumer_types)) !! 1%nat);
      cbn in H; congruence.
  - intros (-> & Hraw & Hknown).
    unfold secondary_consumer_type, py_index, most_common_n.
    rewrite decide_True by lia.
    rewrite (proj2 (lookup_ge_None _ _)); [reflexivity |].
    rewrite length_take, sorted_by_count_length, Counter_length. lia.
Qed.

(** C2. The guard of the secondary label counts the distinct values of
    the unfiltered list while the ranking indexed is that of the known
    values: for ['wellness', 'unknown'] the guard passes, the ranking has
    one entry and [[1]] raises IndexError; no profile is returned. *)
Theorem secondary_consumer_type_index_error
    (set_order : list string -> list string) :
  secondary_consumer_type [Some "wellness"; Some "unknown"] = Raise IndexError
  /\ build_user_profile set_order (Examples.user 2)
       [Examples.classification 1 (Some "wellness") (Some 40) (Some 10);
        Examples.classification 2 (Some "unknown") (Some 20) (Some 0)]
     = Raise IndexError.
Proof. split; reflexivity. Qed.

(** C9. [calculate_posting_frequency] is the bucketing of the
    specification: 'unknown' when a timestamp is missing, 'burst' when
    the span in days is 0, and otherwise, with posts-per-week =
    post_count × 7 / span_days, 'daily' from 7, 'several_weekly' from 3,
    'weekly' from 1, 'monthly' from 0.25 and 'occasional' below. A span of
    7 days with 7 posts is 'daily'; a span of 30 days with 2 posts is
    'monthly'. *)
Theorem calculate_posting_frequency_buckets :
  (forall (first_post last_post : option Z) (post_count : Z),
      calculate_posting_frequency first_post last_post post_count
      = posting_frequency_spec first_post last_post post_count)
  /\ (forall first_post : Z,
         calculate_posting_frequency
           (Some first_post) (Some (first_post + 7 * usec_per_day)) 7 = "daily")
  /\ (forall first_post : Z,
         calculate_posting_frequency
           (Some first_post) (Some (first_post + 30 * usec_per_day)) 2 = "monthly").
Proof.
  split; [| split].
  - apply calculate_posting_frequency_refines.
  - intros f. unfold calculate_posting_frequency.
    rewrite timedelta_days_whole. reflexivity.
  - intros f. unfold calculate_posting_frequency.
    rewrite timedelta_days_whole. reflexivity.
Qed.

End BuildProfilesFacts.

(** ** The grouped query and [posts_analyzed] *)

Module AggregationFacts.
Import BuildProfiles.

Section aggregation.

Variables (posts : list Post.t) (pcs : list Classification.t).

Local Abbreviation rows_of_post := (BuildProfiles.rows_of_post pcs).

Lemma joined_cons (p : Post.t) (ps : list Post.t) :
  joined (p :: ps) pcs = ((fun pc => (p, pc)) <$> rows_of_post p) ++ joined ps pcs.
Proof.
  unfold joined, BuildProfiles.rows_of_post. cbn. f_equal.
Qed.

Lemma group_of_rows (did : string) (p : Post.t) (l : list Classification.t) :
  group_of did ((fun pc => (p, pc)) <$> l)
  = if decide (Post.author_did p = did) then (fun pc => (p, pc)) <$> l else [].
Proof.
  unfold group_of. induction l as [| pc l IH].
  - now destruct (decide (Post.author_did p = did)).
  - rewrite !fmap_cons, filter_cons, IH. cbn [fst].
    now destruct (decide (Post.author_did p = did)).
Qed.

Lemma group_length_cons (did : string) (p : Post.t) (ps : list Post.t) :
  length (group_of did (joined (p :: ps) pcs))
  = ((if decide (Post.author_did p = did) then length (rows_of_post p) else 0)
     + length (group_of did (joined ps pcs)))%nat.
Proof.
  rewrite joined_cons. unfold group_of at 1. rewrite filter_app, length_app.
  fold (group_of did ((fun pc => (p, pc)) <$> rows_of_post p)).
  fold (group_of did (joined ps pcs)).
  rewrite group_of_rows.
  destruct (decide (Post.author_did p = did)); [now rewrite length_fmap | reflexivity].
Qed.

Lemma rows_of_post_Exists (p : Post.t) :
  Exists (fun pc => Classification.post_id pc = Post.id p) pcs
  <-> (1 <= length (rows_of_post p))%nat.
Proof.
  unfold rows_of_post. rewrite Exists_exists. split.
  - intros (pc & Hin & Hid).
    assert (Hf : pc ∈ filter (fun pc => Classification.post_id pc = Post.id p) pcs)
      by (apply list_elem_of_filter; tauto).
    destruct (filter _ pcs); [inversion Hf | simpl; lia].
  - intros Hlen.
    destruct (filter (fun pc => Classification.post_id pc = Post.id p) pcs)
      as [| pc l] eqn:E; [simpl in Hlen; lia |].
    assert (Hf : pc ∈ filter (fun pc => Classification.post_id pc = Post.id p) pcs)
      by (rewrite E; left).
    apply list_elem_of_filter in Hf. exists pc. tauto.
Qed.

Lemma rows_of_post_at_most_one (p : Post.t) :
  NoDup (Classification.post_id <$> pcs) -> (length (rows_of_post p) <= 1)%nat.
Proof.
  unfold rows_of_post. induction pcs as [| pc l IH]; intros Hnd; [simpl; lia |].
  rewrite fmap_cons in Hnd. apply NoDup_cons in Hnd as [Hnin Hnd].
  rewrite filter_cons. destruct (decide (Classification.post_id pc = Post.id p)) as [Hid |].
  - destruct (filter (fun pc => Classification.post_id pc = Post.id p) l)
      as [| pc' l'] eqn:E; [simpl; lia |].
    exfalso. apply Hnin.
    assert (Hf : pc' ∈ filter (fun pc => Classification.post_id pc = Post.id p) l)
      by (rewrite E; left).
    apply list_elem_of_filter in Hf as [Hid' Hin].
    apply list_elem_of_fmap. exists pc'. split; [congruence | assumption].
  - now apply IH.
Qed.

(** Every classified post contributes at least one joined row. *)
Lemma classified_posts_le_rows (did : string) :
  (length (classified_posts posts pcs did)
   <= length (group_of did (joined posts pcs)))%nat.
Proof.
  unfold classified_posts. induction posts as [| p ps IH]; [reflexivity |].
  rewrite group_length_cons, filter_cons.
  destruct (decide (Post.author_did p = did
                    /\ Exists (fun pc => Classification.post_id pc = Post.id p) pcs))
    as [[Hd Hex] | Hn].
  - rewrite decide_True by assumption. apply rows_of_post_Exists in Hex.
    simpl. lia.
  - lia.
Qed.

(** With at most one classification row per post, the joined rows of an
    author are as many as the author's classified posts. *)
Lemma classified_posts_eq_rows (did : string) :
  NoDup (Classification.post_id <$> pcs) ->
  length (classified_posts posts pcs did) = length (group_of did (joined posts pcs)).
Proof.
  intros Hnd. unfold classified_posts. induction posts as [| p ps IH]; [reflexivity |].
  rewrite group_length_cons, filter_cons.
  pose proof (rows_of_post_at_most_one p Hnd) as Hle.
  pose proof (rows_of_post_Exists p) as Hex.
  destruct (decide (Post.author_did p = did
                    /\ Exists (fun pc => Classification.post_id pc = Post.id p) pcs))
    as [[Hd He] | Hn].
  - rewrite decide_True by assumption. apply Hex in He. simpl. lia.
  - destruct (decide (Post.author_did p = did)) as [Hd | Hd]; [| lia].
    assert (length (rows_of_post p) = 0)%nat as ->; [| lia].
    destruct (length (rows_of_post p)) as [| n] eqn:E; [reflexivity |].
    exfalso. apply Hn. split; [assumption |]. apply Hex. lia.
Qed.

(** The rows of the grouped query. *)
Lemma get_users_with_posts_elem (min_posts : Z) (u : User.t) :
  u ∈ get_users_with_posts posts pcs min_posts
  <-> (exists r, r ∈ joined posts pcs /\ Post.author_did r.1 = User.author_did u)
      /\ u = user_of_group (User.author_did u)
               (group_of (User.author_did u) (joined posts pcs))
      /\ min_posts <= User.post_count u.
Proof.
  unfold get_users_with_posts.
  rewrite merge_sort_Permutation, list_elem_of_filter, list_elem_of_fmap.
  setoid_rewrite elem_of_remove_dups. setoid_rewrite list_elem_of_fmap.
  split.
  - intros (Hmin & did & -> & r & -> & Hr). cbn. eauto 6.
  - intros ((r & Hr & Hdid) & Hu & Hmin). split; [assumption |].
    exists (User.author_did u). split; [assumption |]. exists r. auto.
Qed.

Lemma get_user_classifications_length (did : string) :
  length (get_user_classifications posts pcs did)
  = length (group_of did (joined posts pcs)).
Proof.
  unfold get_user_classifications.
  now rewrite length_fmap, merge_sort_Permutation.
Qed.

End aggregation.

(** C8. [posts_analyzed] is the [COUNT(1)] of the author's group in the
    join of posts with classification rows: the number of classification
    rows of the author's posts, which is also the number of rows the
    profile is built from. An author has a row in the grouped query, and
    so a profile, only when that number is at least [min_posts]. The
    number is never below the number of the author's classified posts,
    and equals it when no post has two classification rows. *)
Theorem posts_analyzed_counts_joined_rows
    (set_order : list string -> list string)
    (posts : list Post.t) (pcs : list Classification.t)
    (min_posts : Z) (u : User.t) (profile : Profile.t) :
  u ∈ get_users_with_posts posts pcs min_posts ->
  build_user_profile set_order u
    (get_user_classifications posts pcs (User.author_did u)) = Ok profile ->
  let rows := group_of (User.author_did u) (joined posts pcs) in
  let classified := classified_posts posts pcs (User.author_did u) in
  Profile.posts_analyzed profile = Z.of_nat (length rows)
  /\ length (get_user_classifications posts pcs (User.author_did u)) = length rows
  /\ min_posts <= Profile.posts_analyzed profile
  /\ Z.of_nat (length classified) <= Profile.posts_analyzed profile
  /\ (NoDup (Classification.post_id <$> pcs) ->
      Profile.posts_analyzed profile = Z.of_nat (length classified)).
Proof.
  intros Hu Hbuild rows classified.
  apply get_users_with_posts_elem in Hu as (_ & Hu & Hmin).
  apply BuildProfilesFacts.build_user_profile_fields_posts_analyzed in Hbuild.
  assert (Hcount : User.post_count u = Z.of_nat (length rows))
    by (rewrite Hu at 1; reflexivity).
  rewrite Hbuild, Hcount. subst rows classified.
  split; [reflexivity |].
  split; [apply get_user_classifications_length |].
  split; [lia |].
  split; [apply inj_le, classified_posts_le_rows |].
  intros Hnd. f_equal. symmetry. now apply classified_posts_eq_rows.
Qed.

Lemma posts_analyzed_counts_joined_rows_witness :
  exists u profile,
    u ∈ get_users_with_posts Examples.two_posts Examples.two_rows 2
    /\ build_user_profile remove_dups u
         (get_user_classifications Examples.two_posts Examples.two_rows
            (User.author_did u)) = Ok profile
    /\ Profile.posts_analyzed profile = 2
    /\ length (classified_posts Examples.two_posts Examples.two_rows
                 (User.author_did u)) = 2%nat.
Proof.
  destruct (get_users_with_posts Examples.two_posts Examples.two_rows 2)
    as [| u us] eqn:Eu; [vm_compute in Eu; discriminate |].
  assert (Hin : u ∈ get_users_with_posts Examples.two_posts Examples.two_rows 2)
    by (rewrite Eu; left).
  assert (Hdid : User.author_did u = "did:plc:alice")
    by (vm_compute in Eu; now injection Eu as <- _).
  destruct (build_user_profile remove_dups u
              (get_user_classifications Examples.two_posts Examples.two_rows
                 (User.author_did u))) as [profile | e] eqn:Eb.
  - exists u, profile.
    destruct (posts_analyzed_counts_joined_rows remove_dups
                Examples.two_posts Examples.two_rows 2 u profile Hin Eb)
      as (Hrows & _ & _ & _ & Hone).
    split; [left |].
    split; [exact Eb |].
    rewrite Hrows, Hdid. split; reflexivity.
  - exfalso. vm_compute in Eu. injection Eu as <- _.
    vm_compute in Eb. discriminate.
Defined.

(** C8, as stated, fails: a post classified under two model versions is
    counted twice, and an author with one classified post is given a
    profile under [min_posts = 2]. *)
Lemma posts_analyzed_counts_a_post_twice :
  exists u profile,
    get_users_with_posts Examples.reclassified_posts Examples.reclassified_rows 2 = [u]
    /\ build_user_profile remove_dups u
         (get_user_classifications Examples.reclassified_posts
            Examples.reclassified_rows (User.author_did u)) = Ok profile
    /\ Profile.posts_analyzed profile = 2
    /\ length (classified_posts Examples.reclassified_posts
                 Examples.reclassified_rows (User.author_did u)) = 1%nat
    /\ Profile.posts_analyzed profile
       <> Z.of_nat (length (classified_posts Examples.reclassified_posts
                              Examples.reclassified_rows (User.author_did u)))
    /\ ~ (2 <= Z.of_nat (length (classified_posts Examples.reclassified_posts
                                   Examples.reclassified_rows (User.author_did u)))).
Proof.
  eexists. eexists.
  split; [vm_compute; reflexivity |].
  split; [vm_compute; reflexivity |].
  split; [reflexivity |].
  split; [reflexivity |].
  split; vm_compute; [discriminate | intros H; now apply H].
Qed.

End AggregationFacts.

(** ** Saving a classification *)

Module ClassifierFacts.
Import Classifier.

Lemma mark_processed_id now p : Post.id (mark_processed now p) = Post.id p.
Proof. reflexivity. Qed.

Lemma save_classification_posts_lookup now post_id c db (i : nat) :
  posts (save_classification now post_id c db) !! i
  = (fun p => if decide (Post.id p = post_id) then mark_processed now p else p)
      <$> posts db !! i.
Proof. unfold save_classification. cbn [posts]. apply list_lookup_fmap. Qed.

(** C4. [save_classification] sets [processed_at] of the post to the
    current time and sets its [classification_version] to 1, whatever the
    version was; every other post is left as it is. *)
Theorem save_classification_marks_post
    (now post_id : Z) (c : gmap string Json.t) (db : DB) (i : nat) (p : Post.t) :
  posts db !! i = Some p ->
  exists p',
    posts (save_classification now post_id c db) !! i = Some p'
    /\ (Post.id p = post_id ->
        Post.processed_at p' = Some now
        /\ Post.classification_version p' = Some 1
        /\ Post.id p' = Post.id p
        /\ Post.text_content p' = Post.text_content p)
    /\ (Post.id p <> post_id -> p' = p).
Proof.
  intros Hp. rewrite save_classification_posts_lookup, Hp. cbn.
  eexists. split; [reflexivity |].
  destruct (decide (Post.id p = post_id)) as [Hid | Hid].
  - split; [intros _; repeat split | contradiction].
  - split; [contradiction | reflexivity].
Qed.

Lemma save_classification_marks_post_witness :
  exists p',
    posts (save_classification 1767229200000000 7 Examples.first_answer
             Examples.fresh_store) !! 0%nat = Some p'
    /\ Post.processed_at p' = Some 1767229200000000
    /\ Post.classification_version p' = Some 1.
Proof.
  destruct (save_classification_marks_post 1767229200000000 7 Examples.first_answer
              Examples.fresh_store 0
              (Examples.post 7 "did:plc:alice" "3kabc" (Some 1767225600000000) None)
              eq_refl) as (p' & Hlookup & Hmarked & _).
  exists p'. split; [exact Hlookup |].
  destruct (Hmarked eq_refl) as (Hat & Hversion & _). now split.
Defined.

(** C4, as stated, fails: a post classified a second time keeps
    classification_version 1; the value does not increase. *)
Lemma classification_version_stays_one :
  let db1 := save_classification 1767229200000000 7 Examples.first_answer
               Examples.fresh_store in
  let db2 := save_classification 1767232800000000 7 Examples.second_answer db1 in
  Post.classification_version <$> posts db1 = [Some 1]
  /\ Post.classification_version <$> posts db2 = [Some 1]
  /\ Post.classification_version <$> posts db2 <> [Some 2].
Proof. repeat split. discriminate. Qed.

(** ** The upsert of classification rows *)

Lemma excluded_row_key post_id c :
  excluded_row post_id c !! "post_id" = Some (Json.Int post_id)
  /\ excluded_row post_id c !! "model_version"
     = Some (get_or c "model_version" (Json.Str MODEL_VERSION)).
Proof. split; reflexivity. Qed.

Lemma do_update_frame now excluded row (column : string) :
  column ∉ ["confidence"; "processing_ms"; "classified_at"] ->
  do_update_row now excluded row !! column = row !! column.
Proof.
  intros Hcol. unfold do_update_row.
  rewrite !lookup_insert_ne; [reflexivity | | |];
    intros <-; apply Hcol; set_solver.
Qed.

Lemma upsert_classification_length now excluded table :
  Exists (conflicts excluded) table ->
  length (upsert_classification now excluded table) = length table.
Proof.
  intros Hex. unfold upsert_classification.
  rewrite decide_True by assumption. apply length_fmap.
Qed.

Lemma upsert_classification_lookup now excluded table (i : nat) row :
  table !! i = Some row ->
  upsert_classification now excluded table !! i
  = Some (if decide (conflicts excluded row) then do_update_row now excluded row else row).
Proof.
  intros Hrow. unfold upsert_classification.
  destruct (decide (Exists (conflicts excluded) table)) as [Hex | Hex].
  - now rewrite list_lookup_fmap, Hrow.
  - rewrite lookup_app_l by (apply lookup_lt_Some in Hrow; exact Hrow).
    rewrite Hrow. f_equal. rewrite decide_False; [reflexivity |].
    intros Hc. apply Hex, Exists_exists. exists row. split; [| assumption].
    eapply list_elem_of_lookup_2; eassumption.
Qed.

(** C5. When the table holds a row for (post_id, model_version), saving
    another classification for the same key creates no row and changes,
    in that row, [confidence], [processing_ms] and [classified_at] only:
    every other column keeps the value stored before. *)
Theorem reclassification_updates_telemetry_only
    (now post_id : Z) (c : gmap string Json.t) (db : DB) (i : nat) (row : Row) :
  post_classifications db !! i = Some row ->
  conflicts (excluded_row post_id c) row ->
  let db' := save_classification now post_id c db in
  length (post_classifications db') = length (post_classifications db)
  /\ exists row',
      post_classifications db' !! i = Some row'
      /\ (forall column : string,
             column ∉ ["confidence"; "processing_ms"; "classified_at"] ->
             row' !! column = row !! column)
      /\ row' !! "confidence" = Some (get_or c "confidence" (Json.Int 80))
      /\ row' !! "processing_ms" = Some (get c "processing_ms")
      /\ row' !! "classified_at" = Some (Json.Int now).
Proof.
  intros Hrow Hconflict db'. subst db'. unfold save_classification.
  cbn [post_classifications].
  split.
  - apply upsert_classification_length, Exists_exists.
    exists row. split; [| assumption]. eapply list_elem_of_lookup_2; eassumption.
  - rewrite (upsert_classification_lookup _ _ _ _ _ Hrow).
    rewrite decide_True by assumption.
    eexists. split; [reflexivity |].
    split; [intros column Hcol; now apply do_update_frame |].
    unfold do_update_row. repeat split.
    + rewrite lookup_insert_ne by discriminate.
      rewrite lookup_insert_ne by discriminate.
      now rewrite lookup_insert_eq.
    + rewrite lookup_insert_ne by discriminate.
      now rewrite lookup_insert_eq.
    + now rewrite lookup_insert_eq.
Qed.

(** A first save of a key inserts the proposed row; the second save of
    the key conflicts with it. *)
Lemma first_save_inserts now post_id c db :
  ~ Exists (conflicts (excluded_row post_id c)) (post_classifications db) ->
  post_classifications (save_classification now post_id c db)
  = post_classifications db ++ [excluded_row post_id c].
Proof.
  intros Hex. unfold save_classification, upsert_classification.
  cbn [post_classifications]. now rewrite decide_False.
Qed.

Lemma same_key_conflicts post_id c1 c2 :
  get_or c2 "model_version" (Json.Str MODEL_VERSION)
  = get_or c1 "model_version" (Json.Str MODEL_VERSION) ->
  get_or c2 "model_version" (Json.Str MODEL_VERSION) <> Json.Null ->
  conflicts (excluded_row post_id c2) (excluded_row post_id c1).
Proof.
  intros Hsame Hnull. unfold conflicts.
  destruct (excluded_row_key post_id c1) as [-> ->].
  destruct (excluded_row_key post_id c2) as [-> ->].
  split; [reflexivity |]. split; [now rewrite Hsame |]. congruence.
Qed.

Lemma reclassification_updates_telemetry_only_witness :
  let db1 := save_classification 1767229200000000 7 Examples.first_answer
               Examples.fresh_store in
  let db2 := save_classification 1767232800000000 7 Examples.second_answer db1 in
  length (post_classifications db2) = 1%nat
  /\ exists row',
      post_classifications db2 !! 0%nat = Some row'
      /\ row' !! "sentiment" = Some (Json.Str "positive")
      /\ row' !! "purchase_intent" = Some (Json.Int 40)
      /\ row' !! "raw_response" = Some (raw_response Examples.first_answer)
      /\ row' !! "confidence" = Some (Json.Int 55)
      /\ row' !! "processing_ms" = Some (Json.Int 1430)
      /\ row' !! "classified_at" = Some (Json.Int 1767232800000000).
Proof.
  intros db1 db2.
  assert (Hrow : post_classifications db1 !! 0%nat
                 = Some (excluded_row 7 Examples.first_answer)) by reflexivity.
  assert (Hconflict : conflicts (excluded_row 7 Examples.second_answer)
                                (excluded_row 7 Examples.first_answer))
    by (apply same_key_conflicts; [reflexivity | discriminate]).
  destruct (reclassification_updates_telemetry_only 1767232800000000 7
              Examples.second_answer db1 0 _ Hrow Hconflict)
    as (Hlen & row' & Hlookup & Hframe & Hconf & Hms & Hat).
  split; [exact Hlen |].
  exists row'. split; [exact Hlookup |].
  assert (Hsemantic : forall column : string,
             column ∉ ["confidence"; "processing_ms"; "classified_at"] ->
             forall v, excluded_row 7 Examples.first_answer !! column = Some v ->
             row' !! column = Some v)
    by (intros column Hcol v <-; now apply Hframe).
  split; [apply Hsemantic;
          [apply (bool_decide_unpack _); vm_compute; exact I | vm_compute; reflexivity] |].
  split; [apply Hsemantic;
          [apply (bool_decide_unpack _); vm_compute; exact I | vm_compute; reflexivity] |].
  split; [apply Hsemantic;
          [apply (bool_decide_unpack _); vm_compute; exact I | reflexivity] |].
  split; [rewrite Hconf; vm_compute; reflexivity |].
  split; [rewrite Hms; vm_compute; reflexivity |].
  exact Hat.
Defined.

(** ** A batch *)

Section batch.

Variable json_loads : string -> option Json.t.
Variable client : Prompt.t -> Reply.
Variable clock : Z -> Z.

Local Abbreviation classify := (classify json_loads client).
Local Abbreviation classify_post_async := (classify_post_async json_loads client).
Local Abbreviation process_batch_async := (process_batch_async json_loads client clock).

Local Abbreviation saved_in := (saved_in json_loads client).

Lemma classify_nonempty (p : Post.t) (c : gmap string Json.t) :
  classify p = Ok c -> c <> ∅.
Proof.
  unfold Classifier.classify. destruct (Post.text_content p); cbn; [| discriminate].
  destruct (client _); [| discriminate].
  destruct (json_loads content) as [decoded |]; [| discriminate].
  destruct (Json.as_dict decoded); [| discriminate].
  intros [= <-]. apply insert_non_empty.
Qed.

Lemma save_result_step (n e : nat) (db : DB) (p : Post.t) :
  save_result clock (n, e, db) (classify_post_async p)
  = match classify p with
    | Ok c => (S n, e, save_classification (clock (Post.id p)) (Post.id p) c db)
    | Raise _ => (n, S e, db)
    end.
Proof.
  unfold Classifier.classify_post_async.
  destruct (classify p) as [c | err] eqn:E; cbn; [| reflexivity].
  now rewrite decide_False by (eapply classify_nonempty; eassumption).
Qed.

(** Rows of the classification table are never removed, and keep their
    [post_id]. *)
Lemma do_update_post_id now (excluded row : Row) :
  do_update_row now excluded row !! "post_id" = row !! "post_id".
Proof. unfold do_update_row. now rewrite !lookup_insert_ne by discriminate. Qed.

Lemma upsert_keeps_rows now (excluded : Row) table post_id :
  has_row table post_id -> has_row (upsert_classification now excluded table) post_id.
Proof.
  unfold has_row, upsert_classification. rewrite !Exists_exists.
  intros (row & Hin & Hid).
  destruct (decide (Exists (conflicts excluded) table)) as [_ | _].
  - exists (if decide (conflicts excluded row) then do_update_row now excluded row else row).
    split.
    + apply list_elem_of_fmap. now exists row.
    + destruct (decide (conflicts excluded row)); [| assumption].
      now rewrite do_update_post_id.
  - exists row. split; [| assumption]. apply elem_of_app. now left.
Qed.

Lemma upsert_has_row now (excluded : Row) table post_id :
  excluded !! "post_id" = Some (Json.Int post_id) ->
  has_row (upsert_classification now excluded table) post_id.
Proof.
  intros Hid.
  destruct (decide (Exists (conflicts excluded) table)) as [Hex | Hex].
  - apply upsert_keeps_rows.
    apply Exists_exists in Hex as (row & Hin & Hrow & _).
    apply Exists_exists. exists row. split; [assumption | congruence].
  - unfold upsert_classification. rewrite decide_False by assumption.
    apply Exists_exists. exists excluded. split; [| assumption].
    apply elem_of_app. right. left.
Qed.

Lemma saved_in_cons (p : Post.t) (batch : list Post.t) (post_id : Z) :
  saved_in (p :: batch) post_id
  <-> (is_ok (classify p) /\ Post.id p = post_id) \/ saved_in batch post_id.
Proof. unfold Classifier.saved_in. apply Exists_cons. Qed.

Lemma if_decide_iff {A : Type} (P Q : Prop) `{Decision P} `{Decision Q} (a b : A) :
  (P <-> Q) -> (if decide P then a else b) = (if decide Q then a else b).
Proof. intros HPQ. destruct (decide P), (decide Q); tauto. Qed.

(** The loop over the results: what it counts, what it does to each
    post and which classification rows it leaves. *)
Lemma fold_save_results (batch : list Post.t) (n e : nat) (db : DB) :
  let r := foldl (save_result clock) (n, e, db) (classify_post_async <$> batch) in
  r.1.1 = (n + length (filter (fun p => is_ok (classify p)) batch))%nat
  /\ (forall (i : nat) (p : Post.t),
         posts db !! i = Some p ->
         posts r.2 !! i
         = Some (if decide (saved_in batch (Post.id p))
                 then mark_processed (clock (Post.id p)) p else p))
  /\ (forall post_id : Z,
         has_row (post_classifications db) post_id \/ saved_in batch post_id ->
         has_row (post_classifications r.2) post_id).
Proof.
  revert n e db. induction batch as [| q batch IH]; intros n e db r.
  - subst r. cbn. split; [lia |]. split.
    + intros i p Hp. rewrite decide_False; [assumption |].
      unfold Classifier.saved_in. now rewrite Exists_nil.
    + intros post_id [H | H]; [assumption |].
      unfold Classifier.saved_in in H. now apply Exists_nil in H.
  - subst r. rewrite fmap_cons. cbn [foldl]. rewrite save_result_step, filter_cons.
    destruct (classify q) as [c | err] eqn:E.
    + specialize (IH (S n) e
                     (save_classification (clock (Post.id q)) (Post.id q) c db)).
      cbv zeta in IH. destruct IH as (Hcount & Hposts & Hrows).
      rewrite decide_True by exact I.
      split; [rewrite Hcount; cbn; lia |]. split.
      * intros i p Hp.
        pose proof (save_classification_posts_lookup
                      (clock (Post.id q)) (Post.id q) c db i) as Hstep.
        rewrite Hp in Hstep. cbn in Hstep.
        rewrite (Hposts _ _ Hstep).
        destruct (decide (Post.id p = Post.id q)) as [Hid | Hid].
        -- rewrite (decide_True (P := saved_in (q :: batch) (Post.id p))).
           2:{ apply saved_in_cons. left. rewrite E. now split. }
           rewrite mark_processed_id, Hid.
           now destruct (decide (saved_in batch (Post.id q))).
        -- f_equal. apply if_decide_iff. rewrite saved_in_cons.
           split; [now right | intros [[_ ?] | ?]; [congruence | assumption]].
      * intros post_id Hrow. apply Hrows.
        destruct Hrow as [Hrow | Hsaved].
        -- left. now apply upsert_keeps_rows.
        -- apply saved_in_cons in Hsaved as [[_ <-] | Hsaved]; [| now right].
           left. apply upsert_has_row. reflexivity.
    + specialize (IH n (S e) db). cbv zeta in IH.
      destruct IH as (Hcount & Hposts & Hrows).
      rewrite decide_False by (intros H; exact H).
      split; [exact Hcount |]. split.
      * intros i p Hp. rewrite (Hposts _ _ Hp). f_equal.
        apply if_decide_iff. rewrite saved_in_cons. rewrite E.
        split; [now right | intros [[[] _] | ?]; assumption].
      * intros post_id Hrow. apply Hrows.
        destruct Hrow as [Hrow | Hsaved]; [now left |].
        apply saved_in_cons in Hsaved as [[Hok _] | Hsaved]; [| now right].
        rewrite E in Hok. destruct Hok.
Qed.

(** The batch is drawn from the unprocessed posts of the table. *)
Lemma get_unprocessed_posts_elem (table : list Post.t) (limit : nat) (p : Post.t) :
  p ∈ get_unprocessed_posts table limit -> p ∈ table /\ unprocessed p.
Proof.
  unfold get_unprocessed_posts. intros Hp.
  apply elem_of_take in Hp as (i & Hp & _).
  apply list_elem_of_lookup_2 in Hp.
  rewrite merge_sort_Permutation in Hp.
  apply list_elem_of_filter in Hp. tauto.
Qed.

(** Without an effective limit every unprocessed post is selected. *)
Lemma get_unprocessed_posts_all (table : list Post.t) (p : Post.t) :
  p ∈ table -> unprocessed p -> p ∈ get_unprocessed_posts table (length table).
Proof.
  intros Hin Hun. unfold get_unprocessed_posts.
  rewrite take_ge.
  - rewrite merge_sort_Permutation. apply list_elem_of_filter. tauto.
  - rewrite merge_sort_Permutation. apply length_filter.
Qed.

Lemma NoDup_fmap_eq {A B : Type} (f : A -> B) (l : list A) (x y : A) :
  NoDup (f <$> l) -> x ∈ l -> y ∈ l -> f x = f y -> x = y.
Proof.
  induction l as [| a l IH]; intros Hnd Hx Hy Hf; [inversion Hx |].
  rewrite fmap_cons in Hnd. apply NoDup_cons in Hnd as [Ha Hnd].
  apply elem_of_cons in Hx as [-> | Hx]; apply elem_of_cons in Hy as [-> | Hy].
  - reflexivity.
  - exfalso. apply Ha. rewrite Hf. now apply list_elem_of_fmap_2.
  - exfalso. apply Ha. rewrite <- Hf. now apply list_elem_of_fmap_2.
  - now apply IH.
Qed.


End batch.


(** ** Decoding the answer *)

Section decoding.

Variable json_loads : string -> option Json.t.
Variable client : Prompt.t -> Reply.
Variable ollama : string -> Extractor.HttpReply.

Lemma extract_insights_Some (text : string) (j : Json.t) :
  Extractor.extract_insights json_loads ollama text = Some j
  <-> exists result,
      ollama text = Extractor.HttpResponse 200 result
      /\ 0 <= Extractor.find "{" result < Extractor.rfind "}" result + 1
      /\ json_loads (Extractor.slice result (Extractor.find "{" result)
                       (Extractor.rfind "}" result + 1)) = Some j.
Proof.
  unfold Extractor.extract_insights, Extractor.find_json. split.
  - destruct (ollama text) as [| status_code result]; [discriminate |].
    destruct (decide (status_code = 200)) as [-> | _]; [| discriminate].
    destruct (decide (0 <= Extractor.find "{" result
                      /\ Extractor.find "{" result < Extractor.rfind "}" result + 1))
      as [Hbraces | _]; [| discriminate].
    intros Hj. exists result. auto.
  - intros (result & -> & Hbraces & Hj).
    rewrite decide_True by reflexivity. now rewrite decide_True by assumption.
Qed.

(** C7. [classify_post_async] decodes the whole answer once: when that
    fails the post fails with the decoding error, and no part of the
    answer is decoded again; it succeeds exactly when the whole answer
    decodes to an object. The text from the first ["{"] through the last
    ["}"] is decoded by the older [extract_insights] only, which decodes
    nothing else. *)
Theorem answers_are_decoded_once (post : Post.t) (text content : string) (ms : Z) :
  Post.text_content post = Some text ->
  client (prompt_of post text) = Completion content ms ->
  (json_loads content = None ->
   classify_post_async json_loads client post
   = (Post.id post, None, Some JSONDecodeError))
  /\ (forall result : gmap string Json.t,
        classify_post_async json_loads client post = (Post.id post, Some result, None)
        <-> exists decoded d,
            json_loads content = Some decoded
            /\ Json.as_dict decoded = Some d
            /\ result = <["model_version" := Json.Str MODEL_VERSION]>
                          (<["processing_ms" := Json.Int ms]> d))
  /\ (forall (insight : string) (j : Json.t),
        Extractor.extract_insights json_loads ollama insight = Some j
        <-> exists result,
            ollama insight = Extractor.HttpResponse 200 result
            /\ 0 <= Extractor.find "{" result < Extractor.rfind "}" result + 1
            /\ json_loads (Extractor.slice result (Extractor.find "{" result)
                             (Extractor.rfind "}" result + 1)) = Some j).
Proof.
  intros Htext Hreply.
  unfold classify_post_async, classify. rewrite Htext. cbn. rewrite Hreply.
  split; [intros ->; reflexivity |]. split.
  - intros result. split.
    + destruct (json_loads content) as [decoded |]; [| discriminate].
      destruct (Json.as_dict decoded) as [d |] eqn:Hd; [| discriminate].
      intros [= <-]. exists decoded, d. repeat split. exact Hd.
    + intros (decoded & d & -> & Hd & ->). now rewrite Hd.
  - apply extract_insights_Some.
Qed.

End decoding.

Lemma answers_are_decoded_once_witness :
  classify_post_async JsonText.loads Examples.chatty_client (Examples.unclassified 1)
  = (1, None, Some JSONDecodeError)
  /\ Extractor.extract_insights JsonText.loads Examples.chatty_ollama
       "Blue Dream after work, finally relaxed"
     = Some (Json.Obj [("sentiment", Json.Str "positive");
                       ("purchase_intent", Json.Int 40)]).
Proof.
  destruct (answers_are_decoded_once JsonText.loads Examples.chatty_client
              Examples.chatty_ollama (Examples.unclassified 1)
              "Blue Dream after work, finally relaxed" Examples.fenced_text 950
              eq_refl eq_refl) as (Hfail & _ & Hextract).
  split; [apply Hfail; vm_compute; reflexivity |].
  apply Hextract. exists Examples.fenced_text.
  split; [reflexivity |].
  split; [vm_compute; split; [discriminate | reflexivity] |].
  vm_compute. reflexivity.
Defined.

(** C7, as stated, fails: an object wrapped in prose is not decoded by
    [classify_post_async], although the text from its first ["{"] through
    its last ["}"] is an object. *)
Lemma wrapped_object_is_not_recovered :
  let content := Examples.fenced_text in
  classify_post_async JsonText.loads Examples.chatty_client (Examples.unclassified 1)
  = (1, None, Some JSONDecodeError)
  /\ JsonText.loads content = None
  /\ Extractor.slice content (Extractor.find "{" content)
       (Extractor.rfind "}" content + 1) = Examples.answer_text
  /\ JsonText.loads Examples.answer_text
     = Some (Json.Obj [("sentiment", Json.Str "positive");
                       ("purchase_intent", Json.Int 40)]).
Proof. vm_compute. repeat split. Qed.

End ClassifierFacts.

(** ** The upsert of synced posts *)

Module SyncFacts.
Import Sync.

Section upsert.

Variable default_classification_version : option Z.

Local Abbreviation upsert_post := (upsert_post default_classification_version).

Lemma upsert_post_conflict (table : list Post.t) (seq : Z) (e : Incoming.t)
    (i : nat) (p : Post.t) :
  table !! i = Some p ->
  Post.uri p = Incoming.uri e ->
  length (upsert_post (table, seq) e).1 = length table
  /\ (upsert_post (table, seq) e).1 !! i = Some (do_update_post e p).
Proof.
  intros Hp Huri. unfold Sync.upsert_post.
  rewrite decide_True.
  - cbn [fst]. split; [apply length_fmap |].
    rewrite list_lookup_fmap, Hp. cbn. now rewrite decide_True.
  - apply Exists_exists. exists p. split; [| assumption].
    eapply list_elem_of_lookup_2; eassumption.
Qed.

(** Whatever the incoming row, a stored row stays where it is and keeps
    its identity and its classification state. *)
Lemma upsert_post_keeps (table : list Post.t) (seq : Z) (e : Incoming.t)
    (i : nat) (p : Post.t) :
  table !! i = Some p ->
  exists p',
    (upsert_post (table, seq) e).1 !! i = Some p'
    /\ Post.id p' = Post.id p
    /\ Post.uri p' = Post.uri p
    /\ Post.processed_at p' = Post.processed_at p
    /\ Post.classification_version p' = Post.classification_version p
    /\ (Post.uri p <> Incoming.uri e -> p' = p).
Proof.
  intros Hp. unfold Sync.upsert_post.
  destruct (decide (Exists (fun p => Post.uri p = Incoming.uri e) table)) as [_ | _];
    cbn [fst].
  - rewrite list_lookup_fmap, Hp. cbn.
    destruct (decide (Post.uri p = Incoming.uri e)) as [Huri | Huri];
      eexists; (split; [reflexivity |]); repeat split; try reflexivity.
    intros Hne. contradiction.
  - rewrite lookup_app_l by (eapply lookup_lt_Some; eassumption).
    exists p. repeat split. assumption.
Qed.

Lemma foldl_upsert_keeps (data : list Incoming.t) (table : list Post.t) (seq : Z)
    (i : nat) (p : Post.t) :
  table !! i = Some p ->
  exists p',
    (foldl upsert_post (table, seq) data).1 !! i = Some p'
    /\ Post.id p' = Post.id p
    /\ Post.uri p' = Post.uri p
    /\ Post.processed_at p' = Post.processed_at p
    /\ Post.classification_version p' = Post.classification_version p.
Proof.
  revert table seq p. induction data as [| e data IH]; intros table seq p Hp.
  - exists p. cbn. repeat split. assumption.
  - cbn [foldl].
    destruct (upsert_post_keeps table seq e i p Hp)
      as (p1 & Hp1 & Hid & Huri & Hat & Hversion & _).
    destruct (upsert_post (table, seq) e) as [table1 seq1] eqn:E. cbn [fst] in Hp1.
    destruct (IH table1 seq1 p1 Hp1) as (p' & Hp' & Hid' & Huri' & Hat' & Hversion').
    exists p'. split; [exact Hp' |]. repeat split; congruence.
Qed.

(** C3. When an incoming row conflicts on [uri] with a stored post, no
    row is added and, in the stored row, [text_content], [facets] and
    [langs] are overwritten only by a non-null incoming value, while
    [has_media] and [embed_type] take the incoming value whatever it is;
    [processed_at], [classification_version] and every other column keep
    their values. *)
Theorem upsert_overwrites_on_conflict
    (table : list Post.t) (seq : Z) (e : Incoming.t) (i : nat) (p : Post.t) :
  table !! i = Some p ->
  Post.uri p = Incoming.uri e ->
  let table' := (upsert_post (table, seq) e).1 in
  length table' = length table
  /\ exists p',
      table' !! i = Some p'
      /\ Post.text_content p'
         = match Incoming.text_content e with
           | Some text => Some text
           | None => Post.text_content p
           end
      /\ Post.facets p'
         = match Incoming.facets e with
           | Some facets => Some facets
           | None => Post.facets p
           end
      /\ Post.langs p'
         = match Incoming.langs e with
           | Some langs => Some langs
           | None => Post.langs p
           end
      /\ Post.has_media p' = Some (Incoming.has_media e)
      /\ Post.embed_type p' = Incoming.embed_type e
      /\ Post.processed_at p' = Post.processed_at p
      /\ Post.classification_version p' = Post.classification_version p
      /\ (Post.id p', Post.uri p', Post.cid p', Post.author_did p',
          Post.author_handle p', Post.post_created_at p', Post.indexed_at p',
          Post.media_count p', Post.embed_data p')
         = (Post.id p, Post.uri p, Post.cid p, Post.author_did p,
            Post.author_handle p, Post.post_created_at p, Post.indexed_at p,
            Post.media_count p, Post.embed_data p).
Proof.
  intros Hp Huri table'. subst table'.
  destruct (upsert_post_conflict table seq e i p Hp Huri) as [Hlen Hlookup].
  split; [exact Hlen |].
  exists (do_update_post e p). split; [exact Hlookup |].
  unfold do_update_post, COALESCE. cbn.
  destruct (Incoming.text_content e), (Incoming.facets e), (Incoming.langs e);
    repeat split.
Qed.

End upsert.

Lemma upsert_overwrites_on_conflict_witness :
  exists p',
    (upsert_post None ([Examples.stored_post], 8) Examples.resynced).1 = [p']
    /\ Post.text_content p' = Some "Blue Dream after work, finally relaxed"
    /\ Post.langs p' = Some (Json.Arr [Json.Str "en"])
    /\ Post.has_media p' = Some false
    /\ Post.embed_type p' = None
    /\ Post.processed_at p' = Some 1767229200000000
    /\ Post.classification_version p' = Some 1.
Proof.
  destruct (upsert_overwrites_on_conflict None [Examples.stored_post] 8
              Examples.resynced 0 Examples.stored_post eq_refl eq_refl)
    as (Hlen & p' & Hlookup & Htext & _ & Hlangs & Hmedia & Hembed & Hat & Hversion & _).
  exists p'. split.
  - destruct (upsert_post None ([Examples.stored_post], 8) Examples.resynced).1
      as [| q [| q' l]]; try discriminate Hlen.
    cbn in Hlookup. congruence.
  - repeat split; assumption.
Defined.

(** C3, as stated, fails: a null incoming [embed_type] overwrites the
    stored one, and a media flag missing in the source arrives as false
    and overwrites the stored flag. *)
Lemma null_embed_type_overwrites :
  Post.embed_type Examples.stored_post = Some "images"
  /\ Post.has_media Examples.stored_post = Some true
  /\ Incoming.embed_type Examples.resynced = None
  /\ Post.embed_type
       <$> (upsert_post None ([Examples.stored_post], 8) Examples.resynced).1
     = [None]
  /\ Post.has_media
       <$> (upsert_post None ([Examples.stored_post], 8) Examples.resynced).1
     = [Some false].
Proof. repeat split. Qed.

(** ** A run of [sync_posts] *)

Section run.

Variable json_loads : string -> option Json.t.
Variables fromisoformat strptime : string -> option Z.
Variable isoformat : Z -> string.
Variable default_classification_version : option Z.

Local Abbreviation sync_posts :=
  (sync_posts json_loads fromisoformat strptime isoformat
     default_classification_version).
Local Abbreviation prepare := (prepare json_loads fromisoformat strptime).

(** A media flag that is null in the source is sent as false. *)
Lemma prepare_has_media (now : Z) (row : SrcRow.t) :
  Incoming.has_media (prepare now row)
  = match SrcRow.has_media row with
    | Some flag => negb (flag =? 0)
    | None => false
    end.
Proof. reflexivity. Qed.

Lemma prepare_embed_type (now : Z) (row : SrcRow.t) :
  Incoming.embed_type (prepare now row) = SrcRow.embed_type row.
Proof. reflexivity. Qed.

(** X19. A run never touches [processed_at] or [classification_version]
    of a post that was there before: a post keeps its place, its [id],
    its [uri] and its classification state, and the run appends one log
    row. *)
Lemma sync_posts_keeps_classification_state
    (now : Z) (download : result (list SrcRow.t)) (db db' : Store) (n : Z)
    (i : nat) (p : Post.t) :
  sync_posts now download db = Ok (n, db') ->
  posts db !! i = Some p ->
  length (sync_log db') = S (length (sync_log db))
  /\ exists p',
      posts db' !! i = Some p'
      /\ Post.id p' = Post.id p
      /\ Post.uri p' = Post.uri p
      /\ Post.processed_at p' = Post.processed_at p
      /\ Post.classification_version p' = Post.classification_version p.
Proof.
  unfold Sync.sync_posts. destruct download as [source | e]; [| discriminate].
  cbn. intros Hrun Hp.
  destruct (decide (rows_to_sync isoformat (get_last_sync_timestamp (posts db)) source
                    = [])) as [_ | _].
  - injection Hrun as <- <-. cbn. split; [rewrite length_app; cbn; lia |].
    exists p. repeat split. assumption.
  - destruct (foldl_upsert_keeps default_classification_version
                (prepare now <$> rows_to_sync isoformat
                                   (get_last_sync_timestamp (posts db)) source)
                (posts db) (posts_id_seq db) i p Hp)
      as (p' & Hp' & Hrest).
    destruct (foldl _ _ _) as [posts' seq'].
    injection Hrun as <- <-. cbn. split; [rewrite length_app; cbn; lia |].
    exists p'. split; [exact Hp' | exact Hrest].
Qed.

End run.

End SyncFacts.

(** ** Rankings *)

Section ranking_facts.
Context {A : Type} `{EqDecision A}.
Implicit Types (l : list A).

#[local] Instance count_ge_trans : Transitive (@count_ge A).
Proof. intros a b c. unfold count_ge. lia. Qed.

Lemma ranking_StronglySorted l :
  StronglySorted count_ge (sorted_by_count (Counter l)).
Proof. apply Sorted_StronglySorted; [apply _ | apply sorted_by_count_Sorted]. Qed.

Lemma ranking_entry l (e : A * nat) :
  e ∈ sorted_by_count (Counter l) -> e.1 ∈ l /\ e.2 = occurrences e.1 l.
Proof.
  rewrite sorted_by_count_Permutation. intros He. split.
  - apply Counter_elem, list_elem_of_fmap. now exists e.
  - destruct e as [k n]. now apply Counter_counts.
Qed.

Lemma ranking_has l (x : A) :
  x ∈ l -> (x, occurrences x l) ∈ sorted_by_count (Counter l).
Proof.
  intros Hx. apply Counter_elem, list_elem_of_fmap in Hx as ([k n] & Hk & Hin).
  cbn in Hk. subst x.
  rewrite sorted_by_count_Permutation. unfold occurrences.
  now rewrite <- (Counter_counts _ _ _ Hin).
Qed.

Lemma ranking_NoDup l : NoDup (sorted_by_count (Counter l)).*1.
Proof. rewrite sorted_by_count_Permutation. apply Counter_NoDup. Qed.

Lemma occurrences_absent l (x : A) : x ∉ l -> occurrences x l = 0%nat.
Proof.
  intros Hx. unfold occurrences.
  destruct (filter (fun y => y = x) l) as [| y k] eqn:E; [reflexivity |].
  exfalso. apply Hx.
  assert (Hy : y ∈ filter (fun y => y = x) l) by (rewrite E; left).
  apply list_elem_of_filter in Hy as [-> Hy]. exact Hy.
Qed.

(** The first entry of a ranking is a value that occurs most often. *)
Lemma ranking_first l (e : A * nat) (rest : list (A * nat)) :
  sorted_by_count (Counter l) = e :: rest ->
  e.1 ∈ l /\ forall x, (occurrences x l <= occurrences e.1 l)%nat.
Proof.
  intros Hrank.
  assert (He : e ∈ sorted_by_count (Counter l)) by (rewrite Hrank; left).
  apply ranking_entry in He as [Hin Hcount]. split; [exact Hin |].
  intros x. destruct (decide (x ∈ l)) as [Hx | Hx].
  - apply ranking_has in Hx. rewrite Hrank in Hx.
    apply elem_of_cons in Hx as [Hx | Hx].
    + rewrite <- Hx. cbn. lia.
    + pose proof (ranking_StronglySorted l) as Hs. rewrite Hrank in Hs.
      apply StronglySorted_inv in Hs as [_ Hall].
      rewrite Forall_forall in Hall. specialize (Hall _ Hx).
      unfold count_ge in Hall. cbn in Hall. lia.
  - rewrite (occurrences_absent _ _ Hx). lia.
Qed.

(** The second entry is another value, one that occurs most often among
    the values other than the first. *)
Lemma ranking_second l (e1 e2 : A * nat) (rest : list (A * nat)) :
  sorted_by_count (Counter l) = e1 :: e2 :: rest ->
  e2.1 ∈ l
  /\ e2.1 <> e1.1
  /\ (occurrences e2.1 l <= occurrences e1.1 l)%nat
  /\ forall x, x <> e1.1 -> (occurrences x l <= occurrences e2.1 l)%nat.
Proof.
  intros Hrank.
  assert (He2 : e2 ∈ sorted_by_count (Counter l)) by (rewrite Hrank; right; left).
  apply ranking_entry in He2 as [Hin Hcount].
  pose proof (ranking_NoDup l) as Hnd. rewrite Hrank in Hnd.
  rewrite !fmap_cons in Hnd. apply NoDup_cons in Hnd as [Hne _].
  pose proof (ranking_StronglySorted l) as Hs. rewrite Hrank in Hs.
  apply StronglySorted_inv in Hs as [Hs _].
  apply StronglySorted_inv in Hs as [_ Hall]. rewrite Forall_forall in Hall.
  split; [exact Hin |]. split; [| split].
  - intros Heq. apply Hne. rewrite <- Heq. left.
  - now destruct (ranking_first l e1 (e2 :: rest) Hrank) as [_ ->].
  - intros x Hx. destruct (decide (x ∈ l)) as [Hxl | Hxl].
    + apply ranking_has in Hxl. rewrite Hrank in Hxl.
      apply elem_of_cons in Hxl as [Hxl | Hxl].
      { exfalso. apply Hx. rewrite <- Hxl. reflexivity. }
      apply elem_of_cons in Hxl as [Hxl | Hxl].
      { rewrite <- Hxl. cbn. lia. }
      specialize (Hall _ Hxl). unfold count_ge in Hall. cbn in Hall. lia.
    + rewrite (occurrences_absent _ _ Hxl). lia.
Qed.
End ranking_facts.

(** ** More on the profile builder *)

Module ProfileFacts.
Import BuildProfiles.

(** X1. [most_common] returns 'unknown' exactly for a list without a
    known value (every item null, empty or 'unknown'); otherwise it
    returns one of the known values, and no other value occurs more
    often among them. *)
Theorem most_common_is_most_frequent (items : list (option string)) :
  exists v,
    most_common items = Ok v
    /\ (filter_known items = [] -> v = "unknown")
    /\ (filter_known items <> [] ->
        v ∈ filter_known items
        /\ v <> "unknown"
        /\ forall w, (occurrences w (filter_known items)
                      <= occurrences v (filter_known items))%nat).
Proof.
  unfold most_common.
  destruct (decide (filter_known items = [])) as [Hnil | Hne].
  - exists "unknown". split; [reflexivity |].
    split; [reflexivity | contradiction].
  - destruct (sorted_by_count (Counter (filter_known items))) as [| e rest] eqn:Hrank.
    { exfalso. apply (BuildProfilesFacts.Counter_nonempty _ Hne).
      apply length_zero_iff_nil. rewrite <- sorted_by_count_length, Hrank. reflexivity. }
    exists e.1. unfold most_common_n, py_index. rewrite Hrank. cbn.
    split; [reflexivity |]. split; [contradiction |]. intros _.
    destruct (ranking_first _ _ _ Hrank) as [Hin Hmax].
    split; [exact Hin |]. split; [| exact Hmax].
    apply list_elem_of_omap in Hin as (i & _ & Hknown).
    destruct i as [s |]; [| discriminate]. cbn in Hknown.
    destruct (decide (s = "" \/ s = "unknown")) as [| Hs]; [discriminate |].
    injection Hknown as <-. tauto.
Qed.

(** X2. With two distinct known consumer types the secondary label is
    a known value other than the primary one; it occurs no more often
    than the primary, and no value other than the primary occurs more
    often than it. *)
Theorem secondary_is_second_most_frequent (consumer_types : list (option string)) :
  (2 <= length (remove_dups (filter_known consumer_types)))%nat ->
  exists primary secondary,
    most_common consumer_types = Ok primary
    /\ secondary_consumer_type consumer_types = Ok (Some secondary)
    /\ secondary ∈ filter_known consumer_types
    /\ secondary <> primary
    /\ (occurrences secondary (filter_known consumer_types)
        <= occurrences primary (filter_known consumer_types))%nat
    /\ forall w, w <> primary ->
         (occurrences w (filter_known consumer_types)
          <= occurrences secondary (filter_known consumer_types))%nat.
Proof.
  intros Hknown.
  destruct (BuildProfilesFacts.secondary_of_two_known _ Hknown) as (e2 & He2 & Hsec).
  destruct (sorted_by_count (Counter (filter_known consumer_types)))
    as [| e1 [| e2' rest]] eqn:Hrank; try discriminate.
  cbn in He2. injection He2 as ->.
  exists e1.1, e2.1.
  destruct (ranking_second _ _ _ _ Hrank) as (Hin & Hne & Hle & Hmax).
  split.
  - unfold most_common. rewrite decide_False.
    + unfold most_common_n, py_index. now rewrite Hrank.
    + intros Hnil. rewrite Hnil in Hknown. cbn in Hknown. lia.
  - repeat split; assumption.
Qed.

Lemma secondary_is_second_most_frequent_witness :
  exists primary secondary,
    most_common [Some "wellness"; Some "medical"; None; Some "wellness";
                 Some "unknown"; Some "social"; Some "medical"]
    = Ok primary
    /\ secondary_consumer_type
         [Some "wellness"; Some "medical"; None; Some "wellness";
          Some "unknown"; Some "social"; Some "medical"]
       = Ok (Some secondary)
    /\ primary = "wellness" /\ secondary = "medical".
Proof.
  destruct (secondary_is_second_most_frequent
              [Some "wellness"; Some "medical"; None; Some "wellness";
               Some "unknown"; Some "social"; Some "medical"])
    as (primary & secondary & Hp & Hs & _); [vm_compute; lia |].
  exists primary, secondary. split; [exact Hp |]. split; [exact Hs |].
  vm_compute in Hp, Hs. split; congruence.
Defined.

(** X5. [build_user_profile] raises only [IndexError], and does so
    exactly when the consumer types take two or more distinct values
    (nulls and 'unknown' included) of which fewer than two are known;
    in every other case a profile is returned. *)
Theorem profile_is_returned_unless_one_known_type
    (set_order : list string -> list string)
    (user : User.t) (cs : list Classification.t) :
  let consumer_types := Classification.consumer_type <$> cs in
  let one_known_of_several :=
    (1 < length (remove_dups consumer_types))%nat
    /\ (length (remove_dups (filter_known consumer_types)) < 2)%nat in
  match build_user_profile set_order user cs with
  | Ok _ => ~ one_known_of_several
  | Raise e => e = IndexError /\ one_known_of_several
  end.
Proof.
  intros consumer_types cond.
  pose proof (BuildProfilesFacts.secondary_raises_iff consumer_types) as Hiff.
  unfold build_user_profile. fold consumer_types.
  destruct (BuildProfilesFacts.most_common_total consumer_types) as [ct ->].
  destruct (BuildProfilesFacts.most_common_total
              (Classification.experience_level <$> cs)) as [el ->].
  destruct (secondary_consumer_type consumer_types) as [sec | e] eqn:Hsec; cbn.
  - intros Hcond. unfold cond in Hcond.
    assert (Hraise : Ok sec = Raise IndexError) by (apply Hiff; tauto).
    discriminate Hraise.
  - now apply Hiff.
Qed.

(** ** Top lists *)





(** ** The grouped query *)

Lemma by_count_desc_total : Total by_count_desc.
Proof.
  intros u v. unfold by_count_desc.
  destruct (Z.le_total (User.post_count v) (User.post_count u)); tauto.
Qed.

Lemma sql_min_le_max (x : Z) (l : list Z) : foldr Z.min x l <= foldr Z.max x l.
Proof. induction l as [| a l IH]; cbn; lia. Qed.

Lemma group_of_elem (did : string) (rows : list (Post.t * Classification.t))
    (r : Post.t * Classification.t) :
  r ∈ group_of did rows <-> r ∈ rows /\ Post.author_did r.1 = did.
Proof. unfold group_of. rewrite list_elem_of_filter. tauto. Qed.

(** X7. The rows of [get_users_with_posts] are ordered by descending
    count and hold each author once; an author is among them exactly
    when the author has at least one joined row and at least
    [min_posts] of them; [post_count] is that number of rows, and
    [first_post] is never after [last_post]. *)
Theorem grouped_query_is_ranked_and_complete
    (posts : list Post.t) (pcs : list Classification.t) (min_posts : Z) :
  let users := get_users_with_posts posts pcs min_posts in
  let rows_of did := Z.of_nat (length (group_of did (joined posts pcs))) in
  Sorted by_count_desc users
  /\ NoDup (User.author_did <$> users)
  /\ (forall u, u ∈ users ->
        User.post_count u = rows_of (User.author_did u)
        /\ 1 <= User.post_count u
        /\ min_posts <= User.post_count u
        /\ forall f l, User.first_post u = Some f -> User.last_post u = Some l -> f <= l)
  /\ (forall did, 1 <= rows_of did -> min_posts <= rows_of did ->
        exists u, u ∈ users /\ User.author_did u = did).
Proof.
  intros users rows_of. split; [| split; [| split]].
  - apply Sorted_merge_sort, by_count_desc_total.
  - subst users. unfold get_users_with_posts.
    rewrite merge_sort_Permutation.
    eapply sublist_NoDup; [| apply fmap_sublist, sublist_filter].
    rewrite <- list_fmap_compose.
    rewrite (list_fmap_ext _ id) by reflexivity.
    rewrite list_fmap_id. apply NoDup_remove_dups.
  - intros u Hu.
    apply AggregationFacts.get_users_with_posts_elem in Hu as ((r & Hr & Hdid) & Hu & Hmin).
    assert (Hcount : User.post_count u = rows_of (User.author_did u))
      by (rewrite Hu at 1; reflexivity).
    split; [exact Hcount |]. split; [| split; [exact Hmin |]].
    + rewrite Hcount. subst rows_of. cbn.
      assert (Hin : r ∈ group_of (User.author_did u) (joined posts pcs))
        by (apply group_of_elem; tauto).
      destruct (group_of (User.author_did u) (joined posts pcs)); [inversion Hin |].
      cbn. lia.
    + intros f l. rewrite Hu. cbn. unfold sql_min, sql_max.
      destruct (omap _ _) as [| x xs]; [discriminate |].
      intros [= <-] [= <-]. apply sql_min_le_max.
  - intros did Hone Hmin. subst rows_of. cbn in Hone, Hmin.
    destruct (group_of did (joined posts pcs)) as [| r rows] eqn:E;
      [cbn in Hone; lia |].
    assert (Hr : r ∈ group_of did (joined posts pcs)) by (rewrite E; left).
    apply group_of_elem in Hr as [Hr Hdid].
    exists (user_of_group did (group_of did (joined posts pcs))).
    split; [| reflexivity].
    apply AggregationFacts.get_users_with_posts_elem. cbn.
    split; [eauto |]. split; [reflexivity |]. now rewrite E.
Qed.

(** ** Saving profiles *)

Lemma on_conflict_update_key now excluded row :
  profile_key (on_conflict_update now excluded row) = profile_key row.
Proof. reflexivity. Qed.

Lemma save_user_profile_keys now profile table :
  NoDup (profile_key <$> table) ->
  NoDup (profile_key <$> save_user_profile now profile table)
  /\ (length table <= length (save_user_profile now profile table))%nat
  /\ forall row, row ∈ table ->
       exists row',
         row' ∈ save_user_profile now profile table
         /\ profile_key row' = profile_key row
         /\ Profile.first_seen_at row'.1 = Profile.first_seen_at row.1
         /\ (profile_key row <> Profile.author_did profile -> row' = row).
Proof.
  intros Hnd. unfold save_user_profile.
  destruct (decide (Exists (fun row : Profile.t * Z =>
                              Profile.author_did row.1 = Profile.author_did profile)
                           table)) as [Hex | Hex].
  - split; [| split].
    + rewrite <- list_fmap_compose.
      rewrite (list_fmap_ext _ profile_key); [exact Hnd |].
      intros i row _. cbn. now destruct (decide _).
    + now rewrite length_fmap.
    + intros row Hrow.
      exists (if decide (Profile.author_did row.1 = Profile.author_did profile)
              then on_conflict_update now profile row else row).
      split; [apply list_elem_of_fmap; now exists row |].
      destruct (decide _) as [Heq | Hne]; repeat split; try reflexivity.
      intros Hkey. contradiction.
  - split; [| split].
    + rewrite fmap_app. apply NoDup_app. split; [exact Hnd |]. split.
      * intros k Hk Hk'. apply list_elem_of_singleton in Hk'. cbn in Hk'. subst k.
        apply Hex, Exists_exists. apply list_elem_of_fmap in Hk as (row & Hkey & Hrow).
        exists row. split; [exact Hrow | now symmetry].
      * apply NoDup_singleton.
    + rewrite length_app. lia.
    + intros row Hrow. exists row. split; [apply elem_of_app; now left |].
      repeat split.
Qed.

(** X8. [save_user_profile] keeps one row per author. Afterwards the
    author's row holds the new scores, counts and update time; when the
    author had a row, that row's [first_seen_at] is kept and the table
    has as many rows as before; otherwise the profile is appended as it
    is. Rows of other authors are not changed. *)
Theorem save_user_profile_upserts
    (now : Z) (profile : Profile.t) (table : list ProfileRow) :
  NoDup (profile_key <$> table) ->
  let table' := save_user_profile now profile table in
  NoDup (profile_key <$> table')
  /\ (forall row, row ∈ table -> profile_key row <> Profile.author_did profile ->
        row ∈ table')
  /\ exists row,
      row ∈ table'
      /\ profile_key row = Profile.author_did profile
      /\ row.2 = now
      /\ Profile.posts_analyzed row.1 = Profile.posts_analyzed profile
      /\ Profile.last_seen_at row.1 = Profile.last_seen_at profile
      /\ Profile.dispensary_target_score row.1 = Profile.dispensary_target_score profile
      /\ Profile.stats_json row.1 = Profile.stats_json profile
      /\ (forall old, old ∈ table -> profile_key old = Profile.author_did profile ->
            Profile.first_seen_at row.1 = Profile.first_seen_at old.1
            /\ length table' = length table)
      /\ ((forall old, old ∈ table -> profile_key old <> Profile.author_did profile) ->
          row = (profile, now) /\ length table' = S (length table)).
Proof.
  intros Hnd table'.
  destruct (save_user_profile_keys now profile table Hnd) as (Hnd' & _ & Hkeep).
  split; [exact Hnd' |]. split.
  { intros row Hrow Hne. destruct (Hkeep row Hrow) as (row' & Hin & _ & _ & Hsame).
    now rewrite <- (Hsame Hne). }
  subst table'. unfold save_user_profile.
  destruct (decide (Exists (fun row : Profile.t * Z =>
                              Profile.author_did row.1 = Profile.author_did profile)
                           table)) as [Hex | Hex].
  - apply Exists_exists in Hex as (row0 & Hrow0 & Hkey0).
    exists (on_conflict_update now profile row0). split.
    { apply list_elem_of_fmap. exists row0. now rewrite decide_True. }
    split; [exact Hkey0 |].
    do 5 (split; [reflexivity |]). split.
    + intros old Hold Hkey.
      assert (old = row0) as ->.
      { apply (ClassifierFacts.NoDup_fmap_eq profile_key table); try assumption.
        unfold profile_key in *. congruence. }
      split; [reflexivity | apply length_fmap].
    + intros Hnone. exfalso. now apply (Hnone row0).
  - exists (profile, now). split; [apply elem_of_app; right; left |].
    do 6 (split; [reflexivity |]). split.
    + intros old Hold Hkey. exfalso. apply Hex, Exists_exists. eauto.
    + intros _. split; [reflexivity |]. rewrite length_app. cbn. lia.
Qed.

Lemma save_user_profile_upserts_witness :
  exists profile,
    build_user_profile remove_dups (Examples.user 2) Examples.two_rows = Ok profile
    /\ let table := save_user_profile 5 profile [] in
       let table' := save_user_profile 9 profile table in
       length table' = 1%nat
       /\ exists row,
           row ∈ table' /\ row.2 = 9
           /\ Profile.first_seen_at row.1 = Profile.first_seen_at profile.
Proof.
  destruct (build_user_profile remove_dups (Examples.user 2) Examples.two_rows)
    as [profile | e] eqn:E; [| vm_compute in E; discriminate].
  exists profile. split; [reflexivity |]. intros table table'.
  assert (Hnd : NoDup (profile_key <$> table)) by (repeat constructor; inversion 1).
  destruct (save_user_profile_upserts 9 profile table Hnd)
    as (_ & _ & row & Hin & _ & Hnow & _ & _ & _ & _ & Hold & _).
  destruct (Hold (profile, 5)) as [Hfirst Hlen]; [left | reflexivity |].
  split; [exact Hlen |]. exists row. split; [exact Hin |]. split; [exact Hnow |].
  exact Hfirst.
Defined.

(** ** A run of the aggregator *)

Section run.

Variable set_order : list string -> list string.
Variables (now : Z) (posts : list Post.t) (pcs : list Classification.t).

Local Abbreviation build_one := (build_one set_order now posts pcs).
Local Abbreviation built u :=
  (build_user_profile set_order u
     (get_user_classifications posts pcs (User.author_did u))).

Lemma build_user_profile_key user cs profile :
  build_user_profile set_order user cs = Ok profile ->
  Profile.author_did profile = User.author_did user
  /\ Profile.posts_analyzed profile = User.post_count user.
Proof.
  unfold build_user_profile.
  destruct (most_common (Classification.consumer_type <$> cs)); [| discriminate].
  destruct (most_common (Classification.experience_level <$> cs)); [| discriminate].
  destruct (secondary_consumer_type (Classification.consumer_type <$> cs));
    [| discriminate].
  cbn. intros [= <-]. split; reflexivity.
Qed.

Lemma save_user_profile_row (profile : Profile.t) (table : list ProfileRow) :
  exists row,
    row ∈ save_user_profile now profile table
    /\ profile_key row = Profile.author_did profile
    /\ Profile.posts_analyzed row.1 = Profile.posts_analyzed profile
    /\ row.2 = now.
Proof.
  unfold save_user_profile.
  destruct (decide (Exists (fun row : Profile.t * Z =>
                              Profile.author_did row.1 = Profile.author_did profile)
                           table)) as [Hex | Hex].
  - apply Exists_exists in Hex as (row0 & Hrow0 & Hkey0).
    exists (on_conflict_update now profile row0). split.
    { apply list_elem_of_fmap. exists row0. now rewrite decide_True. }
    repeat split. exact Hkey0.
  - exists (profile, now). split; [apply elem_of_app; right; left |].
    repeat split.
Qed.

Lemma build_one_keeps (table : list ProfileRow) (u : User.t) :
  NoDup (profile_key <$> table) ->
  NoDup (profile_key <$> build_one table u)
  /\ (length table <= length (build_one table u))%nat
  /\ forall row, row ∈ table ->
       exists row',
         row' ∈ build_one table u
         /\ profile_key row' = profile_key row
         /\ Profile.first_seen_at row'.1 = Profile.first_seen_at row.1
         /\ (profile_key row <> User.author_did u -> row' = row).
Proof.
  intros Hnd. unfold BuildProfiles.build_one.
  destruct (built u) as [profile | e] eqn:E.
  - apply build_user_profile_key in E as [<- _].
    now apply save_user_profile_keys.
  - split; [exact Hnd |]. split; [lia |].
    intros row Hrow. exists row. repeat split. exact Hrow.
Qed.

Lemma fold_build_one (users : list User.t) (table : list ProfileRow) :
  NoDup (profile_key <$> table) ->
  NoDup (User.author_did <$> users) ->
  let table' := foldl build_one table users in
  NoDup (profile_key <$> table')
  /\ (length table <= length table')%nat
  /\ (forall row, row ∈ table ->
        exists row',
          row' ∈ table'
          /\ profile_key row' = profile_key row
          /\ Profile.first_seen_at row'.1 = Profile.first_seen_at row.1
          /\ ((forall u, u ∈ users -> User.author_did u <> profile_key row) ->
              row' = row))
  /\ (forall u profile, u ∈ users -> built u = Ok profile ->
        exists row,
          row ∈ table'
          /\ profile_key row = User.author_did u
          /\ Profile.posts_analyzed row.1 = User.post_count u
          /\ row.2 = now).
Proof.
  revert table. induction users as [| u users IH]; intros table Hnd Hus table'.
  - subst table'. cbn. split; [exact Hnd |]. split; [lia |]. split.
    + intros row Hrow. exists row. repeat split. exact Hrow.
    + intros u profile Hu. inversion Hu.
  - subst table'. cbn [foldl].
    rewrite fmap_cons in Hus. apply NoDup_cons in Hus as [Hu Hus].
    destruct (build_one_keeps table u Hnd) as (Hnd1 & Hlen1 & Hkeep1).
    destruct (IH (build_one table u) Hnd1 Hus) as (Hnd' & Hlen' & Hkeep' & Hsaved').
    split; [exact Hnd' |]. split; [lia |]. split.
    + intros row Hrow.
      destruct (Hkeep1 row Hrow) as (row1 & Hin1 & Hkey1 & Hfirst1 & Hsame1).
      destruct (Hkeep' row1 Hin1) as (row' & Hin' & Hkey' & Hfirst' & Hsame').
      exists row'. split; [exact Hin' |].
      split; [congruence |]. split; [congruence |].
      intros Hother.
      rewrite Hsame'.
      * apply Hsame1. intros Heq. apply (Hother u); [left | now symmetry].
      * intros v Hv. rewrite Hkey1. apply Hother. now right.
    + intros v profile Hv Hbuilt. apply elem_of_cons in Hv as [-> | Hv].
      * unfold BuildProfiles.build_one in Hkeep', Hsaved' |- *.
        rewrite Hbuilt in *.
        destruct (save_user_profile_row profile table)
          as (row1 & Hin1 & Hkey1 & Hcount1 & Hnow1).
        apply build_user_profile_key in Hbuilt as [Hdid Hcount].
        destruct (Hkeep' row1 Hin1) as (row' & Hin' & _ & _ & Hsame').
        exists row1. rewrite <- Hsame' at 1.
        -- split; [exact Hin' |]. split; [congruence |]. split; [congruence | exact Hnow1].
        -- intros w Hw Heq. apply Hu. rewrite <- Hdid, <- Hkey1, <- Heq.
           now apply list_elem_of_fmap_2.
      * now apply (Hsaved' v profile).
Qed.

End run.

(** X9. A run of [build_all_profiles] keeps one row per author and
    removes none: a row that was in the table is still there for the
    same author with its [first_seen_at], and is not changed at all when
    the grouped query does not list its author. Every listed author
    whose profile is built has, after the run, a row written at the time
    of the run whose [posts_analyzed] is the count of the query. *)
Theorem build_all_profiles_keeps_rows
    (set_order : list string -> list string) (now : Z)
    (posts : list Post.t) (pcs : list Classification.t) (min_posts : Z)
    (table : list ProfileRow) :
  NoDup (profile_key <$> table) ->
  let users := get_users_with_posts posts pcs min_posts in
  let table' := build_all_profiles set_order now posts pcs min_posts table in
  NoDup (profile_key <$> table')
  /\ (length table <= length table')%nat
  /\ (forall row, row ∈ table ->
        exists row',
          row' ∈ table'
          /\ profile_key row' = profile_key row
          /\ Profile.first_seen_at row'.1 = Profile.first_seen_at row.1
          /\ ((forall u, u ∈ users -> User.author_did u <> profile_key row) ->
              row' = row))
  /\ (forall u profile,
        u ∈ users ->
        build_user_profile set_order u
          (get_user_classifications posts pcs (User.author_did u)) = Ok profile ->
        exists row,
          row ∈ table'
          /\ profile_key row = User.author_did u
          /\ Profile.posts_analyzed row.1 = User.post_count u
          /\ row.2 = now).
Proof.
  intros Hnd users table'. subst table'. unfold build_all_profiles.
  apply fold_build_one; [exact Hnd |].
  unfold get_users_with_posts. rewrite merge_sort_Permutation.
  eapply sublist_NoDup; [| apply fmap_sublist, sublist_filter].
  rewrite <- list_fmap_compose.
  rewrite (list_fmap_ext _ id) by reflexivity.
  rewrite list_fmap_id. apply NoDup_remove_dups.
Qed.

Lemma build_all_profiles_keeps_rows_witness :
  let table' := build_all_profiles remove_dups 9
                  Examples.two_posts Examples.two_rows 1 [] in
  NoDup (profile_key <$> table')
  /\ exists row,
      row ∈ table'
      /\ profile_key row = "did:plc:alice"
      /\ Profile.posts_analyzed row.1 = 2
      /\ row.2 = 9.
Proof.
  intros table'.
  destruct (build_all_profiles_keeps_rows remove_dups 9
              Examples.two_posts Examples.two_rows 1 [] (NoDup_nil_2))
    as (Hnd & _ & _ & Hsaved).
  split; [exact Hnd |].
  destruct (get_users_with_posts Examples.two_posts Examples.two_rows 1)
    as [| u us] eqn:Eu; [vm_compute in Eu; discriminate |].
  vm_compute in Eu. injection Eu as <- <-.
  match type of Hsaved with
  | forall u profile, u ∈ [?v] -> _ =>
      destruct (build_user_profile remove_dups v
                  (get_user_classifications Examples.two_posts Examples.two_rows
                     (User.author_did v))) as [profile | e] eqn:Eb;
        [| vm_compute in Eb; discriminate];
      destruct (Hsaved v profile (list_elem_of_here _ _) Eb)
        as (row & Hin & Hkey & Hcount & Hnow)
  end.
  exists row. repeat split; assumption.
Defined.

End ProfileFacts.

(** ** More on the classifier *)

Module BatchFacts.
Import Classifier.




Section batch.

Variable json_loads : string -> option Json.t.
Variable client : Prompt.t -> Reply.
Variable clock : Z -> Z.

Local Abbreviation classify := (classify json_loads client).
Local Abbreviation process_batch_async := (process_batch_async json_loads client clock).
Local Abbreviation saved_in := (saved_in json_loads client).

(** X11. A classified answer always carries the [model_version] of
    the pipeline and the measured [processing_ms], whatever members of
    these names the classifier sent; every other member is the decoded
    one. The row proposed for it is therefore keyed by [MODEL_VERSION]. *)
Theorem classified_answer_is_stamped (p : Post.t) (c : gmap string Json.t) :
  classify p = Ok c ->
  c !! "model_version" = Some (Json.Str MODEL_VERSION)
  /\ (exists text content ms decoded d,
        Post.text_content p = Some text
        /\ client (prompt_of p text) = Completion content ms
        /\ json_loads content = Some decoded
        /\ Json.as_dict decoded = Some d
        /\ c !! "processing_ms" = Some (Json.Int ms)
        /\ forall k, k <> "model_version" -> k <> "processing_ms" -> c !! k = d !! k)
  /\ key_of (excluded_row (Post.id p) c)
     = (Some (Json.Int (Post.id p)), Some (Json.Str MODEL_VERSION)).
Proof.
  unfold Classifier.classify.
  destruct (Post.text_content p) as [text |] eqn:Htext; cbn; [| discriminate].
  destruct (client (prompt_of p text)) as [content ms | e] eqn:Hreply; [| discriminate].
  destruct (json_loads content) as [decoded |] eqn:Hjson; [| discriminate].
  destruct (Json.as_dict decoded) as [d |] eqn:Hd; [| discriminate].
  intros [= <-]. split; [apply lookup_insert_eq |]. split.
  - exists text, content, ms, decoded, d. repeat split; try assumption.
    + rewrite lookup_insert_ne by discriminate. apply lookup_insert_eq.
    + intros k Hk1 Hk2. now rewrite !lookup_insert_ne by congruence.
  - unfold key_of. apply pair_equal_spec.
    split; [apply ClassifierFacts.excluded_row_key |].
    etransitivity; [apply ClassifierFacts.excluded_row_key |].
    unfold get_or. now rewrite lookup_insert_eq.
Qed.

(** What a batch returns and leaves behind. *)
Lemma process_batch_result (batch_size : nat) (db : DB) :
  let batch := get_unprocessed_posts (posts db) batch_size in
  let run := process_batch_async batch_size db in
  run.1 = length (filter (fun p => is_ok (classify p)) batch)
  /\ forall (i : nat) (p : Post.t),
       posts db !! i = Some p ->
       posts run.2 !! i
       = Some (if decide (saved_in batch (Post.id p))
               then mark_processed (clock (Post.id p)) p else p).
Proof.
  intros batch run. subst run. unfold Classifier.process_batch_async. fold batch.
  destruct (decide (batch = [])) as [Hnil | _].
  - rewrite Hnil. cbn. split; [reflexivity |].
    intros i p Hp. rewrite decide_False; [assumption |].
    unfold Classifier.saved_in. now rewrite Exists_nil.
  - pose proof (ClassifierFacts.fold_save_results json_loads client clock batch 0 0 db)
      as Hfold. cbv zeta in Hfold.
    destruct (foldl _ _ _) as [[n e] db1].
    cbn in Hfold |- *. destruct Hfold as (Hcount & Hposts & _).
    split; [exact Hcount | exact Hposts].
Qed.

Lemma process_batch_length (batch_size : nat) (db : DB) :
  length (posts (process_batch_async batch_size db).2) = length (posts db).
Proof.
  unfold Classifier.process_batch_async.
  destruct (decide (get_unprocessed_posts (posts db) batch_size = [])) as [_ | _];
    [reflexivity |].
  generalize (Classifier.classify_post_async json_loads client
                <$> get_unprocessed_posts (posts db) batch_size).
  intros results.
  assert (H : forall n e d,
             length (posts (foldl (save_result clock) (n, e, d) results).2)
             = length (posts d)).
  { induction results as [| [[post_id c] err] results IH]; intros k e d; [reflexivity |].
    cbn [foldl]. unfold save_result at 2.
    destruct c as [c |]; [destruct (decide (c = ∅)) |]; rewrite IH; try reflexivity.
    unfold save_classification. cbn. apply length_fmap. }
  specialize (H 0%nat 0%nat db).
  destruct (foldl _ _ _) as [[k e] db']. exact H.
Qed.


End batch.

Lemma classified_answer_is_stamped_witness :
  classify JsonText.loads Examples.flaky_client (Examples.unclassified 1)
  = Ok Examples.stamped_answer
  /\ Examples.stamped_answer !! "model_version" = Some (Json.Str MODEL_VERSION)
  /\ key_of (excluded_row 1 Examples.stamped_answer)
     = (Some (Json.Int 1), Some (Json.Str MODEL_VERSION)).
Proof.
  assert (E : classify JsonText.loads Examples.flaky_client (Examples.unclassified 1)
              = Ok Examples.stamped_answer) by (vm_compute; reflexivity).
  split; [exact E |].
  destruct (classified_answer_is_stamped JsonText.loads Examples.flaky_client
              (Examples.unclassified 1) Examples.stamped_answer E)
    as (Hversion & _ & Hkey).
  split; [exact Hversion | exact Hkey].
Defined.


(** ** One row per post and model version *)

Lemma do_update_row_key now (excluded row : Row) :
  key_of (do_update_row now excluded row) = key_of row.
Proof.
  unfold key_of, do_update_row.
  now rewrite !lookup_insert_ne by discriminate.
Qed.

(** X13. [save_classification] keeps one row per
    ([post_id], [model_version]): when the rows of the table have
    distinct keys and the model version saved is not null, the rows
    still have distinct keys, one of them is the row of the key saved,
    and the table grows by at most one row. *)
Theorem classification_keys_stay_unique
    (now post_id : Z) (c : gmap string Json.t) (db : DB) :
  NoDup (key_of <$> post_classifications db) ->
  get_or c "model_version" (Json.Str MODEL_VERSION) <> Json.Null ->
  let table' := post_classifications (save_classification now post_id c db) in
  NoDup (key_of <$> table')
  /\ (exists row,
        row ∈ table'
        /\ key_of row = (Some (Json.Int post_id),
                         Some (get_or c "model_version" (Json.Str MODEL_VERSION))))
  /\ (length (post_classifications db) <= length table'
      <= S (length (post_classifications db)))%nat.
Proof.
  intros Hnd Hversion table'. subst table'.
  unfold save_classification, upsert_classification. cbn [post_classifications].
  assert (Hkey : key_of (excluded_row post_id c)
                 = (Some (Json.Int post_id),
                    Some (get_or c "model_version" (Json.Str MODEL_VERSION))))
    by (unfold key_of; apply pair_equal_spec; apply ClassifierFacts.excluded_row_key).
  destruct (decide (Exists (conflicts (excluded_row post_id c))
                           (post_classifications db))) as [Hex | Hex].
  - split; [| split].
    + rewrite <- list_fmap_compose.
      rewrite (list_fmap_ext _ key_of); [exact Hnd |].
      intros i row _. cbn. destruct (decide _); [apply do_update_row_key | reflexivity].
    + apply Exists_exists in Hex as (row & Hrow & Hconflict).
      exists (do_update_row now (excluded_row post_id c) row). split.
      * apply list_elem_of_fmap. exists row. now rewrite decide_True.
      * rewrite do_update_row_key, <- Hkey. unfold key_of.
        destruct Hconflict as (-> & -> & _). reflexivity.
    + rewrite length_fmap. lia.
  - split; [| split].
    + rewrite fmap_app. apply NoDup_app. split; [exact Hnd |]. split.
      * intros k Hk Hk'. apply list_elem_of_singleton in Hk'. subst k.
        apply Hex, Exists_exists.
        apply list_elem_of_fmap in Hk as (row & Hrow & Hin).
        exists row. split; [exact Hin |].
        unfold key_of in Hrow. apply pair_equal_spec in Hrow as [Hid Hmv].
        unfold conflicts. split; [now symmetry |]. split; [now symmetry |].
        rewrite (proj2 (ClassifierFacts.excluded_row_key post_id c)). congruence.
      * apply NoDup_singleton.
    + exists (excluded_row post_id c). split; [| exact Hkey].
      apply elem_of_app. right. left.
    + rewrite length_app. cbn. lia.
Qed.

Lemma classification_keys_stay_unique_witness :
  let db1 := save_classification 1767229200000000 7 Examples.first_answer
               Examples.fresh_store in
  let db2 := save_classification 1767232800000000 7 Examples.second_answer db1 in
  NoDup (key_of <$> post_classifications db2)
  /\ length (post_classifications db2) = 1%nat.
Proof.
  intros db1 db2.
  assert (Hnd1 : NoDup (key_of <$> post_classifications db1))
    by (apply NoDup_singleton).
  destruct (classification_keys_stay_unique 1767232800000000 7
              Examples.second_answer db1 Hnd1) as (Hnd2 & _ & _);
    [vm_compute; discriminate |].
  split; [exact Hnd2 | reflexivity].
Defined.

End BatchFacts.

(** ** More on the sync *)

Module SyncRunFacts.
Import Sync.

Section upsert.

Variable default_classification_version : option Z.

Local Abbreviation upsert_post := (upsert_post default_classification_version).
Local Abbreviation inserted := (inserted default_classification_version).

Lemma do_update_post_keys (e : Incoming.t) (p : Post.t) :
  Post.uri (do_update_post e p) = Post.uri p
  /\ Post.id (do_update_post e p) = Post.id p
  /\ Post.indexed_at (do_update_post e p) = Post.indexed_at p.
Proof. repeat split. Qed.

(** One row: the keys stay unique, the sequence moves on by one, and a
    stored row keeps its place, its keys and its [indexed_at]. *)
Lemma upsert_post_step (table : list Post.t) (seq : Z) (e : Incoming.t) :
  keys_unique table seq ->
  keys_unique (upsert_post (table, seq) e).1 (upsert_post (table, seq) e).2
  /\ (upsert_post (table, seq) e).2 = seq + 1
  /\ (length table <= length (upsert_post (table, seq) e).1 <= S (length table))%nat
  /\ forall (i : nat) (p : Post.t),
       table !! i = Some p ->
       exists p',
         (upsert_post (table, seq) e).1 !! i = Some p'
         /\ Post.uri p' = Post.uri p
         /\ Post.id p' = Post.id p
         /\ Post.indexed_at p' = Post.indexed_at p.
Proof.
  intros (Huri & Hid & Hseq). unfold Sync.upsert_post.
  set (f := fun p : Post.t =>
              if decide (Post.uri p = Incoming.uri e) then do_update_post e p else p).
  assert (Hf : forall p, Post.uri (f p) = Post.uri p /\ Post.id (f p) = Post.id p
                         /\ Post.indexed_at (f p) = Post.indexed_at p).
  { intros p. unfold f. destruct (decide _); repeat split. }
  destruct (decide (Exists (fun p => Post.uri p = Incoming.uri e) table)) as [Hex | Hex];
    cbn [fst snd].
  - split; [| split; [reflexivity | split]].
    + unfold keys_unique. split; [| split].
      * rewrite <- list_fmap_compose.
        rewrite (list_fmap_ext _ Post.uri); [exact Huri | intros; apply Hf].
      * rewrite <- list_fmap_compose.
        rewrite (list_fmap_ext _ Post.id); [exact Hid | intros; apply Hf].
      * apply Forall_fmap. eapply Forall_impl; [exact Hseq |].
        intros p Hp. unfold compose. rewrite (proj1 (proj2 (Hf p))). cbn in Hp. lia.
    + rewrite length_fmap. lia.
    + intros i p Hp. exists (f p). split; [now rewrite list_lookup_fmap, Hp |].
      apply Hf.
  - split; [| split; [reflexivity | split]].
    + unfold keys_unique. rewrite !fmap_app. split; [| split].
      * apply NoDup_app. split; [exact Huri |]. split; [| apply NoDup_singleton].
        intros u Hu Hu'. apply list_elem_of_singleton in Hu'. cbn in Hu'. subst u.
        apply Hex, Exists_exists. apply list_elem_of_fmap in Hu as (p & Hp & Hin).
        exists p. split; [exact Hin | now symmetry].
      * apply NoDup_app. split; [exact Hid |]. split; [| apply NoDup_singleton].
        intros k Hk Hk'. apply list_elem_of_singleton in Hk'. cbn in Hk'. subst k.
        apply list_elem_of_fmap in Hk as (p & Hp & Hin).
        rewrite Forall_forall in Hseq. specialize (Hseq p Hin). lia.
      * apply Forall_app. split.
        -- eapply Forall_impl; [exact Hseq |]. intros p Hp. cbn in Hp |- *. lia.
        -- apply Forall_singleton. cbn. lia.
    + rewrite length_app. cbn. lia.
    + intros i p Hp. exists p.
      split; [rewrite lookup_app_l; [exact Hp | eapply lookup_lt_Some; eassumption] |].
      repeat split.
Qed.

Lemma foldl_upsert_post (data : list Incoming.t) (table : list Post.t) (seq : Z) :
  keys_unique table seq ->
  let r := foldl upsert_post (table, seq) data in
  keys_unique r.1 r.2
  /\ (length table <= length r.1 <= length table + length data)%nat
  /\ forall (i : nat) (p : Post.t),
       table !! i = Some p ->
       exists p',
         r.1 !! i = Some p'
         /\ Post.uri p' = Post.uri p
         /\ Post.id p' = Post.id p
         /\ Post.indexed_at p' = Post.indexed_at p.
Proof.
  revert table seq. induction data as [| e data IH]; intros table seq Hinv r.
  - subst r. cbn. split; [exact Hinv |]. split; [lia |].
    intros i p Hp. exists p. repeat split. exact Hp.
  - subst r. cbn [foldl].
    destruct (upsert_post_step table seq e Hinv) as (Hinv1 & _ & Hlen1 & Hkeep1).
    destruct (upsert_post (table, seq) e) as [table1 seq1]. cbn [fst snd] in *.
    destruct (IH table1 seq1 Hinv1) as (Hinv' & Hlen' & Hkeep').
    split; [exact Hinv' |]. split; [cbn [length]; lia |].
    intros i p Hp.
    destruct (Hkeep1 i p Hp) as (p1 & Hp1 & Huri1 & Hid1 & Hat1).
    destruct (Hkeep' i p1 Hp1) as (p' & Hp' & Huri' & Hid' & Hat').
    exists p'. split; [exact Hp' |]. repeat split; congruence.
Qed.

(** X14. A post synced for the first time is stored with a null
    [processed_at]; it is selected by the classifier exactly when its
    text is neither null nor empty. *)
Theorem first_sync_makes_a_post_selectable
    (table : list Post.t) (seq : Z) (e : Incoming.t) :
  ~ Exists (fun p => Post.uri p = Incoming.uri e) table ->
  let table' := (upsert_post (table, seq) e).1 in
  let p := inserted seq e in
  table' = table ++ [p]
  /\ Post.processed_at p = None
  /\ Post.id p = seq
  /\ ((exists text, Incoming.text_content e = Some text /\ text <> "")
      <-> p ∈ Classifier.get_unprocessed_posts table' (length table')).
Proof.
  intros Hnew table' p. subst table' p. unfold Sync.upsert_post.
  rewrite decide_False by exact Hnew. cbn [fst].
  split; [reflexivity |]. split; [reflexivity |]. split; [reflexivity |].
  split.
  - intros (text & Htext & Hne).
    apply ClassifierFacts.get_unprocessed_posts_all.
    + apply elem_of_app. right. left.
    + unfold Classifier.unprocessed. cbn. rewrite Htext.
      split; [reflexivity |]. split; congruence.
  - intros Hsel. apply ClassifierFacts.get_unprocessed_posts_elem in Hsel as [_ Hun].
    destruct Hun as (_ & Hnull & Hempty). cbn in Hnull, Hempty.
    destruct (Incoming.text_content e) as [text |]; [| congruence].
    exists text. split; [reflexivity | congruence].
Qed.

End upsert.

Lemma first_sync_makes_a_post_selectable_witness :
  let e := prepare JsonText.loads Examples.no_date Examples.no_date 1767400000000000
             Examples.new_row in
  let table' := (upsert_post None ([Examples.stored_post], 8) e).1 in
  inserted None 8 e ∈ Classifier.get_unprocessed_posts table' (length table')
  /\ length table' = 2%nat.
Proof.
  intros e table'.
  destruct (first_sync_makes_a_post_selectable None [Examples.stored_post] 8 e)
    as (Htable & _ & _ & Hsel).
  - rewrite Exists_cons, Exists_nil. intros [Huri | []]. vm_compute in Huri.
    discriminate Huri.
  - split; [| subst table'; rewrite Htable; reflexivity].
    apply Hsel. exists "First time trying a tincture". split; [reflexivity | discriminate].
Defined.

(** ** A run *)

Section run.

Variable json_loads : string -> option Json.t.
Variables fromisoformat strptime : string -> option Z.
Variable isoformat : Z -> string.
Variable default_classification_version : option Z.

Local Abbreviation sync_posts :=
  (sync_posts json_loads fromisoformat strptime isoformat
     default_classification_version).
Local Abbreviation prepare := (prepare json_loads fromisoformat strptime).
Local Abbreviation parse_timestamp := (parse_timestamp fromisoformat strptime).

(** The three outcomes of a run. *)
Lemma sync_posts_cases (now : Z) (download : result (list SrcRow.t)) (db : Store) :
  let last_sync := get_last_sync_timestamp (posts db) in
  match download with
  | Raise e => sync_posts now download db = Raise e
  | Ok source =>
      let rows := rows_to_sync isoformat last_sync source in
      exists posts' seq' entry,
        sync_posts now download db
        = Ok (Z.of_nat (length rows),
              {| posts := posts'; posts_id_seq := seq';
                 sync_log := sync_log db ++ [entry] |})
        /\ (posts', seq')
           = foldl (upsert_post default_classification_version)
               (posts db, posts_id_seq db) (prepare now <$> rows)
        /\ SyncLog.completed_at entry = now
        /\ SyncLog.posts_synced entry = Z.of_nat (length rows)
        /\ SyncLog.status entry = "success"
        /\ SyncLog.last_indexed_at entry
           = match rows with
             | [] => last_sync
             | _ => sql_max ((fun row => parse_timestamp now (SrcRow.indexed_at row))
                               <$> rows)
             end
  end.
Proof.
  intros last_sync. destruct download as [source | e]; [| reflexivity].
  intros rows. unfold Sync.sync_posts. cbn. fold last_sync. fold rows.
  destruct (decide (rows = [])) as [Hnil | Hne].
  - rewrite Hnil. cbn. eexists _, _, _. split; [reflexivity |].
    repeat split.
  - destruct (foldl _ _ _) as [posts' seq'] eqn:E.
    eexists _, _, _. split; [reflexivity |].
    split; [reflexivity |].
    destruct rows; [congruence |]. repeat split.
Qed.

(** X15. A run that transfers rows returns their number and appends
    one log row with that number, the status 'success' and the time of
    the run; the table never loses a post and gains at most one per row
    transferred; [uri]s and [id]s stay unique. When the download fails
    the exception is raised and nothing is returned. *)
Theorem sync_posts_counts_and_keeps_keys
    (now : Z) (download : result (list SrcRow.t)) (db db' : Store) (n : Z) :
  keys_unique (posts db) (posts_id_seq db) ->
  sync_posts now download db = Ok (n, db') ->
  (exists source, download = Ok source
     /\ n = Z.of_nat (length (rows_to_sync isoformat
                                (get_last_sync_timestamp (posts db)) source)))
  /\ keys_unique (posts db') (posts_id_seq db')
  /\ Z.of_nat (length (posts db)) <= Z.of_nat (length (posts db'))
     <= Z.of_nat (length (posts db)) + n
  /\ (exists entry,
        sync_log db' = sync_log db ++ [entry]
        /\ SyncLog.posts_synced entry = n
        /\ SyncLog.completed_at entry = now
        /\ SyncLog.status entry = "success").
Proof.
  intros Hinv Hrun.
  pose proof (sync_posts_cases now download db) as Hcases. cbv zeta in Hcases.
  destruct download as [source | e]; [| congruence].
  destruct Hcases as (posts' & seq' & entry & Heq & Hfold & Hat & Hcount & Hstatus & _).
  rewrite Heq in Hrun. injection Hrun as <- <-. cbn [posts posts_id_seq sync_log].
  split; [eauto |].
  destruct (foldl_upsert_post default_classification_version
              (prepare now <$> rows_to_sync isoformat
                                 (get_last_sync_timestamp (posts db)) source)
              (posts db) (posts_id_seq db) Hinv) as (Hinv' & Hlen & _).
  rewrite <- Hfold in Hinv', Hlen. cbn [fst snd] in Hinv', Hlen.
  rewrite length_fmap in Hlen.
  split; [exact Hinv' |]. split; [lia |].
  exists entry. repeat split; assumption.
Qed.

Lemma foldr_max_ge (l : list Z) (a x : Z) :
  x = a \/ x ∈ l -> x <= foldr Z.max a l.
Proof.
  induction l as [| b l IH]; cbn.
  - intros [-> | Hx]; [lia | inversion Hx].
  - intros [Hx | Hx].
    + specialize (IH (or_introl Hx)). lia.
    + apply elem_of_cons in Hx as [Hx | Hx]; [lia |].
      specialize (IH (or_intror Hx)). lia.
Qed.

Lemma sql_max_ge (l : list Z) (m x : Z) : sql_max l = Some m -> x ∈ l -> x <= m.
Proof.
  destruct l as [| a l]; [discriminate |]. cbn. intros [= <-] Hx.
  apply foldr_max_ge. apply elem_of_cons in Hx. exact Hx.
Qed.

Lemma sql_max_elem (l : list Z) (m : Z) : sql_max l = Some m -> m ∈ l.
Proof.
  destruct l as [| a l]; [discriminate |]. cbn. intros [= <-].
  induction l as [| b l IH]; cbn; [left |].
  destruct (Z.max_spec b (foldr Z.max a l)) as [[_ ->] | [_ ->]].
  - apply elem_of_cons in IH as [-> | IH]; [left | right; now right].
  - right. left.
Qed.

(** X16. The watermark never moves back: after a run the greatest
    [indexed_at] of the table is at least what it was, because a stored
    row keeps its [indexed_at] (the upsert does not refresh it). *)
Theorem watermark_never_moves_back
    (now : Z) (download : result (list SrcRow.t)) (db db' : Store) (n t : Z) :
  keys_unique (posts db) (posts_id_seq db) ->
  sync_posts now download db = Ok (n, db') ->
  get_last_sync_timestamp (posts db) = Some t ->
  exists t', get_last_sync_timestamp (posts db') = Some t' /\ t <= t'.
Proof.
  intros Hinv Hrun Hmark.
  pose proof (sync_posts_cases now download db) as Hcases. cbv zeta in Hcases.
  destruct download as [source | e]; [| congruence].
  destruct Hcases as (posts' & seq' & entry & Heq & Hfold & _).
  rewrite Heq in Hrun. injection Hrun as <- <-. cbn [posts].
  destruct (foldl_upsert_post default_classification_version
              (prepare now <$> rows_to_sync isoformat
                                 (get_last_sync_timestamp (posts db)) source)
              (posts db) (posts_id_seq db) Hinv) as (_ & _ & Hkeep).
  rewrite <- Hfold in Hkeep. cbn [fst] in Hkeep.
  unfold get_last_sync_timestamp in *.
  apply sql_max_elem in Hmark as Hin.
  apply list_elem_of_omap in Hin as (p & Hp & Hat).
  apply list_elem_of_lookup_1 in Hp as [i Hi].
  destruct (Hkeep i p Hi) as (p' & Hp' & _ & _ & Hat').
  assert (Hin' : t ∈ omap Post.indexed_at posts').
  { apply list_elem_of_omap. exists p'. split; [| congruence].
    eapply list_elem_of_lookup_2; eassumption. }
  destruct (sql_max (omap Post.indexed_at posts')) as [t' |] eqn:E.
  - exists t'. split; [reflexivity |]. eapply sql_max_ge; eassumption.
  - unfold sql_max in E. destruct (omap Post.indexed_at posts'); [inversion Hin' | discriminate].
Qed.


(** X18. [prepare] never sends a falsy [facets] value: what it sends
    is the decoded text of the column, and a text that is null, empty,
    undecodable or decodes to null, false, 0, an empty string, list or
    object is sent as null. A [langs] text that does not decode is sent
    as the list holding that text. The media flag is never null and the
    media count is 0. *)
Theorem prepare_normalises_a_row (now : Z) (row : SrcRow.t) :
  let e := prepare now row in
  (forall j, Incoming.facets e = Some j <->
     Json.truthy j = true
     /\ exists text, SrcRow.facets row = Some text /\ text <> ""
                     /\ json_loads text = Some j)
  /\ (forall text, SrcRow.langs row = Some text -> text <> "" ->
        json_loads text = None ->
        Incoming.langs e = Some (Json.Arr [Json.Str text]))
  /\ (forall text j, SrcRow.langs row = Some text -> text <> "" ->
        json_loads text = Some j -> j <> Json.Null ->
        Incoming.langs e = Some j)
  /\ (Incoming.has_media e = true <->
      exists flag, SrcRow.has_media row = Some flag /\ flag <> 0)
  /\ Incoming.media_count e = 0
  /\ Incoming.embed_data e = None
  /\ Incoming.text_content e = SrcRow.text row.
Proof.
  intros e. subst e. unfold Sync.prepare. cbn.
  split; [| split; [| split; [| split]]].
  - intros j. unfold prepare_facets. split.
    + destruct (SrcRow.facets row) as [text |]; [| discriminate].
      destruct (decide (text = "")) as [| Hne]; [discriminate |].
      destruct (json_loads text) as [j0 |] eqn:Hj; cbn; [| discriminate].
      destruct (py_value j0) as [j1 |] eqn:Hv; [| discriminate].
      assert (j1 = j0) as -> by (destruct j0; cbn in Hv; congruence).
      destruct (Json.truthy j0) eqn:Ht; [| discriminate].
      intros [= <-]. split; [exact Ht |]. exists text. auto.
    + intros (Ht & text & -> & Hne & ->). rewrite decide_False by exact Hne. cbn.
      assert (py_value j = Some j) as -> by (destruct j; cbn in Ht |- *; congruence).
      now rewrite Ht.
  - intros text Hcol Hne Hj. unfold prepare_langs.
    now rewrite Hcol, decide_False, Hj by exact Hne.
  - intros text j Hcol Hne Hj Hnull. unfold prepare_langs.
    rewrite Hcol, decide_False, Hj by exact Hne.
    destruct j; try reflexivity; congruence.
  - destruct (SrcRow.has_media row) as [flag |]; split.
    + intros Hflag. exists flag. split; [reflexivity |].
      apply negb_true_iff, Z.eqb_neq in Hflag. exact Hflag.
    + intros (flag' & [= <-] & Hne). now apply negb_true_iff, Z.eqb_neq.
    + discriminate.
    + intros (flag & Hflag & _). discriminate.
  - repeat split.
Qed.

End run.

Lemma synced_store_keys :
  keys_unique (posts Examples.synced_store) (posts_id_seq Examples.synced_store).
Proof.
  unfold keys_unique. cbn. split; [apply NoDup_singleton |].
  split; [apply NoDup_singleton |]. repeat constructor.
Qed.

Lemma sync_posts_counts_and_keeps_keys_witness :
  match Examples.sync_example (Ok Examples.source_rows) Examples.synced_store with
  | Ok (n, db') =>
      n = 2
      /\ keys_unique (posts db') (posts_id_seq db')
      /\ 1 <= Z.of_nat (length (posts db')) <= 3
      /\ length (sync_log db') = 1%nat
  | Raise _ => False
  end.
Proof.
  destruct (Examples.sync_example _ _) as [[n db'] | e] eqn:Hrun;
    [| vm_compute in Hrun; discriminate Hrun].
  unfold Examples.sync_example in Hrun.
  destruct (sync_posts_counts_and_keeps_keys JsonText.loads Examples.no_date
              Examples.no_date Examples.flat_isoformat None 1767400000000000
              (Ok Examples.source_rows) Examples.synced_store db' n
              synced_store_keys Hrun)
    as ((source & [= <-] & Hn) & Hkeys & Hlen & entry & Hlog & _).
  vm_compute in Hn. cbn in Hlen. rewrite Hlog. subst n.
  split; [reflexivity |]. split; [exact Hkeys |]. split; [lia | reflexivity].
Defined.

Lemma watermark_never_moves_back_witness :
  match Examples.sync_example (Ok Examples.source_rows) Examples.synced_store with
  | Ok (n, db') =>
      exists t', get_last_sync_timestamp (posts db') = Some t'
                 /\ 1767225660000000 <= t'
  | Raise _ => False
  end.
Proof.
  destruct (Examples.sync_example _ _) as [[n db'] | e] eqn:Hrun;
    [| vm_compute in Hrun; discriminate Hrun].
  unfold Examples.sync_example in Hrun.
  apply (watermark_never_moves_back JsonText.loads Examples.no_date
           Examples.no_date Examples.flat_isoformat None 1767400000000000
           (Ok Examples.source_rows) Examples.synced_store db' n 1767225660000000
           synced_store_keys Hrun).
  reflexivity.
Defined.


Lemma sync_posts_keeps_classification_state_witness :
  match Examples.sync_example (Ok Examples.source_rows) Examples.synced_store with
  | Ok (n, db') =>
      exists p', posts db' !! 0%nat = Some p'
                 /\ Post.processed_at p' = Some 1767229200000000
                 /\ Post.classification_version p' = Some 1
  | Raise _ => False
  end.
Proof.
  destruct (Examples.sync_example _ _) as [[n db'] | e] eqn:Hrun;
    [| vm_compute in Hrun; discriminate Hrun].
  unfold Examples.sync_example in Hrun.
  destruct (SyncFacts.sync_posts_keeps_classification_state JsonText.loads
              Examples.no_date Examples.no_date Examples.flat_isoformat None
              1767400000000000 (Ok Examples.source_rows) Examples.synced_store db' n
              0%nat Examples.stored_post Hrun eq_refl)
    as (_ & p' & Hp' & _ & _ & Hat & Hversion).
  exists p'. split; [exact Hp' |]. split; assumption.
Defined.

End SyncRunFacts.

(** ** Statistics of the classifier *)

Module StatsFacts.
Import Classifier.

Lemma batch_length (table : list Post.t) (limit : nat) :
  length (get_unprocessed_posts table limit)
  = Nat.min limit (length (filter unprocessed table)).
Proof.
  unfold get_unprocessed_posts. rewrite length_take.
  now rewrite merge_sort_Permutation.
Qed.


Lemma pending_split (table : list Post.t) :
  (length table
   = length (filter (fun p => Post.processed_at p <> None) table)
     + length (filter unprocessed table)
     + length (filter stuck table))%nat.
Proof.
  induction table as [| p table IH]; [reflexivity |].
  rewrite !filter_cons. cbn [length].
  destruct (decide (Post.processed_at p <> None)) as [Hat | Hat].
  - rewrite (decide_False (P := unprocessed p)) by (intros [H _]; contradiction).
    rewrite (decide_False (P := stuck p)) by (intros [H _]; contradiction).
    cbn [length]. lia.
  - assert (Hnone : Post.processed_at p = None)
      by (destruct (Post.processed_at p); [exfalso; apply Hat; discriminate | reflexivity]).
    destruct (decide (unprocessed p)) as [Hun | Hun].
    + rewrite (decide_False (P := stuck p)).
      * cbn [length]. lia.
      * intros [_ [H | H]]; destruct Hun as (_ & H1 & H2); contradiction.
    + rewrite (decide_True (P := stuck p)).
      * cbn [length]. lia.
      * split; [exact Hnone |].
        destruct (Post.text_content p) as [text |] eqn:Htext; [| now left].
        right. destruct (decide (text = "")) as [-> | Hne]; [reflexivity |].
        exfalso. apply Hun. unfold unprocessed. rewrite Htext.
        repeat split; congruence.
Qed.

(** X20. The statistics account for every post: [processed] and
    [pending] add up to [total_posts], and a batch holds [limit] posts
    or, when fewer can be selected, every pending post but those whose
    text is null or empty, which no batch selects. *)
Theorem pending_bounds_the_batch (table : list Post.t) (limit : nat) :
  let s := get_stats table in
  Stats.processed s + Stats.pending s = Stats.total_posts s
  /\ 0 <= Stats.processed s
  /\ 0 <= Stats.pending s
  /\ 0 <= Stats.with_text s <= Stats.total_posts s
  /\ Z.of_nat (length (get_unprocessed_posts table limit))
     = Z.min (Z.of_nat limit)
             (Stats.pending s - Z.of_nat (length (filter stuck table))).
Proof.
  intros s. subst s. unfold get_stats. cbn.
  pose proof (pending_split table) as Hsplit.
  pose proof (length_filter (fun p => Post.text_content p <> None) table) as Htext.
  rewrite batch_length. lia.
Qed.

Section batch.

Variable json_loads : string -> option Json.t.
Variable client : Prompt.t -> Reply.
Variable clock : Z -> Z.

Local Abbreviation classify := (classify json_loads client).
Local Abbreviation process_batch_async := (process_batch_async json_loads client clock).
Local Abbreviation saved_in := (saved_in json_loads client).

(** The table after a batch, as a whole. *)
Lemma process_batch_posts (batch_size : nat) (db : DB) :
  posts (process_batch_async batch_size db).2
  = (fun p => if decide (saved_in (get_unprocessed_posts (posts db) batch_size)
                                  (Post.id p))
              then mark_processed (clock (Post.id p)) p else p) <$> posts db.
Proof.
  destruct (BatchFacts.process_batch_result json_loads client clock batch_size db)
    as [_ Hposts].
  apply list_eq. intros i. rewrite list_lookup_fmap.
  destruct (posts db !! i) as [p |] eqn:Hp.
  - rewrite (Hposts i p Hp). reflexivity.
  - cbn. apply lookup_ge_None.
    rewrite (BatchFacts.process_batch_length json_loads client clock).
    now apply lookup_ge_None.
Qed.

(** With unique ids, the posts marked are the classified posts of the
    batch. *)
Lemma saved_in_batch (batch_size : nat) (db : DB) (p : Post.t) :
  NoDup (Post.id <$> posts db) ->
  p ∈ posts db ->
  saved_in (get_unprocessed_posts (posts db) batch_size) (Post.id p)
  <-> p ∈ get_unprocessed_posts (posts db) batch_size /\ is_ok (classify p).
Proof.
  intros Hnd Hp. unfold Classifier.saved_in. rewrite Exists_exists. split.
  - intros (q & Hq & Hok & Hid).
    assert (q = p) as ->; [| tauto].
    apply (ClassifierFacts.NoDup_fmap_eq Post.id (posts db)); try assumption.
    now apply ClassifierFacts.get_unprocessed_posts_elem in Hq as [Hq _].
  - intros [Hin Hok]. exists p. tauto.
Qed.





(** X22. A pending post whose text is null or empty stays as it is
    through every batch: with unique ids no batch marks it. *)
Theorem textless_posts_stay_pending
    (batch_size : nat) (db : DB) (i : nat) (p : Post.t) :
  NoDup (Post.id <$> posts db) ->
  posts db !! i = Some p ->
  Post.text_content p = None \/ Post.text_content p = Some "" ->
  posts (process_batch_async batch_size db).2 !! i = Some p.
Proof.
  intros Hnd Hp Htext. rewrite process_batch_posts, list_lookup_fmap, Hp. cbn.
  rewrite decide_False; [reflexivity |].
  intros Hsaved. apply saved_in_batch in Hsaved as [Hin _];
    [| assumption | eapply list_elem_of_lookup_2; eassumption].
  apply ClassifierFacts.get_unprocessed_posts_elem in Hin as [_ (_ & H1 & H2)].
  destruct Htext; contradiction.
Qed.

End batch.

Lemma mixed_store_ids : NoDup (Post.id <$> posts Examples.mixed_store).
Proof. apply (bool_decide_unpack _). vm_compute. exact I. Qed.


Lemma textless_posts_stay_pending_witness :
  posts (process_batch_async JsonText.loads Examples.flaky_client Examples.clock
           10 Examples.mixed_store).2 !! 1%nat
  = Some Examples.textless.
Proof.
  apply (textless_posts_stay_pending JsonText.loads Examples.flaky_client
           Examples.clock 10 Examples.mixed_store 1 Examples.textless
           mixed_store_ids eq_refl).
  left. reflexivity.
Defined.

End StatsFacts.

(** ** The extractor *)

Module ExtractorFacts.
Import Extractor.

(** [str.find]: the first position of the character, or [-1]. *)
Lemma find_spec (c : ascii) (s : string) :
  (find c s = -1 /\ forall m : nat, String.get m s <> Some c)
  \/ (exists i : nat,
        find c s = Z.of_nat i
        /\ String.get i s = Some c
        /\ forall m : nat, (m < i)%nat -> String.get m s <> Some c).
Proof.
  induction s as [| d rest IH]; cbn [find].
  - left. split; [reflexivity |]. intros m. destruct m; discriminate.
  - destruct (Ascii.eqb_spec c d) as [<- | Hne].
    + right. exists 0%nat. split; [reflexivity |]. split; [reflexivity |]. lia.
    + destruct IH as [[Hnone Habsent] | (i & Hi & Hget & Hfirst)].
      * left. rewrite Hnone. split; [reflexivity |].
        intros [| m]; cbn; [congruence | apply Habsent].
      * right. exists (S i). rewrite Hi.
        destruct (Z.ltb_spec (Z.of_nat i) 0) as [Hlt | _]; [lia |].
        split; [lia |]. split; [exact Hget |].
        intros [| m] Hm; cbn; [congruence | apply Hfirst; lia].
Qed.

(** [str.rfind]: the last position of the character, or [-1]. *)
Lemma rfind_spec (c : ascii) (s : string) :
  (rfind c s = -1 /\ forall m : nat, String.get m s <> Some c)
  \/ (exists k : nat,
        rfind c s = Z.of_nat k
        /\ String.get k s = Some c
        /\ forall m : nat, (k < m)%nat -> String.get m s <> Some c).
Proof.
  induction s as [| d rest IH]; cbn [rfind].
  - left. split; [reflexivity |]. intros m. destruct m; discriminate.
  - destruct IH as [[Hnone Habsent] | (k & Hk & Hget & Hlast)].
    + rewrite Hnone. cbn. destruct (Ascii.eqb_spec c d) as [<- | Hne].
      * right. exists 0%nat. split; [reflexivity |]. split; [reflexivity |].
        intros [| m] Hm; [lia | cbn; apply Habsent].
      * left. split; [reflexivity |].
        intros [| m]; cbn; [congruence | apply Habsent].
    + right. exists (S k). rewrite Hk.
      destruct (Z.leb_spec 0 (Z.of_nat k)) as [_ | Hlt]; [| lia].
      split; [lia |]. split; [exact Hget |].
      intros [| m] Hm; cbn; [lia | apply Hlast; lia].
Qed.

Section extractor.

Variable json_loads : string -> option Json.t.
Variable ollama : string -> HttpReply.

Local Abbreviation find_json := (find_json json_loads).
Local Abbreviation extract_insights := (extract_insights json_loads ollama).

Lemma find_json_spec (result : string) (j : Json.t) :
  find_json result = Some j <->
  exists i k : nat,
    String.get i result = Some "{"%char
    /\ (forall m : nat, (m < i)%nat -> String.get m result <> Some "{"%char)
    /\ String.get k result = Some "}"%char
    /\ (forall m : nat, (k < m)%nat -> String.get m result <> Some "}"%char)
    /\ (i < k)%nat
    /\ json_loads (String.substring i (k + 1 - i) result) = Some j.
Proof.
  unfold Extractor.find_json, slice.
  destruct (find_spec "{" result) as [[Hf Hno] | (i & Hf & Hgi & Hfirst)];
    destruct (rfind_spec "}" result) as [[Hr Hnor] | (k & Hr & Hgk & Hlast)];
    rewrite Hf, Hr.
  - rewrite decide_False by lia. split; [discriminate |].
    intros (i & k & Hi & _). now apply Hno in Hi.
  - rewrite decide_False by lia. split; [discriminate |].
    intros (i & k' & Hi & _). now apply Hno in Hi.
  - rewrite decide_False by lia. split; [discriminate |].
    intros (i' & k & _ & _ & Hk & _). now apply Hnor in Hk.
  - assert (Hik : i <> k) by (intros ->; rewrite Hgi in Hgk; discriminate).
    destruct (decide (0 <= Z.of_nat i /\ Z.of_nat i < Z.of_nat k + 1)) as [Hle | Hle].
    + replace (Z.to_nat (Z.of_nat i)) with i by lia.
      replace (Z.to_nat (Z.of_nat k + 1 - Z.of_nat i)) with (k + 1 - i)%nat by lia.
      split.
      * intros Hj. exists i, k. repeat split; try assumption. lia.
      * intros (i' & k' & Hi' & Hfirst' & Hk' & Hlast' & _ & Hj).
        assert (i' = i) as ->.
        { destruct (Nat.lt_trichotomy i' i) as [Hlt | [-> | Hlt]]; [| reflexivity |].
          - now apply Hfirst in Hlt.
          - now apply Hfirst' in Hlt. }
        assert (k' = k) as ->.
        { destruct (Nat.lt_trichotomy k' k) as [Hlt | [-> | Hlt]]; [| reflexivity |].
          - now apply Hlast' in Hlt.
          - now apply Hlast in Hlt. }
        exact Hj.
    + split; [discriminate |].
      intros (i' & k' & Hi' & Hfirst' & Hk' & Hlast' & Hlt & _). exfalso.
      assert (i' = i) as ->.
      { destruct (Nat.lt_trichotomy i' i) as [Hlt' | [-> | Hlt']]; [| reflexivity |].
        - now apply Hfirst in Hlt'.
        - now apply Hfirst' in Hlt'. }
      assert (k' = k) as ->.
      { destruct (Nat.lt_trichotomy k' k) as [Hlt' | [-> | Hlt']]; [| reflexivity |].
        - now apply Hlast' in Hlt'.
        - now apply Hlast in Hlt'. }
      lia.
Qed.

(** X23. [extract_insights] returns a value exactly when the request
    answers with status 200 and the text from the first opening brace
    to the last closing brace of the answer, the latter after the
    former, decodes to that value; whatever surrounds the
    braces is dropped. In every other case it returns [None]. *)
Theorem extract_insights_reads_between_the_braces (text : string) (j : Json.t) :
  extract_insights text = Some j <->
  exists (result : string) (i k : nat),
    ollama text = HttpResponse 200 result
    /\ String.get i result = Some "{"%char
    /\ (forall m : nat, (m < i)%nat -> String.get m result <> Some "{"%char)
    /\ String.get k result = Some "}"%char
    /\ (forall m : nat, (k < m)%nat -> String.get m result <> Some "}"%char)
    /\ (i < k)%nat
    /\ json_loads (String.substring i (k + 1 - i) result) = Some j.
Proof.
  unfold Extractor.extract_insights.
  destruct (ollama text) as [| status result].
  - split; [discriminate | intros (? & ? & ? & [=] & _)].
  - destruct (decide (status = 200)) as [-> | Hne].
    + rewrite find_json_spec. split.
      * intros (i & k & H). exists result, i, k. tauto.
      * intros (result' & i & k & [= <-] & H). exists i, k. exact H.
    + split; [discriminate |]. intros (? & ? & ? & [= ? ?] & _). contradiction.
Qed.

End extractor.

(** ** The [insights] table *)

Lemma filter_other_length (table : list Insight.t) (uri : string) :
  NoDup (Insight.uri <$> table) ->
  length (filter (fun row => Insight.uri row <> uri) table)
  = if decide (uri ∈ get_processed_uris table)
    then pred (length table) else length table.
Proof.
  unfold get_processed_uris. induction table as [| r table IH]; intros Hnd.
  - rewrite decide_False by (intros H; inversion H). reflexivity.
  - rewrite fmap_cons in Hnd. apply NoDup_cons in Hnd as [Hr Hnd].
    rewrite filter_cons, fmap_cons. specialize (IH Hnd).
    destruct (decide (Insight.uri r <> uri)) as [Hne | Heq].
    + cbn [length]. rewrite IH.
      destruct (decide (uri ∈ Insight.uri <$> table)) as [Hin | Hin].
      * rewrite decide_True by (now right).
        destruct table; [inversion Hin | reflexivity].
      * rewrite decide_False; [reflexivity |].
        intros H. apply elem_of_cons in H as [H | H]; [congruence | contradiction].
    + assert (Insight.uri r = uri) as Hu
        by (destruct (decide (Insight.uri r = uri)); [assumption | contradiction]).
      rewrite decide_True by (rewrite Hu; left). cbn [length pred].
      rewrite IH. rewrite decide_False; [reflexivity |]. now rewrite <- Hu.
Qed.

(** What [save_insight] leaves: unique [uri]s, the [uri]s there were
    with the one saved, and the count. *)
Lemma save_insight_table
    (now : Z) (uri text : string) (insights : Json.t) (table table' : list Insight.t) :
  NoDup (Insight.uri <$> table) ->
  save_insight now uri text insights table = inr table' ->
  NoDup (Insight.uri <$> table')
  /\ (forall u, u ∈ get_processed_uris table' <->
                u = uri \/ u ∈ get_processed_uris table)
  /\ get_processed_count table'
     = if decide (uri ∈ get_processed_uris table)
       then get_processed_count table
       else get_processed_count table + 1.
Proof.
  intros Hnd. unfold save_insight.
  destruct (Json.as_dict insights) as [d |]; [| discriminate].
  destruct (_ && _); [| discriminate]. intros [= <-].
  assert (Hsub : NoDup (Insight.uri <$> filter (fun r => Insight.uri r <> uri) table)).
  { eapply sublist_NoDup; [exact Hnd | apply fmap_sublist, sublist_filter]. }
  split; [| split].
  - rewrite fmap_app. apply NoDup_app. split; [exact Hsub |].
    split; [| apply NoDup_singleton].
    intros u Hu Hu'. apply list_elem_of_singleton in Hu'. cbn in Hu'. subst u.
    apply list_elem_of_fmap in Hu as (r & Hr & Hin).
    apply list_elem_of_filter in Hin as [Hne _]. congruence.
  - intros u. unfold get_processed_uris. rewrite fmap_app, elem_of_app.
    cbn [fmap list_fmap Insight.uri]. rewrite list_elem_of_singleton. split.
    + intros [Hu | ->]; [| now left].
      apply list_elem_of_fmap in Hu as (r & -> & Hin).
      apply list_elem_of_filter in Hin as [_ Hin]. right.
      now apply list_elem_of_fmap_2.
    + intros [-> | Hu]; [now right |].
      apply list_elem_of_fmap in Hu as (r & -> & Hin).
      destruct (decide (Insight.uri r = uri)) as [<- | Hne]; [now right |].
      left. apply list_elem_of_fmap_2. now apply list_elem_of_filter.
  - unfold get_processed_count. rewrite length_app, filter_other_length by exact Hnd.
    cbn [length].
    destruct (decide (uri ∈ get_processed_uris table)) as [Hin | _]; [| lia].
    unfold get_processed_uris in Hin. destruct table; [inversion Hin | cbn; lia].
Qed.

(** X24. [save_insight] keeps one row per [uri]: when it returns, the
    rows of the other posts are kept in their order, the row of the post
    is replaced by (or added as) the last row, stamped with the time and
    [MODEL], and the count grows by one for a new [uri] and stays for a
    known one. *)
Theorem save_insight_keeps_one_row_per_uri
    (now : Z) (uri text : string) (insights : Json.t) (table table' : list Insight.t) :
  NoDup (Insight.uri <$> table) ->
  save_insight now uri text insights table = inr table' ->
  NoDup (Insight.uri <$> table')
  /\ (exists row,
        table' = filter (fun r => Insight.uri r <> uri) table ++ [row]
        /\ Insight.uri row = uri
        /\ Insight.post_text row = text
        /\ Insight.extracted_at row = now
        /\ Insight.model_version row = MODEL)
  /\ get_processed_count table'
     = if decide (uri ∈ get_processed_uris table)
       then get_processed_count table
       else get_processed_count table + 1.
Proof.
  intros Hnd Hsave.
  destruct (save_insight_table now uri text insights table table' Hnd Hsave)
    as (Hnd' & _ & Hcount).
  split; [exact Hnd' |]. split; [| exact Hcount].
  unfold save_insight in Hsave.
  destruct (Json.as_dict insights) as [d |]; [| discriminate].
  destruct (_ && _); [| discriminate]. injection Hsave as <-.
  eexists. split; [reflexivity |]. repeat split.
Qed.

Lemma save_insight_keeps_one_row_per_uri_witness :
  let table := [Examples.blue_dream_insight 1767400000000000] in
  save_insight 1767486400000000 "at://did:plc:alice/app.bsky.feed.post/3kabc"
    "Blue Dream after work, finally relaxed"
    (Json.Obj [("product", Json.Str "Blue Dream"); ("mood", Json.Str "relaxed");
               ("keywords", Json.Arr [Json.Str "denver"])]) table
  = inr [Examples.blue_dream_insight 1767486400000000]
  /\ get_processed_count [Examples.blue_dream_insight 1767486400000000] = 1.
Proof.
  intros table.
  assert (Hsave : save_insight 1767486400000000
                    "at://did:plc:alice/app.bsky.feed.post/3kabc"
                    "Blue Dream after work, finally relaxed"
                    (Json.Obj [("product", Json.Str "Blue Dream");
                               ("mood", Json.Str "relaxed");
                               ("keywords", Json.Arr [Json.Str "denver"])]) table
                  = inr [Examples.blue_dream_insight 1767486400000000])
    by (vm_compute; reflexivity).
  split; [exact Hsave |].
  assert (Hnd : NoDup (Insight.uri <$> table)) by apply NoDup_singleton.
  destruct (save_insight_keeps_one_row_per_uri _ _ _ _ _ _ Hnd Hsave)
    as (_ & _ & Hcount).
  rewrite Hcount. rewrite decide_True by (left). reflexivity.
Defined.

(** ** [process_batch] *)

Section process_batch.

Variable json_loads : string -> option Json.t.
Variable ollama : string -> HttpReply.
Variable fetch_post_text : string -> option string.
Variable clock : nat -> Z.

Local Abbreviation process_uri := (process_uri json_loads ollama fetch_post_text).
Local Abbreviation process_batch_from :=
  (process_batch_from json_loads ollama fetch_post_text clock).
Local Abbreviation process_batch :=
  (process_batch json_loads ollama fetch_post_text clock).

(** One turn: a processed URI changes nothing, another one counts as a
    success or as an error. *)
Lemma process_uri_step (now : Z) (processed_set : list string)
    (success errors : nat) (table : list Insight.t) (uri : string)
    (success' errors' : nat) (table' : list Insight.t) :
  NoDup (Insight.uri <$> table) ->
  process_uri now processed_set (success, errors, table) uri
  = inr (success', errors', table') ->
  NoDup (Insight.uri <$> table')
  /\ (success' + errors'
      = success + errors + (if decide (uri ∈ processed_set) then 0 else 1))%nat
  /\ (success <= success')%nat
  /\ (forall u, u ∈ get_processed_uris table' ->
        u ∈ get_processed_uris table \/ (u = uri /\ uri ∉ processed_set))
  /\ (forall u, u ∈ get_processed_uris table -> u ∈ get_processed_uris table')
  /\ (0 <= get_processed_count table' - get_processed_count table
      <= Z.of_nat success' - Z.of_nat success).
Proof.
  intros Hnd. unfold Extractor.process_uri.
  destruct (decide (uri ∈ processed_set)) as [Hin | Hin].
  { intros [= <- <- <-]. repeat split; auto; lia. }
  assert (Herror : forall r : crash + nat * nat * list Insight.t,
             r = inr (success, S errors, table) ->
             r = inr (success', errors', table') ->
             NoDup (Insight.uri <$> table')
             /\ (success' + errors' = success + errors + 1)%nat
             /\ (success <= success')%nat
             /\ (forall u, u ∈ get_processed_uris table' ->
                   u ∈ get_processed_uris table \/ (u = uri /\ uri ∉ processed_set))
             /\ (forall u, u ∈ get_processed_uris table -> u ∈ get_processed_uris table')
             /\ (0 <= get_processed_count table' - get_processed_count table
                 <= Z.of_nat success' - Z.of_nat success)).
  { intros r -> [= <- <- <-]. repeat split; auto; lia. }
  destruct (fetch_post_text uri) as [text |]; [| now apply Herror].
  destruct (decide (text = "")); [now apply Herror |].
  destruct (Extractor.extract_insights json_loads ollama text) as [insights |];
    [| now apply Herror].
  destruct (Json.truthy insights); [| now apply Herror].
  destruct (save_insight now uri text insights table) as [c | saved] eqn:Hsave;
    [discriminate |].
  intros [= <- <- <-].
  destruct (save_insight_table now uri text insights table saved Hnd Hsave)
    as (Hnd' & Huris & Hcount).
  split; [exact Hnd' |]. split; [lia |]. split; [lia |]. split; [| split].
  - intros u Hu. apply Huris in Hu as [-> | Hu]; [right | left]; auto.
  - intros u Hu. apply Huris. now right.
  - rewrite Hcount. destruct (decide _); lia.
Qed.

Lemma process_batch_from_spec (processed_set uris : list string) :
  forall (i success errors : nat) (table : list Insight.t)
         (success' errors' : nat) (table' : list Insight.t),
  NoDup (Insight.uri <$> table) ->
  process_batch_from i processed_set (success, errors, table) uris
  = inr (success', errors', table') ->
  NoDup (Insight.uri <$> table')
  /\ (success' + errors'
      = success + errors + length (filter (fun u => u ∉ processed_set) uris))%nat
  /\ (success <= success')%nat
  /\ (forall u, u ∈ get_processed_uris table' ->
        u ∈ get_processed_uris table \/ (u ∈ uris /\ u ∉ processed_set))
  /\ (forall u, u ∈ get_processed_uris table -> u ∈ get_processed_uris table')
  /\ (0 <= get_processed_count table' - get_processed_count table
      <= Z.of_nat success' - Z.of_nat success).
Proof.
  induction uris as [| uri uris IH]; intros i success errors table success' errors' table' Hnd.
  - cbn. intros [= <- <- <-]. repeat split; auto; lia.
  - cbn [Extractor.process_batch_from].
    destruct (process_uri (clock i) processed_set (success, errors, table) uri)
      as [c | [[s1 e1] t1]] eqn:Hstep; [discriminate |].
    intros Hrest.
    destruct (process_uri_step _ _ _ _ _ _ _ _ _ Hnd Hstep)
      as (Hnd1 & Hsum1 & Hle1 & Hnew1 & Hold1 & Hcount1).
    destruct (IH _ _ _ _ _ _ _ Hnd1 Hrest)
      as (Hnd2 & Hsum2 & Hle2 & Hnew2 & Hold2 & Hcount2).
    split; [exact Hnd2 |]. split; [| split; [lia | split; [| split; [auto | lia]]]].
    + rewrite Hsum2, Hsum1, filter_cons.
      destruct (decide (uri ∈ processed_set)) as [Hin | Hin].
      * rewrite decide_False by tauto. lia.
      * rewrite decide_True by exact Hin. cbn [length]. lia.
    + intros u Hu. apply Hnew2 in Hu as [Hu | [Hu Hnot]].
      * apply Hnew1 in Hu as [Hu | [-> Hnot]]; [now left | right].
        split; [left | exact Hnot].
      * right. split; [now right | exact Hnot].
Qed.

(** X25. When [process_batch] returns, every URI outside
    [processed_set] was counted once, as a success or as an error, and
    those inside were passed over; the table keeps one row per [uri],
    loses none, gains rows only for URIs of the batch outside
    [processed_set], and at most one per success. *)
Theorem process_batch_counts_the_unprocessed
    (uris processed_set : list string) (table : list Insight.t)
    (success errors : nat) (table' : list Insight.t) :
  NoDup (Insight.uri <$> table) ->
  process_batch uris processed_set table = inr (success, errors, table') ->
  (success + errors = length (filter (fun u => u ∉ processed_set) uris))%nat
  /\ NoDup (Insight.uri <$> table')
  /\ (forall u, u ∈ get_processed_uris table' ->
        u ∈ get_processed_uris table \/ (u ∈ uris /\ u ∉ processed_set))
  /\ (forall u, u ∈ get_processed_uris table -> u ∈ get_processed_uris table')
  /\ get_processed_count table <= get_processed_count table'
     <= get_processed_count table + Z.of_nat success.
Proof.
  intros Hnd Hrun. unfold Extractor.process_batch in Hrun.
  destruct (process_batch_from_spec _ _ _ _ _ _ _ _ _ Hnd Hrun)
    as (Hnd' & Hsum & _ & Hnew & Hold & Hcount).
  split; [lia |]. split; [exact Hnd' |]. split; [exact Hnew |].
  split; [exact Hold | lia].
Qed.

End process_batch.

Lemma process_batch_counts_the_unprocessed_witness :
  process_batch JsonText.loads Examples.insight_ollama Examples.post_texts
    Examples.turn_clock Examples.three_uris [] []
  = inr (1%nat, 2%nat, [Examples.blue_dream_insight 1767400000000000])
  /\ (1 + 2 = length (filter (fun u => u ∉ ([] : list string)) Examples.three_uris))%nat.
Proof.
  assert (Hrun : process_batch JsonText.loads Examples.insight_ollama
                   Examples.post_texts Examples.turn_clock Examples.three_uris [] []
                 = inr (1%nat, 2%nat, [Examples.blue_dream_insight 1767400000000000]))
    by (vm_compute; reflexivity).
  split; [exact Hrun |].
  assert (Hnd : NoDup (Insight.uri <$> ([] : list Insight.t))) by constructor.
  destruct (process_batch_counts_the_unprocessed JsonText.loads
              Examples.insight_ollama Examples.post_texts Examples.turn_clock
              Examples.three_uris [] [] 1 2
              [Examples.blue_dream_insight 1767400000000000] Hnd Hrun)
    as (Hsum & _).
  exact Hsum.
Defined.

End ExtractorFacts.

(** ** The batch processor *)

Module InsightBatchFacts.
Import Extractor Batch.

Lemma filter_sublist_impl {A : Type} (P Q : A -> Prop)
    `{forall x, Decision (P x)} `{forall x, Decision (Q x)} (l : list A) :
  (forall x, P x -> Q x) -> filter P l `sublist_of` filter Q l.
Proof.
  intros Himpl. induction l as [| a l IH]; [constructor |].
  rewrite !filter_cons. destruct (decide (P a)) as [Hp | Hp].
  - rewrite decide_True by auto. now constructor.
  - destruct (decide (Q a)); [now constructor | exact IH].
Qed.

(** X26. [fetch_posts_from_db] returns the URIs of the query that
    have no row in [insights], in the order of the query (newest
    first), each as often as the query gave it; when the query fails it
    returns no URI. *)
Theorem fetch_returns_the_unprocessed_in_order
    (table : list Insight.t) (uris : result (list string)) :
  let new_uris := fetch_posts_from_db table uris in
  match uris with
  | Ok found =>
      new_uris `sublist_of` found
      /\ (forall u, u ∈ new_uris <-> u ∈ found /\ u ∉ get_processed_uris table)
      /\ (NoDup found -> NoDup new_uris)
      /\ (table = [] -> new_uris = found)
  | Raise _ => new_uris = []
  end.
Proof.
  intros new_uris. subst new_uris. unfold fetch_posts_from_db.
  destruct uris as [found | e]; [| reflexivity].
  split; [apply sublist_filter |]. split; [| split].
  - intros u. rewrite list_elem_of_filter. tauto.
  - apply NoDup_filter.
  - intros ->. cbn. induction found as [| u found IH]; [reflexivity |].
    rewrite filter_cons, decide_True by (intros H; inversion H). now rewrite IH.
Qed.

Section batch.

Variable json_loads : string -> option Json.t.
Variable ollama : string -> HttpReply.
Variable fetch_post_text : string -> option string.
Variable clock : nat -> Z.

Local Abbreviation process_post := (process_post json_loads ollama fetch_post_text).
Local Abbreviation process_posts_from :=
  (process_posts_from json_loads ollama fetch_post_text clock).
Local Abbreviation process_posts :=
  (process_posts json_loads ollama fetch_post_text clock).

Lemma process_post_step (now : Z) (tally tally' : Tally.t) (uri : string) :
  NoDup (Insight.uri <$> Tally.insights tally) ->
  process_post now tally uri = inr tally' ->
  NoDup (Insight.uri <$> Tally.insights tally')
  /\ (Tally.success tally' + Tally.errors tally' + Tally.skipped tally'
      = Tally.success tally + Tally.errors tally + Tally.skipped tally + 1)%nat
  /\ (Tally.success tally <= Tally.success tally')%nat
  /\ (forall u, u ∈ get_processed_uris (Tally.insights tally') ->
        u ∈ get_processed_uris (Tally.insights tally) \/ u = uri)
  /\ (forall u, u ∈ get_processed_uris (Tally.insights tally) ->
        u ∈ get_processed_uris (Tally.insights tally'))
  /\ (0 <= get_processed_count (Tally.insights tally')
           - get_processed_count (Tally.insights tally)
      <= Z.of_nat (Tally.success tally') - Z.of_nat (Tally.success tally)).
Proof.
  intros Hnd. unfold Batch.process_post.
  assert (Hsame : forall r : crash + Tally.t,
             (exists success errors skipped,
                 (success + errors + skipped
                  = Tally.success tally + Tally.errors tally + Tally.skipped tally + 1)%nat
                 /\ (Tally.success tally <= success)%nat
                 /\ r = inr {| Tally.success := success; Tally.errors := errors;
                               Tally.skipped := skipped;
                               Tally.insights := Tally.insights tally |}) ->
             r = inr tally' ->
             NoDup (Insight.uri <$> Tally.insights tally')
               /\ (Tally.success tally' + Tally.errors tally' + Tally.skipped tally'
                   = Tally.success tally + Tally.errors tally + Tally.skipped tally + 1)%nat
               /\ (Tally.success tally <= Tally.success tally')%nat
               /\ (forall u, u ∈ get_processed_uris (Tally.insights tally') ->
                     u ∈ get_processed_uris (Tally.insights tally) \/ u = uri)
               /\ (forall u, u ∈ get_processed_uris (Tally.insights tally) ->
                     u ∈ get_processed_uris (Tally.insights tally'))
               /\ (0 <= get_processed_count (Tally.insights tally')
                        - get_processed_count (Tally.insights tally)
                   <= Z.of_nat (Tally.success tally') - Z.of_nat (Tally.success tally))).
  { intros r (success & errors & skipped & Hsum & Hle & ->) [= <-]. cbn.
    repeat split; auto; lia. }
  assert (Hskip : exists success errors skipped,
             (success + errors + skipped
              = Tally.success tally + Tally.errors tally + Tally.skipped tally + 1)%nat
             /\ (Tally.success tally <= success)%nat
             /\ (inr {| Tally.success := Tally.success tally;
                        Tally.errors := Tally.errors tally;
                        Tally.skipped := S (Tally.skipped tally);
                        Tally.insights := Tally.insights tally |}
                 : crash + Tally.t)
                = inr {| Tally.success := success; Tally.errors := errors;
                         Tally.skipped := skipped;
                         Tally.insights := Tally.insights tally |})
    by (eexists _, _, _; split; [| split; [| reflexivity]]; lia).
  assert (Herror : exists success errors skipped,
             (success + errors + skipped
              = Tally.success tally + Tally.errors tally + Tally.skipped tally + 1)%nat
             /\ (Tally.success tally <= success)%nat
             /\ (inr {| Tally.success := Tally.success tally;
                        Tally.errors := S (Tally.errors tally);
                        Tally.skipped := Tally.skipped tally;
                        Tally.insights := Tally.insights tally |}
                 : crash + Tally.t)
                = inr {| Tally.success := success; Tally.errors := errors;
                         Tally.skipped := skipped;
                         Tally.insights := Tally.insights tally |})
    by (eexists _, _, _; split; [| split; [| reflexivity]]; lia).
  destruct (fetch_post_text uri) as [text |]; [| exact (Hsame _ Hskip)].
  destruct (decide (text = "")); [exact (Hsame _ Hskip) |].
  destruct (String.length text <? 10)%nat; [exact (Hsame _ Hskip) |].
  destruct (Extractor.extract_insights json_loads ollama text) as [insights |];
    [| exact (Hsame _ Herror)].
  destruct (Json.truthy insights); [| exact (Hsame _ Herror)].
  destruct (save_insight now uri text insights (Tally.insights tally))
    as [c | saved] eqn:Hsave; [discriminate |].
  intros [= <-].
  destruct (ExtractorFacts.save_insight_table now uri text insights
              (Tally.insights tally) saved Hnd Hsave) as (Hnd' & Huris & Hcount).
  cbn.
  split; [exact Hnd' |]. split; [lia |]. split; [lia |]. split; [| split].
  - intros u Hu. apply Huris in Hu as [-> | Hu]; [now right | now left].
  - intros u Hu. apply Huris. now right.
  - rewrite Hcount. destruct (decide _); lia.
Qed.

Lemma process_posts_from_spec (uris : list string) :
  forall (i : nat) (tally tally' : Tally.t),
  NoDup (Insight.uri <$> Tally.insights tally) ->
  process_posts_from i tally uris = inr tally' ->
  NoDup (Insight.uri <$> Tally.insights tally')
  /\ (Tally.success tally' + Tally.errors tally' + Tally.skipped tally'
      = Tally.success tally + Tally.errors tally + Tally.skipped tally + length uris)%nat
  /\ (Tally.success tally <= Tally.success tally')%nat
  /\ (forall u, u ∈ get_processed_uris (Tally.insights tally') ->
        u ∈ get_processed_uris (Tally.insights tally) \/ u ∈ uris)
  /\ (forall u, u ∈ get_processed_uris (Tally.insights tally) ->
        u ∈ get_processed_uris (Tally.insights tally'))
  /\ (0 <= get_processed_count (Tally.insights tally')
           - get_processed_count (Tally.insights tally)
      <= Z.of_nat (Tally.success tally') - Z.of_nat (Tally.success tally)).
Proof.
  induction uris as [| uri uris IH]; intros i tally tally' Hnd.
  - cbn. intros [= <-]. repeat split; auto; lia.
  - cbn [Batch.process_posts_from].
    destruct (process_post (clock i) tally uri) as [c | tally1] eqn:Hstep;
      [discriminate |].
    intros Hrest.
    destruct (process_post_step _ _ _ _ Hnd Hstep)
      as (Hnd1 & Hsum1 & Hle1 & Hnew1 & Hold1 & Hcount1).
    destruct (IH _ _ _ Hnd1 Hrest) as (Hnd2 & Hsum2 & Hle2 & Hnew2 & Hold2 & Hcount2).
    cbn [length] in *.
    split; [exact Hnd2 |]. split; [lia |]. split; [lia |].
    split; [| split; [auto | lia]].
    intros u Hu. apply Hnew2 in Hu as [Hu | Hu]; [| right; now right].
    apply Hnew1 in Hu as [Hu | ->]; [now left |]. right. left.
Qed.

(** X27. When [process_posts] returns, each of the first [max_posts]
    URIs was counted once, as a success, an error or a skip; the
    [insights] table keeps one row per [uri], loses none, gains rows only
    for URIs among those first [max_posts], and at most one per
    success. *)
Theorem process_posts_counts_every_post
    (uris : list string) (max_posts : nat) (table : list Insight.t) (tally : Tally.t) :
  NoDup (Insight.uri <$> table) ->
  process_posts uris max_posts table = inr tally ->
  (Tally.success tally + Tally.errors tally + Tally.skipped tally
   = Nat.min max_posts (length uris))%nat
  /\ NoDup (Insight.uri <$> Tally.insights tally)
  /\ (forall u, u ∈ get_processed_uris (Tally.insights tally) ->
        u ∈ get_processed_uris table \/ u ∈ take max_posts uris)
  /\ (forall u, u ∈ get_processed_uris table ->
        u ∈ get_processed_uris (Tally.insights tally))
  /\ get_processed_count table <= get_processed_count (Tally.insights tally)
     <= get_processed_count table + Z.of_nat (Tally.success tally).
Proof.
  intros Hnd Hrun. unfold Batch.process_posts in Hrun.
  destruct (process_posts_from_spec _ _ _ _ (Hnd : NoDup (Insight.uri <$> Tally.insights
              {| Tally.success := 0; Tally.errors := 0; Tally.skipped := 0;
                 Tally.insights := table |})) Hrun)
    as (Hnd' & Hsum & _ & Hnew & Hold & Hcount).
  cbn in Hsum, Hnew, Hold, Hcount.
  rewrite length_take in Hsum.
  split; [lia |]. split; [exact Hnd' |]. split; [exact Hnew |].
  split; [exact Hold | lia].
Qed.

(** X28. What a later fetch returns is part of what an earlier one
    returned, in the same order: a run of [process_posts] between the
    two only takes URIs away, and no URI with a row in [insights] comes
    back. *)
Theorem processed_posts_are_not_fetched_again
    (uris found : list string) (max_posts : nat) (table : list Insight.t)
    (tally : Tally.t) :
  NoDup (Insight.uri <$> table) ->
  process_posts uris max_posts table = inr tally ->
  let later := fetch_posts_from_db (Tally.insights tally) (Ok found) in
  later `sublist_of` fetch_posts_from_db table (Ok found)
  /\ (forall u, u ∈ later -> u ∉ get_processed_uris (Tally.insights tally))
  /\ (length later <= length (fetch_posts_from_db table (Ok found)))%nat.
Proof.
  intros Hnd Hrun later. subst later.
  destruct (process_posts_from_spec _ _ _ _ (Hnd : NoDup (Insight.uri <$> Tally.insights
              {| Tally.success := 0; Tally.errors := 0; Tally.skipped := 0;
                 Tally.insights := table |})) Hrun)
    as (_ & _ & _ & _ & Hold & _).
  cbn in Hold.
  assert (Hsub : fetch_posts_from_db (Tally.insights tally) (Ok found)
                 `sublist_of` fetch_posts_from_db table (Ok found)).
  { unfold fetch_posts_from_db. apply filter_sublist_impl.
    intros u Hu Hin. apply Hu, Hold, Hin. }
  split; [exact Hsub |]. split; [| now apply sublist_length].
  intros u Hu. unfold fetch_posts_from_db in Hu.
  now apply list_elem_of_filter in Hu as [Hu _].
Qed.

End batch.

Lemma process_posts_counts_every_post_witness :
  process_posts JsonText.loads Examples.insight_ollama Examples.post_texts
    Examples.turn_clock Examples.three_uris 2 []
  = inr {| Tally.success := 1; Tally.errors := 0; Tally.skipped := 1;
           Tally.insights := [Examples.blue_dream_insight 1767400000000000] |}
  /\ (1 + 0 + 1 = Nat.min 2 (length Examples.three_uris))%nat.
Proof.
  assert (Hrun : process_posts JsonText.loads Examples.insight_ollama
                   Examples.post_texts Examples.turn_clock Examples.three_uris 2 []
                 = inr {| Tally.success := 1; Tally.errors := 0; Tally.skipped := 1;
                          Tally.insights :=
                            [Examples.blue_dream_insight 1767400000000000] |})
    by (vm_compute; reflexivity).
  split; [exact Hrun |].
  assert (Hnd : NoDup (Insight.uri <$> ([] : list Insight.t))) by constructor.
  destruct (process_posts_counts_every_post JsonText.loads Examples.insight_ollama
              Examples.post_texts Examples.turn_clock Examples.three_uris 2 [] _
              Hnd Hrun) as (Hsum & _).
  exact Hsum.
Defined.

Lemma processed_posts_are_not_fetched_again_witness :
  let later :=
    fetch_posts_from_db [Examples.blue_dream_insight 1767400000000000]
      (Ok Examples.three_uris) in
  later `sublist_of` fetch_posts_from_db [] (Ok Examples.three_uris)
  /\ "at://did:plc:alice/app.bsky.feed.post/3kabc" ∉ later.
Proof.
  intros later.
  assert (Hrun : process_posts JsonText.loads Examples.insight_ollama
                   Examples.post_texts Examples.turn_clock Examples.three_uris 2 []
                 = inr {| Tally.success := 1; Tally.errors := 0; Tally.skipped := 1;
                          Tally.insights :=
                            [Examples.blue_dream_insight 1767400000000000] |})
    by (vm_compute; reflexivity).
  assert (Hnd : NoDup (Insight.uri <$> ([] : list Insight.t))) by constructor.
  destruct (processed_posts_are_not_fetched_again JsonText.loads
              Examples.insight_ollama Examples.post_texts Examples.turn_clock
              Examples.three_uris Examples.three_uris 2 [] _ Hnd Hrun)
    as (Hsub & Hnot & _).
  split; [exact Hsub |].
  intros Hin. apply (Hnot _ Hin). left.
Defined.

End InsightBatchFacts.
